(** * The LaTeX-to-document converter of pyconduit (shared/latex)

    A shallow embedding of [pyconduit/shared/latex/core.py] and
    [pyconduit/shared/latex/converter.py], and the properties of the
    rewrite engine, the command classes, the metadata folder and
    [build_latex] that the specification states.

    Python strings are sequences of Unicode code points; dictionaries
    whose keys are fixed identifiers ([kwargs], the shared context) are
    [gmap]s, the command table is an insertion-ordered association list
    (its key order is what [find_all] is called with).  Exceptions are an
    explicit result type, and functions that mutate their arguments
    return the new state.  The parse tree belongs to the external parser
    and is an interface ([TexSoupAPI]): the properties of the engine hold
    for whatever the parser does, and the worked examples run on a small
    concrete tree ([Arena]). *)

From Stdlib Require Import ZArith Lia Ascii String Decimal.
From stdpp Require Import gmap strings list.

Local Open Scope Z_scope.

(** ** Python strings *)

Module PyStr.

Abbreviation pystr := (list Z).

(** An ASCII literal of the source as a Python string. *)
Definition py (s : string) : pystr :=
  (λ a, Z.of_nat (nat_of_ascii a)) <$> list_ascii_of_string s.

Definition nl : Z := 10.
Definition backslash : Z := 92.
Definition percent : Z := 37.
Definition hash : Z := 35.
Definition lbrace : Z := 123.
Definition rbrace : Z := 125.
Definition lparen : Z := 40.
Definition rparen : Z := 41.

Definition str_eqb (a b : pystr) : bool := bool_decide (a = b).

Fixpoint is_prefix (p s : pystr) : bool :=
  match p, s with
  | [], _ => true
  | a :: p', b :: s' => (a =? b) && is_prefix p' s'
  | _ :: _, [] => false
  end.

(** [s.find(sub)]: the index of the first occurrence. *)
Fixpoint find (sub s : pystr) : option nat :=
  if is_prefix sub s then Some 0%nat
  else match s with
       | [] => None
       | _ :: t => S <$> find sub t
       end.

(** [sub in s] *)
Definition contains (sub s : pystr) : bool :=
  match find sub s with Some _ => true | None => false end.

(** [s.split(sep, 1)]: one or two pieces. *)
Definition split1 (sep s : pystr) : pystr * option pystr :=
  match find sep s with
  | Some i => (take i s, Some (drop (i + length sep) s))
  | None => (s, None)
  end.

(** [s.replace(old, new)]: non-overlapping occurrences, left to right.
    [skip] counts the characters of a replaced occurrence still to pass. *)
Fixpoint replace_go (old new : pystr) (skip : nat) (s : pystr) : pystr :=
  match s with
  | [] => []
  | c :: t =>
      match skip with
      | S k => replace_go old new k t
      | O =>
          if is_prefix old s
          then new ++ replace_go old new (length old - 1) t
          else c :: replace_go old new 0 t
      end
  end.

Definition replace (old new s : pystr) : pystr :=
  match old with
  | [] => new ++ flat_map (λ c, c :: new) s
  | _ :: _ => replace_go old new 0 s
  end.

(** [sep.join(parts)] *)
Fixpoint join (sep : pystr) (parts : list pystr) : pystr :=
  match parts with
  | [] => []
  | [p] => p
  | p :: rest => p ++ sep ++ join sep rest
  end.

(** [str.isspace] on one code point: the Unicode White_Space characters
    together with the separators U+001C..U+001F. *)
Definition is_space (c : Z) : bool :=
  ((9 <=? c) && (c <=? 13)) || ((28 <=? c) && (c <=? 32))
  || (c =? 133) || (c =? 160) || (c =? 5760)
  || ((8192 <=? c) && (c <=? 8202))
  || (c =? 8232) || (c =? 8233) || (c =? 8239) || (c =? 8287) || (c =? 12288).

Fixpoint lstrip (s : pystr) : pystr :=
  match s with
  | [] => []
  | c :: t => if is_space c then lstrip t else s
  end.

Definition rstrip (s : pystr) : pystr := reverse (lstrip (reverse s)).

(** [s.strip()] *)
Definition strip (s : pystr) : pystr := rstrip (lstrip s).

Fixpoint uint_str (d : Decimal.uint) : pystr :=
  match d with
  | Nil => []
  | D0 r => 48 :: uint_str r
  | D1 r => 49 :: uint_str r
  | D2 r => 50 :: uint_str r
  | D3 r => 51 :: uint_str r
  | D4 r => 52 :: uint_str r
  | D5 r => 53 :: uint_str r
  | D6 r => 54 :: uint_str r
  | D7 r => 55 :: uint_str r
  | D8 r => 56 :: uint_str r
  | D9 r => 57 :: uint_str r
  end.

(** [str(n)] for an integer. *)
Definition int_str (n : Z) : pystr :=
  match Z.to_int n with
  | Decimal.Pos d => uint_str d
  | Decimal.Neg d => 45 :: uint_str d
  end.

Definition is_digit (c : Z) : bool := (48 <=? c) && (c <=? 57).

(** A Python string is truthy when it is not empty. *)
Definition truthy (s : pystr) : bool :=
  match s with [] => false | _ :: _ => true end.

End PyStr.
Export PyStr.

(** ** Exceptions *)

(** The messages of the [ValueError]s the converter raises. *)
Inductive Message :=
| InvalidArgumentCount (name : pystr) (expected got : Z)
    (* "Invalid number of arguments for command ..." *)
| InvalidEnvArgumentCount (name : pystr) (got : Z)
    (* "Invalid number of arguments for environment ..." *)
| ItemExpected (child : pystr)
    (* "ItemExtracted nodes should begin with an \item command ..." *)
| InvalidCommand (name replace_name : pystr)
    (* "Invalid command \... Use \... instead." *)
| MalformedNewcommand (cmd : pystr)
    (* "Malformed \newcommand: ..." *)
| FileSizeLimitExceeded (char_limit soup_len : Z)
    (* "File size limit exceeded (max size ..., got size ...)." *)
| NestingLimitExceeded (nesting_limit : Z)
    (* "Command nesting limit of ... exceeded." *)
| ExcessStackingLimit
    (* "Excess stacking limit reached" *)
| Localized (key : string)
    (* locale["exceptions"][key] *)
| UnknownNode (node : pystr)
    (* "Unknown node: ..." *)
| BadFormatString
    (* raised by str.format and the % operator on a broken template *)
| InvalidLiteral (s : pystr)
    (* raised by int() *)
| ChrRange
    (* raised by chr() *)
| NotEnoughValues.
    (* raised by a tuple assignment with too few values *)

Inductive Exception :=
| ValueError (m : Message)
| TypeError
| IndexError
| KeyError (key : pystr)
| ParserError.  (* whatever the external parser raises on its input *)

(** The outcome of a call: a value, a raised exception, or a run that
    leaves the modelled fragment of Python (a format field with a
    conversion or a format specification, an exotic integer literal);
    nothing is stated about runs of the third kind. *)
Inductive Exc (A : Type) :=
| Ok (a : A)
| Raise (e : Exception)
| Unmodelled.
Arguments Ok {A} a.
Arguments Raise {A} e.
Arguments Unmodelled {A}.

#[global] Instance Exc_ret : MRet Exc := λ A a, Ok a.
#[global] Instance Exc_bind : MBind Exc := λ A B f m,
  match m with
  | Ok a => f a
  | Raise e => Raise e
  | Unmodelled => Unmodelled
  end.

(** ** Templates: the [#n] placeholders, [str.format] and [%] *)

Module Template.

(** [hash_regex.sub(lambda t: f"{t[1]}{{{int(t[2]) - 1}}}", content)] with
    [hash_regex = (^|[^\\])#([0-9])]: a [#d] at the very start of the
    string, or after any character but a backslash, becomes [{d-1}]; the
    character before it is kept and the scan resumes after the digit. *)
Definition placeholder (d : Z) : pystr := lbrace :: int_str (d - 48 - 1) ++ [rbrace].

Fixpoint hash_sub (at_start : bool) (s : pystr) : pystr :=
  match s with
  | [] => []
  | c :: t =>
      match t with
      | [] => [c]
      | d :: t' =>
          if at_start && (c =? hash) && is_digit d
          then placeholder d ++ hash_sub false t'
          else
            match t' with
            | [] => c :: hash_sub false t
            | e :: t'' =>
                if negb (c =? backslash) && (d =? hash) && is_digit e
                then c :: placeholder e ++ hash_sub false t''
                else c :: hash_sub false t
            end
      end
  end.

(** What a replacement field of [str.format] names. *)
Inductive Numbering := Unset | Manual | Automatic (next : nat).

Fixpoint digits_value (acc : nat) (s : pystr) : nat :=
  match s with
  | [] => acc
  | c :: t => digits_value (10 * acc + Z.to_nat (c - 48)) t
  end.

Definition field_special (c : Z) : bool :=
  (c =? 46) || (c =? 91) || (c =? 33) || (c =? 58) || (c =? lbrace).

(** One replacement field [{name}] against the positional arguments (there
    are no keyword arguments in [content.format( *args)]). *)
Definition format_field (name : pystr) (num : Numbering) (args : list pystr)
  : Exc (pystr * Numbering) :=
  match name with
  | [] =>
      match num with
      | Manual => Raise (ValueError BadFormatString)
      | Unset =>
          match args !! 0%nat with
          | Some a => Ok (a, Automatic 1)
          | None => Raise IndexError
          end
      | Automatic i =>
          match args !! i with
          | Some a => Ok (a, Automatic (S i))
          | None => Raise IndexError
          end
      end
  | _ :: _ =>
      if forallb is_digit name then
        if (18 <? length name)%nat then Unmodelled
        else
          match num with
          | Automatic _ => Raise (ValueError BadFormatString)
          | _ =>
              match args !! digits_value 0 name with
              | Some a => Ok (a, Manual)
              | None => Raise IndexError
              end
          end
      else Raise (KeyError name)
  end.

(** [field] is [None] in literal text and [Some acc] inside a replacement
    field whose name read so far is [acc] reversed. *)
Fixpoint format_go (tpl : pystr) (field : option pystr) (num : Numbering)
    (args : list pystr) : Exc pystr :=
  match tpl with
  | [] =>
      match field with
      | None => Ok []
      | Some _ => Raise (ValueError BadFormatString)
      end
  | c :: t =>
      match field with
      | Some acc =>
          if c =? rbrace then
            '(v, num') ← format_field (reverse acc) num args;
            r ← format_go t None num' args;
            Ok (v ++ r)
          else if field_special c then Unmodelled
          else format_go t (Some (c :: acc)) num args
      | None =>
          if c =? lbrace then
            match t with
            | c' :: t' =>
                if c' =? lbrace
                then r ← format_go t' None num args; Ok (lbrace :: r)
                else format_go t (Some []) num args
            | [] => Raise (ValueError BadFormatString)
            end
          else if c =? rbrace then
            match t with
            | c' :: t' =>
                if c' =? rbrace
                then r ← format_go t' None num args; Ok (rbrace :: r)
                else Raise (ValueError BadFormatString)
            | [] => Raise (ValueError BadFormatString)
            end
          else r ← format_go t None num args; Ok (c :: r)
      end
  end.

(** [tpl.format( *args)] *)
Definition format (tpl : pystr) (args : list pystr) : Exc pystr :=
  format_go tpl None Unset args.

(** Values of the mapping on the right of [%]. *)
Inductive FVal := FInt (n : Z) | FStr (s : pystr).

Inductive PctState :=
| PText                      (* literal text *)
| PPercent                   (* just after a [%] *)
| PKey (acc : pystr)         (* inside [%(...] *)
| PConv (v : FVal).          (* after [%(key)], the value found, before the
                                conversion type *)

(** [tpl % data] for a mapping [data]: [%(key)s], [%(key)i], [%(key)d]
    and [%%]. *)
Fixpoint percent_go (tpl : pystr) (st : PctState) (data : gmap pystr FVal)
  : Exc pystr :=
  match tpl with
  | [] =>
      match st with
      | PText => Ok []
      | _ => Raise (ValueError BadFormatString)
      end
  | c :: t =>
      match st with
      | PText =>
          if c =? percent then percent_go t PPercent data
          else r ← percent_go t PText data; Ok (c :: r)
      | PPercent =>
          if c =? percent then r ← percent_go t PText data; Ok (percent :: r)
          else if c =? lparen then percent_go t (PKey []) data
          else Unmodelled
      | PKey acc =>
          if c =? rparen then
            match data !! reverse acc with
            | Some v => percent_go t (PConv v) data
            | None => Raise (KeyError (reverse acc))
            end
          else if c =? lparen then Unmodelled
          else percent_go t (PKey (c :: acc)) data
      | PConv v =>
          if c =? 115 (* s *) then
            r ← percent_go t PText data;
            Ok (match v with FInt n => int_str n | FStr s => s end ++ r)
          else if (c =? 105) || (c =? 100) (* i, d *) then
            match v with
            | FInt n => r ← percent_go t PText data; Ok (int_str n ++ r)
            | FStr _ => Raise TypeError
            end
          else Unmodelled
      end
  end.

Definition percent_format (tpl : pystr) (data : gmap pystr FVal) : Exc pystr :=
  percent_go tpl PText data.

End Template.
Export Template.

(** ** Metadata nodes (core.py, [MetadataNode]) *)

(** Values held in a node's attribute bag. *)
Inductive PyVal :=
| VStr (s : pystr)
| VBool (b : bool).

#[global] Instance PyVal_eq_dec : EqDecision PyVal.
Proof. solve_decision. Defined.

Record MetadataNode := mkMetadataNode {
  collect_text : bool;
  kwargs : gmap string PyVal;
}.

#[global] Instance MetadataNode_eq_dec : EqDecision MetadataNode.
Proof. solve_decision. Defined.

(** [MetadataNode(cls, collect_text, **kwargs)] *)
Definition MetadataNode_init (cls : pystr) (collect_text : bool)
    (kw : gmap string PyVal) : MetadataNode :=
  mkMetadataNode collect_text (<["cls" := VStr cls]> kw).

Definition text_node : MetadataNode := MetadataNode_init (py "text") true ∅.

Definition double_newline : pystr := [nl; nl].

(** [node.collect(text)]: the node after the call (its [kwargs] are
    updated in place), the attribute bag when an object is complete, and
    the excess text.  [text = None] is the flush sentinel. *)
Definition collect (self : MetadataNode) (text : option pystr)
  : Exc (MetadataNode * option (gmap string PyVal) * pystr) :=
  let kw :=
    if collect_text self && bool_decide (kwargs self !! "text" = None)
    then <["text" := VStr []]> (kwargs self)
    else kwargs self in
  match collect_text self, text with
  | true, Some t =>
      match kw !! "text" with
      | Some (VStr buf) =>
          Ok (mkMetadataNode true (<["text" := VStr (buf ++ t)]> kw), None, [])
      | Some (VBool _) => Raise TypeError
      | None => Raise (KeyError (py "text"))
      end
  | false, _ => Ok (mkMetadataNode false kw, Some kw, [])
  | true, None =>
      match kw !! "text" with
      | Some (VStr buf) =>
          if truthy buf then
            if contains double_newline buf then
              match split1 double_newline buf with
              | (before, Some after) =>
                  let kw' := <["text" := VStr before]> kw in
                  Ok (mkMetadataNode true kw', Some kw', after)
              | (_, None) => Raise (ValueError NotEnoughValues)
              end
            else Ok (mkMetadataNode true kw, Some kw, [])
          else Ok (mkMetadataNode true kw, None, [])
      | Some (VBool b) =>
          if b then Raise TypeError else Ok (mkMetadataNode true kw, None, [])
      | None => Raise (KeyError (py "text"))
      end
  end.

(** [for x in xs: ...] with a body that may raise. *)
Fixpoint traverse {A B} (f : A → Exc B) (xs : list A) : Exc (list B) :=
  match xs with
  | [] => Ok []
  | x :: rest => y ← f x; ys ← traverse f rest; Ok (y :: ys)
  end.

(** ** The external parser

    The tree is owned by the parsing library (TexSoup); the converter
    only uses the operations below.  A [Soup] is the whole tree in its
    current state, a [Node] one expression of it, by identity: the nodes
    a query yields are handles, and what the converter reads from a node
    ([args], [contents], [str]) is read in the tree as it is at that
    moment.  Strings, tokens and [TexText] leaves are one kind of item. *)

Inductive Item (Node : Type) :=
| IStr (s : pystr)           (* a [str], [Token] or [TexText] leaf *)
| INode (n : Node)           (* an expression: command, environment, group, math *)
| IMeta (m : MetadataNode).  (* a marker the rewrite engine spliced in *)
Arguments IStr {Node} s.
Arguments INode {Node} n.
Arguments IMeta {Node} m.

Record Group (Node : Type) := mkGroup {
  gname : pystr;                   (* "BraceGroup" or "BracketGroup" *)
  gcontents : list (Item Node);
}.
Arguments mkGroup {Node} gname gcontents.
Arguments gname {Node} g.
Arguments gcontents {Node} g.

Class TexSoupAPI := {
  Soup : Type;
  Node : Type;
  Node_eq_dec :: EqDecision Node;
  (** [TexSoup(latext)] *)
  TexSoup : pystr → Exc Soup;
  (** the root node, [soup] itself *)
  root : Soup → Node;
  (** [soup.find_all(names)], the nodes it yields, in its order *)
  find_all : Soup → list pystr → list Node;
  (** [node.name] *)
  node_name : Node → pystr;
  (** [isinstance(node, TexCmd)] *)
  is_TexCmd : Node → bool;
  (** [bool(node)] *)
  node_truth : Soup → Node → bool;
  (** [node.args] *)
  node_args : Soup → Node → list (Group Node);
  (** [node.contents] *)
  node_contents : Soup → Node → list (Item Node);
  (** [str(node)] *)
  to_str : Soup → Node → pystr;
  (** [node.parent] *)
  parent : Soup → Node → Node;
  (** [node.args[i]._contents = items] *)
  set_arg_contents : Soup → Node → nat → list (Item Node) → Soup;
  (** [node.replace(child, *items)] *)
  replace_child : Soup → Node → Node → list (Item Node) → Soup;
  (** [node.remove(child)] *)
  remove : Soup → Node → Node → Soup;
  (** [node.expr.contents = items] *)
  set_contents : Soup → Node → list (Item Node) → Soup;
}.

(** ** Configuration ([get_config("latex")]) *)

Record Config := mkConfig {
  character_limit : Z;        (* compilation.character-limit *)
  command_nesting_limit : Z;  (* compilation.command-nesting-limit *)
  excess_stacking : Z;        (* compilation.excess-stacking *)
  first_letter : Z;           (* ord of iterators.first-letter *)
  letter_skips : list Z;      (* the characters of iterators.letter-skips *)
}.

Definition priority_cap : Z := 10000.

(** [sorted(set(xs), reverse=True)] *)
Fixpoint insert_desc (x : Z) (l : list Z) : list Z :=
  match l with
  | [] => [x]
  | y :: t =>
      if x =? y then l
      else if y <? x then x :: l
      else y :: insert_desc x t
  end.

Definition sorted_set_desc (xs : list Z) : list Z :=
  foldr insert_desc [] xs.

(** [chr(n)] *)
Definition chr (n : Z) : Exc pystr :=
  if (0 <=? n) && (n <? 1114112) then Ok [n] else Raise (ValueError ChrRange).

(** [int(s)] for a string: optional surrounding white space, an optional
    sign, ASCII digits. *)
Fixpoint digits_Z (acc : Z) (s : pystr) : Z :=
  match s with
  | [] => acc
  | c :: t => digits_Z (10 * acc + (c - 48)) t
  end.

Definition int_of_str (s : pystr) : Exc Z :=
  let body := strip s in
  let '(neg, ds) :=
    match body with
    | 45 :: t => (true, t)
    | 43 :: t => (false, t)
    | _ => (false, body)
    end in
  match ds with
  | [] => Raise (ValueError (InvalidLiteral s))
  | _ :: _ =>
      if forallb is_digit ds
      then Ok (if neg then - digits_Z 0 ds else digits_Z 0 ds)
      else if existsb (λ c, (c =? 95) || (127 <? c)) ds then Unmodelled
      else Raise (ValueError (InvalidLiteral s))
  end.

(** ** Insertion-ordered dictionaries (the command table) *)

Section Dict.
Context {V : Type}.

Fixpoint dict_get (k : pystr) (d : list (pystr * V)) : option V :=
  match d with
  | [] => None
  | (k', v) :: rest => if str_eqb k k' then Some v else dict_get k rest
  end.

(** [d[k] = v]: an existing key keeps its place, a new one goes last. *)
Fixpoint dict_set (k : pystr) (v : V) (d : list (pystr * V)) : list (pystr * V) :=
  match d with
  | [] => [(k, v)]
  | (k', v') :: rest =>
      if str_eqb k k' then (k, v) :: rest else (k', v') :: dict_set k v rest
  end.

Definition dict_has (k : pystr) (d : list (pystr * V)) : bool :=
  match dict_get k d with Some _ => true | None => false end.
End Dict.

(** ** Commands (core.py) *)

Section Converter.
Context `{api : TexSoupAPI} (cfg : Config).

Inductive CommandClass :=
| TextCommand (content : pystr) (num_args : Z)
    (optional_arg : option (Item Node)) (trim_contents : bool)
| ItemExtractor (fmt : pystr)
| TextEnv (content : pystr) (num_args : Z) (metaname : pystr)
    (optional_arg : option (Item Node)) (trim_contents : bool)
| ErrorCommand (replace_name : pystr)
| GlobalConfig (target_name : string) (strip_value : bool)
| ProblemMacro (fmt : pystr) (letter problem : option Z)
    (conduit_include : bool) (cfmt : pystr).

(** [priority] is the attribute [set_priority] writes (0 in the class). *)
Record LatexCommand := mkCommand {
  priority : Z;
  class : CommandClass;
}.

Definition set_priority (c : LatexCommand) (prio : Z) : LatexCommand :=
  mkCommand prio (class c).

Definition get_priority (c : LatexCommand) : Z :=
  match class c with
  | TextEnv _ _ _ _ _ => -1
  | ProblemMacro _ _ _ _ _ => -333
  | _ => priority c
  end.

Abbreviation CommandTable := (list (pystr * LatexCommand)).

(** What a caller hands to [TextCommand.__init__] as [content]: a string,
    or (from [soup_to_command]) the content list of a group. *)
Inductive ContentArg :=
| ContentStr (s : pystr)
| ContentSeq (items : list (Item Node)).

(** [TextCommand(content, num_args, optional_arg, trim_contents)] for a
    string [content]. *)
Definition TextCommand_of_str (content : pystr) (num_args : Z)
    (optional_arg : option (Item Node)) (trim_contents : bool) : LatexCommand :=
  mkCommand 0 (TextCommand (hash_sub true content) num_args optional_arg trim_contents).

(** [TextCommand.__init__]: [hash_regex.sub] accepts a string only. *)
Definition TextCommand_init (content : ContentArg) (num_args : Z)
    (optional_arg : option (Item Node)) (trim_contents : bool) : Exc LatexCommand :=
  match content with
  | ContentStr s => Ok (TextCommand_of_str s num_args optional_arg trim_contents)
  | ContentSeq _ => Raise TypeError
  end.

Definition TextEnv_init (content : pystr) (num_args : Z) (metaname : pystr)
    (optional_arg : option (Item Node)) (trim_contents : bool) : LatexCommand :=
  mkCommand 0 (TextEnv (hash_sub true content) num_args metaname optional_arg trim_contents).

(** The shared context: [iterators], [commands] and the global
    attributes, one dictionary. *)
Inductive CtxVal :=
| CStr (s : pystr)
| CIterators (its : gmap string Z)
| CCommands (table : CommandTable).

Abbreviation Context := (gmap string CtxVal).

Inductive Replacement :=
| RStr (s : pystr)
| RMeta (m : MetadataNode).

(** The value of [apply]: [False], one replacement, or a tuple. *)
Inductive ApplyResult :=
| RFalse
| Single (r : Replacement)
| Tuple (rs : list Replacement).

(** [str(x)] for an item of a content list; the text of a metadata
    marker is its object address. *)
Definition item_str (soup : Soup) (it : Item Node) : Exc pystr :=
  match it with
  | IStr s => Ok s
  | INode n => Ok (to_str soup n)
  | IMeta _ => Unmodelled
  end.

Definition len {A} (l : list A) : Z := Z.of_nat (length l).

(** [o is None] *)
Definition is_none {A} (o : option A) : bool :=
  match o with None => true | Some _ => false end.

(** [TextCommand.apply] *)
Definition TextCommand_apply (content : pystr) (num_args : Z)
    (optional_arg : option (Item Node)) (trim_contents : bool)
    (soup : Soup) (node : Node) (args : list pystr) : Exc pystr :=
  if (len args >? num_args)
     || (len args <? num_args - 1)
     || ((len args =? num_args - 1) && is_none optional_arg)
  then Raise (ValueError (InvalidArgumentCount (node_name node) num_args (len args)))
  else
    args1 ←
      (if len args =? num_args then Ok args
       else
         match optional_arg with
         | Some it => a ← item_str soup it; Ok (a :: args)
         | None => Ok (py "None" :: args)
         end);
    format content (if trim_contents then strip <$> args1 else args1).

(** [TextEnv.apply] *)
Definition TextEnv_apply (content metaname : pystr)
    (soup : Soup) (node : Node) (args : list pystr) : Exc (list Replacement) :=
  if negb (len args =? 0)
  then Raise (ValueError (InvalidEnvArgumentCount (node_name node) (len args)))
  else
    parts ← traverse (item_str soup) (node_contents soup node);
    body ← format content [concat parts];
    Ok [RMeta (MetadataNode_init metaname true ∅); RStr body; RMeta text_node].

(** [bool(child)] for an item of [node.contents]. *)
Definition item_truth (soup : Soup) (it : Item Node) : bool :=
  match it with
  | IStr s => truthy s
  | INode n => node_truth soup n
  | IMeta _ => true
  end.

(** The loop of [ItemExtractor.apply]; [ans] is kept last item first. *)
Fixpoint extract_items (soup : Soup) (children : list (Item Node))
    (ans : list pystr) : Exc (list pystr) :=
  match children with
  | [] => Ok (reverse ans)
  | child :: rest =>
      if negb (item_truth soup child) then extract_items soup rest ans
      else
        s ← item_str soup child;
        match child, ans with
        | INode n, _ =>
            if str_eqb (node_name n) (py "item")
            then extract_items soup rest (drop 6 s :: ans)
            else
              match ans with
              | [] => Raise (ValueError (ItemExpected s))
              | last :: before => extract_items soup rest ((last ++ s) :: before)
              end
        | _, [] => Raise (ValueError (ItemExpected s))
        | _, last :: before => extract_items soup rest ((last ++ s) :: before)
        end
  end.

(** [fmt % dict(index=index, item=item)] for every item. *)
Fixpoint format_items (fmt : pystr) (index : Z) (ans : list pystr) : Exc (list pystr) :=
  match ans with
  | [] => Ok []
  | item :: rest =>
      s ← percent_format fmt
            (<[py "index" := FInt index]> (<[py "item" := FStr item]> ∅));
      r ← format_items fmt (index + 1) rest;
      Ok (s :: r)
  end.

(** [ItemExtractor.apply]; the node's contents are emptied. *)
Definition ItemExtractor_apply (fmt : pystr) (soup : Soup) (node : Node)
  : Exc (Soup * list Replacement) :=
  ans ← extract_items soup (node_contents soup node) [];
  let soup' := set_contents soup node [] in
  items ← format_items fmt 0 ans;
  Ok (soup',
      [RMeta (MetadataNode_init (py "text") true
                {[ "text" := VStr (double_newline ++ join [nl] items) ]});
       RMeta text_node]).

(** [GlobalConfig.apply] *)
Definition GlobalConfig_apply (target_name : string) (strip_value : bool)
    (context : Context) (args : list pystr) : Exc Context :=
  match args with
  | [] => Raise IndexError
  | a :: _ =>
      Ok (<[target_name := CStr (if strip_value then strip a else a)]> context)
  end.

(** [context["iterators"]] *)
Definition get_iterators (context : Context) : Exc (gmap string Z) :=
  match context !! "iterators" with
  | Some (CIterators its) => Ok its
  | Some _ => Raise TypeError
  | None => Raise (KeyError (py "iterators"))
  end.

(** [context["iterators"][it_name]] *)
Definition get_iterator (context : Context) (it_name : string) : Exc Z :=
  its ← get_iterators context;
  match its !! it_name with
  | Some v => Ok v
  | None => Raise (KeyError (py it_name))
  end.

(** [ProblemMacro.update_iterator] *)
Definition update_iterator (context : Context) (it_name : string)
    (value : option Z) : Exc Context :=
  match value with
  | None => Ok context
  | Some v =>
      its ← get_iterators context;
      if v >? 0 then
        old ← get_iterator context it_name;
        Ok (<["iterators" := CIterators (<[it_name := old + v]> its)]> context)
      else
        Ok (<["iterators" := CIterators (<[it_name := v]> its)]> context)
  end.

(** [ord(first_problem_character)], [problem_skips] and
    [problem_skip_indices] *)
Definition first_problem_character : Z := first_letter cfg.
Definition problem_skips : list Z := letter_skips cfg.
Definition problem_skip_indices : list Z :=
  (λ c, c - first_problem_character) <$> problem_skips.

(** [ProblemMacro.apply] *)
Definition ProblemMacro_apply (fmt : pystr) (letter problem : option Z)
    (conduit_include : bool) (cfmt : pystr)
    (context : Context) (args : list pystr) : Exc (Context * MetadataNode) :=
  context ← update_iterator context "problem" problem;
  context ← update_iterator context "letter" letter;
  cur ← get_iterator context "letter";
  let letter_index := cur + len (filter (λ i, i < cur) problem_skip_indices) in
  letter_str ← chr (first_problem_character + letter_index);
  z ← get_iterator context "problem";
  let extra_text :=
    match args with
    | [] => []
    | a :: _ => py " (" ++ a ++ py ")"
    end in
  let format_data : gmap pystr FVal :=
    <[py "ext" := FStr extra_text]>
      (<[py "leth" := FStr letter_str]> (<[py "z" := FInt z]> ∅)) in
  num ← percent_format fmt format_data;
  conduit_num ← percent_format cfmt format_data;
  let num := replace (py "))") (py ")") num in
  Ok (context,
      MetadataNode_init (py "problem") true
        (<["num" := VStr num]>
           (<["conduit_include" := VBool conduit_include]>
              {[ "conduit_num" := VStr conduit_num ]}))).

(** [command.apply(context, node, *args)]: the context and the tree
    after the call, and the replacement. *)
Definition apply (c : LatexCommand) (context : Context) (soup : Soup)
    (node : Node) (args : list pystr) : Exc (Context * Soup * ApplyResult) :=
  match class c with
  | TextCommand content num_args optional_arg trim_contents =>
      s ← TextCommand_apply content num_args optional_arg trim_contents soup node args;
      Ok (context, soup, Single (RStr s))
  | ItemExtractor fmt =>
      '(soup', rs) ← ItemExtractor_apply fmt soup node;
      Ok (context, soup', Tuple rs)
  | TextEnv content _ metaname _ _ =>
      rs ← TextEnv_apply content metaname soup node args;
      Ok (context, soup, Tuple rs)
  | ErrorCommand replace_name =>
      Raise (ValueError (InvalidCommand (node_name node) replace_name))
  | GlobalConfig target_name strip_value =>
      context' ← GlobalConfig_apply target_name strip_value context args;
      Ok (context', soup, Single (RStr []))
  | ProblemMacro fmt letter problem conduit_include cfmt =>
      '(context', m) ← ProblemMacro_apply fmt letter problem conduit_include cfmt context args;
      Ok (context', soup, Single (RMeta m))
  end.

(** [command.recursion_ready(cmd, all_commands)] *)
Definition recursion_ready (c : LatexCommand) (soup : Soup) (cmd : Node)
    (all_commands : CommandTable) : bool :=
  match class c with
  | TextCommand _ _ _ _ | TextEnv _ _ _ _ _ =>
      let arg_data := concat (gcontents <$> node_args soup cmd) in
      negb (existsb
              (λ x, match x with
                    | INode n => is_TexCmd n && dict_has (node_name n) all_commands
                    | _ => false
                    end)
              arg_data)
  | ItemExtractor _ =>
      negb (existsb
              (λ x, match x with
                    | INode n => dict_has (node_name n) all_commands
                    | _ => false
                    end)
              (node_contents soup cmd))
  | _ => true
  end.

Definition replacement_item (r : Replacement) : Item Node :=
  match r with
  | RStr s => IStr s
  | RMeta m => IMeta m
  end.

(** [arg.children]: the expressions among the contents of a group. *)
Definition children (g : Group Node) : list Node :=
  omap (λ x, match x with INode n => Some n | _ => None end) (gcontents g).

Definition is_node (x : Item Node) (node : Node) : bool :=
  match x with
  | INode n => bool_decide (n = node)
  | _ => false
  end.

(** [command.invoke(context, node, *args)]: [apply], then the splice of
    the replacement in place of the node, inside the argument group of the
    parent that holds the node when there is one, through [replace]
    otherwise. *)
Definition invoke (c : LatexCommand) (context : Context) (soup : Soup)
    (node : Node) (args : list pystr) : Exc (Context * Soup) :=
  '(context, soup, replacement) ← apply c context soup node args;
  match replacement with
  | RFalse => Ok (context, soup)
  | _ =>
      let items :=
        match replacement with
        | Tuple rs => replacement_item <$> rs
        | Single r => [replacement_item r]
        | RFalse => []
        end in
      let p := parent soup node in
      match list_find (λ arg, node ∈ children arg) (node_args soup p) with
      | Some (i, arg) =>
          let new_contents :=
            flat_map (λ x, if is_node x node then items else [x]) (gcontents arg) in
          Ok (context, set_arg_contents soup p i new_contents)
      | None => Ok (context, replace_child soup p node items)
      end
  end.

(** [int(x)] for an item of a content list. *)
Definition int_of_item (x : Item Node) : Exc Z :=
  match x with
  | IStr s => int_of_str s
  | _ => Raise TypeError
  end.

Definition first_item (g : Group Node) : Exc (Item Node) :=
  match gcontents g with
  | x :: _ => Ok x
  | [] => Raise IndexError
  end.

(** [soup_to_command(cmd)] *)
Definition soup_to_command (soup : Soup) (cmd : Node) : Exc LatexCommand :=
  let brace_args :=
    List.filter (λ a, str_eqb (gname a) (py "BraceGroup")) (node_args soup cmd) in
  let bracket_args :=
    List.filter (λ a, str_eqb (gname a) (py "BracketGroup")) (node_args soup cmd) in
  match brace_args with
  | [_; body] =>
      if (2 <? len bracket_args)
      then Raise (ValueError (MalformedNewcommand (to_str soup cmd)))
      else
        num_args ←
          match bracket_args with
          | [] => Ok 0
          | b :: _ => x ← first_item b; int_of_item x
          end;
        optional_arg ←
          match bracket_args with
          | _ :: o :: _ => x ← first_item o; Ok (Some x)
          | _ => Ok None
          end;
        TextCommand_init (ContentSeq (gcontents body)) num_args optional_arg false
  | _ => Raise (ValueError (MalformedNewcommand (to_str soup cmd)))
  end.

(** [context_commands[new_command.name] = c] *)
Definition register_command (context_commands : CommandTable) (new_command : Node)
    (c : LatexCommand) : CommandTable :=
  dict_set (node_name new_command) c context_commands.

(** The loop over [command_adds]: every definition is turned into a
    command, stored in the table, and removed from the tree. *)
Fixpoint add_commands (context_commands : CommandTable) (soup : Soup)
    (command_adds : list Node) : Exc (CommandTable * Soup) :=
  match command_adds with
  | [] => Ok (context_commands, soup)
  | new_command :: rest =>
      c ← soup_to_command soup new_command;
      add_commands (register_command context_commands new_command c)
        (remove soup (parent soup new_command) new_command) rest
  end.

(** ** The rewrite engine ([convert_latex]) *)

(** The arguments handed to [invoke]: the contents of every argument
    group, stringified and joined by spaces. *)
Definition arg_data (soup : Soup) (cmd : Node) : Exc (list pystr) :=
  traverse
    (λ arg, parts ← traverse (item_str soup) (gcontents arg); Ok (join [32] parts))
    (node_args soup cmd).

(** [len(str(soup))] *)
Definition soup_len (soup : Soup) : Z := len (to_str soup (root soup)).

(** The body of the loop over the invocations found at one priority. *)
Definition expand (context_commands : CommandTable) (priority : Z)
    (context : Context) (soup : Soup) (last_stage : Z) (cmd : Node)
  : Exc (Context * Soup * Z) :=
  match dict_get (node_name cmd) context_commands with
  | None => Raise (KeyError (node_name cmd))
  | Some callback =>
      if negb (recursion_ready callback soup cmd context_commands)
      then Ok (context, soup, last_stage)
      else
        data ← arg_data soup cmd;
        '(context, soup) ← invoke callback context soup cmd data;
        if soup_len soup >? character_limit cfg
        then Raise (ValueError
                      (FileSizeLimitExceeded (character_limit cfg) (soup_len soup)))
        else Ok (context, soup, priority)
  end.

(** [for cmd in soup.find_all(command_keys): ...] *)
Fixpoint expand_all (context_commands : CommandTable) (priority : Z)
    (cmds : list Node) (context : Context) (soup : Soup) (last_stage : Z)
  : Exc (Context * Soup * Z) :=
  match cmds with
  | [] => Ok (context, soup, last_stage)
  | cmd :: rest =>
      '(context, soup, last_stage) ←
        expand context_commands priority context soup last_stage cmd;
      expand_all context_commands priority rest context soup last_stage
  end.

(** The names of the commands at one priority, in the order of the table. *)
Definition command_keys (context_commands : CommandTable) (priority : Z) : list pystr :=
  omap (λ '(k, _),
          match dict_get k context_commands with
          | Some c => if get_priority c =? priority then Some k else None
          | None => None
          end)
       context_commands.

(** [for priority in all_priorities: ...], with its [break]. *)
Fixpoint priority_scan (context_commands : CommandTable) (priorities : list Z)
    (context : Context) (soup : Soup) (last_stage : Z)
  : Exc (Context * Soup * Z) :=
  match priorities with
  | [] => Ok (context, soup, last_stage)
  | priority :: lower =>
      '(context, soup, last_stage) ←
        expand_all context_commands priority
          (find_all soup (command_keys context_commands priority))
          context soup last_stage;
      if last_stage =? priority then Ok (context, soup, last_stage)
      else priority_scan context_commands lower context soup last_stage
  end.

(** [for i in range(nesting_limit): ... else: raise]; [budget] is the
    number of outer iterations left. *)
Fixpoint rewrite_loop (context_commands : CommandTable) (all_priorities : list Z)
    (budget : nat) (context : Context) (soup : Soup) : Exc (Context * Soup) :=
  match budget with
  | O => Raise (ValueError (NestingLimitExceeded (command_nesting_limit cfg)))
  | S budget' =>
      '(context, soup, last_stage) ←
        priority_scan context_commands all_priorities context soup priority_cap;
      if last_stage =? priority_cap then Ok (context, soup)
      else rewrite_loop context_commands all_priorities budget' context soup
  end.

Definition all_priorities (context_commands : CommandTable) : list Z :=
  sorted_set_desc ((λ kc, get_priority kc.2) <$> context_commands).

Definition fresh_context (context_commands : CommandTable) : Context :=
  <["iterators" := CIterators (<["problem" := 0]> (<["letter" := 0]> ∅))]>
    (<["commands" := CCommands context_commands]> ∅).

(** [convert_latex(context_commands, latext)] *)
Definition convert_latex (context_commands : CommandTable) (latext : pystr)
  : Exc (Soup * Context) :=
  soup ← TexSoup latext;
  let command_adds :=
    find_all soup [py "newcommand"] ++ find_all soup [py "renewcommand"] in
  '(context_commands, soup) ← add_commands context_commands soup command_adds;
  let context := fresh_context context_commands in
  '(context, soup) ←
    rewrite_loop context_commands (all_priorities context_commands)
      (Z.to_nat (command_nesting_limit cfg)) context soup;
  Ok (soup, context).

(** ** The converter (converter.py) *)

(** [Replacements], in the order of the dictionary. *)
Definition Replacements : list (pystr * pystr) :=
  [ (py "{\it", py "\textit{");
    (py "{\bf", py "\textbf{");
    (py "<<", py "&laquo;");
    (py ">>", py "&raquo;");
    (py "----", [8212]);
    (py "---", [8212]);
    (py "--", [8211]);
    (py "\\", [nl; nl]);
    (py "\ ", py " ");
    (py "~", py " ") ].

(** [comment_regex.sub("\\1", s)] with
    [comment_regex = (^|[^\\])%.*?\n] in multi-line mode: a [%] at the
    start of a line, or after any character but a backslash, is deleted
    with everything up to and including the next newline; the character
    before it stays.  Without a later newline there is no match. *)
Fixpoint comment_sub (line_start in_comment : bool) (s : pystr) : pystr :=
  match s with
  | [] => []
  | c :: t =>
      if in_comment then comment_sub (c =? nl) (negb (c =? nl)) t
      else if line_start && (c =? percent) && existsb (Z.eqb nl) t
      then comment_sub false true t
      else
        match t with
        | d :: t' =>
            if negb (c =? backslash) && (d =? percent) && existsb (Z.eqb nl) t'
            then c :: comment_sub false true t'
            else c :: comment_sub (c =? nl) false t
        | [] => [c]
        end
  end.

(** The text handed to the parser. *)
Definition preprocess (latext : pystr) : pystr :=
  comment_sub true false
    (foldl (λ s vr, replace vr.1 vr.2 s) latext Replacements).

Definition ProblemMacro_init (fmt : pystr) (letter problem : option Z)
    (conduit_include : bool) (cfmt : pystr) : LatexCommand :=
  mkCommand 0 (ProblemMacro fmt letter problem conduit_include cfmt).

Definition BuiltinCommands : CommandTable :=
  [ (py "it", mkCommand 0 (ErrorCommand (py "textit")));
    (py "bf", mkCommand 0 (ErrorCommand (py "textbf")));
    (py "HUGE", TextCommand_of_str (py "# #1") 1 None false);
    (py "Huge", TextCommand_of_str (py "# #1") 1 None false);
    (py "huge", TextCommand_of_str (py "## #1") 1 None false);
    (py "LARGE", TextCommand_of_str (py "## #1") 1 None false);
    (py "Large", TextCommand_of_str (py "### #1") 1 None false);
    (py "large", TextCommand_of_str (py "### #1") 1 None false);
    (py "textit", TextCommand_of_str (py "*#1*") 1 None true);
    (py "textbf", TextCommand_of_str (py "**#1**") 1 None true);
    (py "texttt", TextCommand_of_str (py "`#1`") 1 None true);
    (py "ldots", TextCommand_of_str (py "...") 0 None false);
    (py "z", ProblemMacro_init (py "%(z)i%(ext)s.") (Some 0) (Some 1) true (py "%(z)i"));
    (py "zcirc", ProblemMacro_init (py "%(z)i$^\circ$%(ext)s.") (Some 0) (Some 1) true
                   (py "%(z)i<sup>o</sup>"));
    (py "leth", ProblemMacro_init (py "%(leth)s%(ext)s)") (Some 1) None true
                  (py "%(z)i%(leth)s"));
    (py "lett", ProblemMacro_init (py "%(leth)s%(ext)s)") (Some 1) None true
                  (py "%(z)i%(leth)s"));
    (py "lethcirc", ProblemMacro_init (py "%(leth)s$^\circ$%(ext)s)") (Some 1) None true
                      (py "%(z)i%(leth)s<sup>o</sup>"));
    (py "lettcirc", ProblemMacro_init (py "%(leth)s$^\circ$%(ext)s)") (Some 1) None true
                      (py "%(z)i%(leth)s<sup>o</sup>"));
    (py "zncirc", ProblemMacro_init (py "%(z)i.%(leth)s$^\circ$%(ext)s)") (Some 0) (Some 1)
                    true (py "%(z)i%(leth)s<sup>o</sup>"));
    (py "zn", ProblemMacro_init (py "%(z)i.%(leth)s%(ext)s)") (Some 0) (Some 1) true
                (py "%(z)i%(leth)s"));
    (py "zecirc", ProblemMacro_init (py "%(z)i$^\circ$%(ext)s.") (Some (-1)) (Some 1) false []);
    (py "ze", ProblemMacro_init (py "%(z)i%(ext)s.") (Some (-1)) (Some 1) false []);
    (py "sheetid", mkCommand 0 (GlobalConfig "sheet_id" true));
    (py "sheetname", mkCommand 0 (GlobalConfig "sheet_name" true));
    (py "center", TextEnv_init (py "#1") 1 (py "text") None false);
    (py "centerline", TextCommand_of_str (py "#1") 1 None false);
    (py "tikzpicture", TextEnv_init (py "#1") 1 (py "tikz") None false);
    (py "itemize", mkCommand 0 (ItemExtractor (py "* %(item)s")));
    (py "medskip", TextCommand_of_str [nl; nl] 0 None false);
    (py "vspace", TextCommand_of_str [] 1 None false);
    (py "vspace*", TextCommand_of_str [] 1 None false);
    (py "hspace", TextCommand_of_str [] 1 None false);
    (py "hspace*", TextCommand_of_str [] 1 None false);
    (py "noindent", TextCommand_of_str [] 0 None false);
    (py "newpage", TextCommand_of_str [] 0 None false) ].

(** Modelled from the spec: [pyconduit.models.latex] ([LatexDocument],
    [LatexObject]) is not among the sources.  A Document Object is "a
    typed, validated projection of a flushed Metadata Node's attribute
    bag"; the Document "holds the ordered sequence of Document Objects,
    the original raw text, and the two required global attributes". *)
Context {LatexObject : Type} (parse_obj : gmap string PyVal → Exc LatexObject).

Record LatexDocument := mkDocument {
  objects : list LatexObject;
  orig_doc : pystr;
  sheet_id : CtxVal;
  sheet_name : CtxVal;
}.

(** The truth value of a dictionary: it is not empty. *)
Definition dict_truthy (kw : gmap string PyVal) : bool :=
  negb (bool_decide (kw = ∅)).

(** [collect_excess(doc, current_metadata)]: the objects of the document
    after the call.  [budget] is the number of flushes left. *)
Fixpoint collect_excess (budget : nat) (objs : list LatexObject)
    (current_metadata : MetadataNode) : Exc (list LatexObject) :=
  match budget with
  | O => Raise (ValueError ExcessStackingLimit)
  | S budget' =>
      '(_, new_node, excess_text) ← collect current_metadata None;
      match new_node with
      | Some kw =>
          if dict_truthy kw then
            o ← parse_obj kw;
            current ←
              (if truthy excess_text
               then '(m, _, _) ← collect text_node (Some excess_text); Ok m
               else Ok text_node);
            collect_excess budget' (objs ++ [o]) current
          else Ok objs
      | None => Ok objs
      end
  end.

(** The truth value of an entry of the context. *)
Definition ctx_truthy (v : CtxVal) : bool :=
  match v with
  | CStr s => truthy s
  | CIterators its => negb (bool_decide (its = ∅))
  | CCommands t => match t with [] => false | _ :: _ => true end
  end.

(** The branch of [build_latex] for text, tokens and math: the string is
    fed to the current node. *)
Definition collect_str (objs : list LatexObject) (current_metadata : MetadataNode)
    (s : pystr) : Exc (list LatexObject * MetadataNode) :=
  '(current, new_node, _) ← collect current_metadata (Some s);
  match new_node with
  | Some kw =>
      if dict_truthy kw
      then o ← parse_obj kw; Ok (objs ++ [o], text_node)
      else Ok (objs, current)
  | None => Ok (objs, current)
  end.

(** The loop of [build_latex] over [soup.contents]. *)
Fixpoint fold_nodes (soup : Soup) (nodes : list (Item Node))
    (objs : list LatexObject) (current_metadata : MetadataNode)
  : Exc (list LatexObject * MetadataNode) :=
  match nodes with
  | [] => Ok (objs, current_metadata)
  | node :: rest =>
      '(objs, current) ←
        match node with
        | IStr s => collect_str objs current_metadata s
        | IMeta m =>
            objs ← collect_excess (Z.to_nat (excess_stacking cfg)) objs current_metadata;
            Ok (objs, m)
        | INode n =>
            match node_name n with
            | [] => Raise IndexError
            | c :: _ =>
                if c =? 36 (* $ *) then collect_str objs current_metadata (to_str soup n)
                else
                  match node_contents soup n with
                  | [IStr []] => Ok (objs, current_metadata)
                  | _ => Raise (ValueError (UnknownNode (to_str soup n)))
                  end
            end
        end;
      fold_nodes soup rest objs current
  end.

(** [context.get(key)], required to be truthy. *)
Definition required_attribute (context : Context) (key : string)
    (missing : string) : Exc CtxVal :=
  match context !! key with
  | Some v => if ctx_truthy v then Ok v else Raise (ValueError (Localized missing))
  | None => Raise (ValueError (Localized missing))
  end.

(** The second half of [build_latex]: the rewritten tree folded into the
    objects of the document. *)
Definition fold_document (soup : Soup) : Exc (list LatexObject) :=
  '(objs, current) ← fold_nodes soup (node_contents soup (root soup)) [] text_node;
  collect_excess (Z.to_nat (excess_stacking cfg)) objs current.

(** [build_latex(latext)] *)
Definition build_latex (latext : pystr) : Exc LatexDocument :=
  '(soup, context) ← convert_latex BuiltinCommands (preprocess latext);
  sheet_id ← required_attribute context "sheet_id" "no_sheet_id";
  sheet_name ← required_attribute context "sheet_name" "no_sheet_name";
  objs ← fold_document soup;
  Ok (mkDocument objs latext sheet_id sheet_name).

End Converter.

Arguments TextCommand {api}.
Arguments ItemExtractor {api}.
Arguments TextEnv {api}.
Arguments ErrorCommand {api}.
Arguments GlobalConfig {api}.
Arguments ProblemMacro {api}.
Arguments mkDocument {api LatexObject}.

Abbreviation CommandTable := (list (pystr * LatexCommand)).
Abbreviation Context := (gmap string CtxVal).

(** ** A concrete tree

    An arena of expressions addressed by index, used to run the converter
    on the documents of the worked examples.  The tree of each document
    is written out next to its text. *)

Module Arena.

Inductive Kind := KRoot | KCmd | KEnv.

(** A node handle: an index into the arena with the name and class of
    the expression, which never change. *)
Record Handle := mkHandle {
  nid : nat;
  nname : pystr;
  nkind : Kind;
}.

#[global] Instance Kind_eq_dec : EqDecision Kind.
Proof. solve_decision. Defined.
#[global] Instance Handle_eq_dec : EqDecision Handle.
Proof. solve_decision. Defined.

Record Expr := mkExpr {
  eself : Handle;
  eparent : nat;
  eargs : list (Group Handle);
  ebody : list (Item Handle);
}.

Abbreviation Tree := (list Expr).

Definition root_handle : Handle := mkHandle 0 (py "[tex]") KRoot.

Definition get (t : Tree) (n : Handle) : Expr :=
  default (mkExpr n 0 [] []) (t !! nid n).

Definition all_contents (t : Tree) (n : Handle) : list (Item Handle) :=
  concat (gcontents <$> eargs (get t n)) ++ ebody (get t n).

Definition child_handles (items : list (Item Handle)) : list Handle :=
  omap (λ x, match x with INode n => Some n | _ => None end) items.

(** The direct contents first, then the descendants of every child. *)
Fixpoint descendants (fuel : nat) (t : Tree) (n : Handle) : list Handle :=
  match fuel with
  | O => []
  | S fuel' =>
      let cs := child_handles (all_contents t n) in
      cs ++ flat_map (descendants fuel' t) cs
  end.

(** The text CPython prints for an object without [__str__]. *)
Definition meta_repr : pystr :=
  py "<pyconduit.shared.latex.core.MetadataNode object at 0x7f0000000000>".

Fixpoint str_of (fuel : nat) (t : Tree) (n : Handle) : pystr :=
  match fuel with
  | O => []
  | S fuel' =>
      let item x :=
        match x with
        | IStr s => s
        | INode k => str_of fuel' t k
        | IMeta _ => meta_repr
        end in
      let group g :=
        if str_eqb (gname g) (py "BracketGroup")
        then py "[" ++ flat_map item (gcontents g) ++ py "]"
        else py "{" ++ flat_map item (gcontents g) ++ py "}" in
      let e := get t n in
      match nkind n with
      | KRoot => flat_map item (ebody e)
      | KCmd => py "\" ++ nname n ++ flat_map group (eargs e) ++ flat_map item (ebody e)
      | KEnv =>
          py "\begin{" ++ nname n ++ py "}" ++ flat_map group (eargs e)
          ++ flat_map item (ebody e) ++ py "\end{" ++ nname n ++ py "}"
      end
  end.

Definition update (t : Tree) (n : Handle) (f : Expr → Expr) : Tree :=
  alter f (nid n) t.

Definition splice (child : Handle) (items : list (Item Handle))
    (l : list (Item Handle)) : list (Item Handle) :=
  flat_map (λ x, match x with
                 | INode k => if bool_decide (k = child) then items else [x]
                 | _ => [x]
                 end) l.

Definition api (docs : list (pystr * Tree)) : TexSoupAPI := {|
  Soup := Tree;
  Node := Handle;
  TexSoup := λ s, match dict_get s docs with Some t => Ok t | None => Unmodelled end;
  root := λ _, root_handle;
  find_all := λ t names,
    List.filter (λ n, existsb (str_eqb (nname n)) names)
      (descendants (length t) t root_handle);
  node_name := nname;
  is_TexCmd := λ n, bool_decide (nkind n = KCmd);
  node_truth := λ _ _, true;
  node_args := λ t n, eargs (get t n);
  node_contents := all_contents;
  to_str := λ t n, str_of (S (length t)) t n;
  parent := λ t n, eself (get t (mkHandle (eparent (get t n)) [] KRoot));
  set_arg_contents := λ t p i items,
    update t p (λ e, mkExpr (eself e) (eparent e)
                       (alter (λ g, mkGroup (gname g) items) i (eargs e)) (ebody e));
  replace_child := λ t p child items,
    update t p (λ e, mkExpr (eself e) (eparent e) (eargs e) (splice child items (ebody e)));
  remove := λ t p child,
    update t p (λ e, mkExpr (eself e) (eparent e) (eargs e) (splice child [] (ebody e)));
  set_contents := λ t n items,
    update t n (λ e, mkExpr (eself e) (eparent e) (eargs e) items);
|}.

Definition cmd (i : nat) (name : string) : Handle := mkHandle i (py name) KCmd.
Definition brace (items : list (Item Handle)) : Group Handle :=
  mkGroup (py "BraceGroup") items.
Definition bracket (items : list (Item Handle)) : Group Handle :=
  mkGroup (py "BracketGroup") items.
Definition top (items : list (Item Handle)) : Expr := mkExpr root_handle 0 [] items.

(** [hello] *)
Definition doc_hello : pystr := py "hello".
Definition tree_hello : Tree := [ top [IStr (py "hello")] ].

(** [\z] *)
Definition doc_z : pystr := py "\z".
Definition tree_z : Tree :=
  [ top [INode (cmd 1 "z")];
    mkExpr (cmd 1 "z") 0 [] [] ].

(** [\textbf{x}\z] *)
Definition doc_bold_z : pystr := py "\textbf{x}\z".
Definition tree_bold_z : Tree :=
  [ top [INode (cmd 1 "textbf"); INode (cmd 2 "z")];
    mkExpr (cmd 1 "textbf") 0 [brace [IStr (py "x")]] [];
    mkExpr (cmd 2 "z") 0 [] [] ].

(** [\newcommand{\foo}{bar}] *)
Definition doc_newcommand : pystr := py "\newcommand{\foo}{bar}".
Definition tree_newcommand : Tree :=
  [ top [INode (cmd 1 "newcommand")];
    mkExpr (cmd 1 "newcommand") 0
      [brace [INode (cmd 2 "foo")]; brace [IStr (py "bar")]] [];
    mkExpr (cmd 2 "foo") 1 [] [] ].

(** [\sheetid{ }\sheetname{Sheet}] *)
Definition doc_blank_id : pystr := py "\sheetid{ }\sheetname{Sheet}".
Definition tree_blank_id : Tree :=
  [ top [INode (cmd 1 "sheetid"); INode (cmd 2 "sheetname")];
    mkExpr (cmd 1 "sheetid") 0 [brace [IStr (py " ")]] [];
    mkExpr (cmd 2 "sheetname") 0 [brace [IStr (py "Sheet")]] [] ].

Definition docs : list (pystr * Tree) :=
  [ (doc_hello, tree_hello);
    (doc_z, tree_z);
    (doc_bold_z, tree_bold_z);
    (doc_newcommand, tree_newcommand);
    (doc_blank_id, tree_blank_id) ].

Definition examples : TexSoupAPI := api docs.

(** The limits and the letters of a development configuration. *)
Definition config : Config := mkConfig 20000 10 10 97 [].

End Arena.

(** * The web decorators (website/decorators.py)

    The token library, the account store and the user model are outside
    the sources: the decoder, the stored accounts, the parser of a user
    record and the privileges of a user are parameters.  Every coroutine
    of the file runs without suspension between its reads and writes of
    the state it is modelled on. *)

Module Web.

(** [s.split(sep)] for a separator of one character. *)
Fixpoint split_on (sep : Z) (s : pystr) : list pystr :=
  match s with
  | [] => [[]]
  | c :: t =>
      if c =? sep then [] :: split_on sep t
      else
        match split_on sep t with
        | piece :: pieces => (c :: piece) :: pieces
        | [] => [[c]]
        end
  end.

Inductive WebError :=
| HTTPException (status_code : Z) (detail : string)
    (* detail: the key of the message in locale["exceptions"] *)
| ValidationError           (* raised by User.parse_obj *)
| SetKeyError.              (* raised by set.remove *)

Inductive Res (A : Type) :=
| Fine (a : A)
| Raised (e : WebError).
Arguments Fine {A} a.
Arguments Raised {A} e.

Section Login.
Context {Raw User : Type}.
Context (jwt_decode : pystr → option (gmap string pystr)).
  (* jwt.decode with the configured salt; None for a JWTError *)
Context (accounts : gmap pystr Raw).
  (* user_datastore.get("accounts", {}) *)
Context (parse_user : Raw → Res User).
  (* User.parse_obj *)
Context (login : User → bool).
  (* user.privileges.login *)
Context (has_scope : User → pystr → bool).
  (* user.privileges.has_scope(scope) *)

(** [find_user(username)] *)
Definition find_user (username : pystr) : Res (option User) :=
  match accounts !! username with
  | None => Fine None
  | Some raw =>
      match parse_user raw with
      | Raised e => Raised e
      | Fine user_obj =>
          if negb (login user_obj)
          then Raised (HTTPException 401 "account_disabled")
          else Fine (Some user_obj)
      end
  end.

(** [get_user_by_token(token)] *)
Definition get_user_by_token (token : pystr) : Res (option User) :=
  match jwt_decode token with
  | None => Fine None
  | Some payload =>
      match payload !! "sub" with
      | None => Fine None
      | Some subject =>
          if negb (truthy subject) then Fine None
          else
            match split_on 58 subject with
            | [kind; username] =>
                if negb (str_eqb kind (py "user")) then Fine None
                else find_user username
            | _ => Fine None
            end
      end
  end.

(** [token or request.session.get("access_token")] *)
Definition token_or_session (token session_token : option pystr) : option pystr :=
  match token with
  | Some t => if truthy t then Some t else session_token
  | None => session_token
  end.

(** [get_current_user(request, token)] *)
Definition get_current_user (token session_token : option pystr) : Res (option User) :=
  match token_or_session token session_token with
  | None => Fine None
  | Some t => get_user_by_token t
  end.

(** [require_login(user)] *)
Definition require_login (user : option User) : Res User :=
  match user with
  | None => Raised (HTTPException 401 "bad_jwt")
  | Some u => Fine u
  end.

(** [RequireScope(scope)(user)] *)
Definition RequireScope (scope : pystr) (user : User) : Res User :=
  if negb (has_scope user scope)
  then Raised (HTTPException 403 "insufficient_scope")
  else Fine user.

(** The dependency chain of a route guarded by [RequireScope(scope)]:
    [Depends(require_login)] on [Depends(get_current_user)]. *)
Definition guarded (scope : pystr) (token session_token : option pystr) : Res User :=
  match get_current_user token session_token with
  | Raised e => Raised e
  | Fine user =>
      match require_login user with
      | Raised e => Raised e
      | Fine u => RequireScope scope u
      end
  end.

End Login.

(** ** Sockets *)

Section Sockets.
Context `{Countable WebSocket}.

Record SocketManager := mkManager {
  active_connections : gset WebSocket;
  allocated : Z;
}.

(** [SocketManager()] *)
Definition SocketManager_init : SocketManager := mkManager ∅ 0.

(** [mgr.connect(websocket)], once the socket is accepted: the manager
    after the call and the id of the handle. *)
Definition connect (mgr : SocketManager) (websocket : WebSocket) : SocketManager * Z :=
  (mkManager ({[websocket]} ∪ active_connections mgr) (allocated mgr + 1),
   allocated mgr + 1).

(** [mgr.disconnect(websocket)] *)
Definition disconnect (mgr : SocketManager) (websocket : WebSocket) : Res SocketManager :=
  if decide (websocket ∈ active_connections mgr)
  then Fine (mkManager (active_connections mgr ∖ {[websocket]}) (allocated mgr))
  else Raised SetKeyError.

(** The sockets [__broadcast(message, exclusions)] sends the message to. *)
Definition broadcast_recipients (mgr : SocketManager)
    (exclusions : option (gset WebSocket)) : gset WebSocket :=
  filter (λ connection,
            match exclusions with
            | None => true
            | Some ex => bool_decide (ex = ∅) || bool_decide (connection ∉ ex)
            end = true)
         (active_connections mgr).

Inductive Call :=
| Connect (websocket : WebSocket)
| Disconnect (websocket : WebSocket).

(** A sequence of calls on one manager; a [disconnect] that raises
    leaves the manager as it was.  The ids of the handles are collected
    in order. *)
Fixpoint run (calls : list Call) (mgr : SocketManager) : SocketManager * list Z :=
  match calls with
  | [] => (mgr, [])
  | Connect ws :: rest =>
      let '(mgr1, id) := connect mgr ws in
      let '(mgr2, ids) := run rest mgr1 in
      (mgr2, id :: ids)
  | Disconnect ws :: rest =>
      match disconnect mgr ws with
      | Fine mgr1 => run rest mgr1
      | Raised _ => run rest mgr
      end
  end.

End Sockets.

(** [SocketHandle.receive_text], on the texts the socket delivers, in
    order: the text returned, the number of [__pong] answers sent and the
    texts not read yet; [None] while every text delivered so far was a
    ping. *)
Definition ping : pystr := py "__ping".

Fixpoint receive_text (incoming : list pystr) : option (pystr * nat * list pystr) :=
  match incoming with
  | [] => None
  | text :: rest =>
      if str_eqb text ping then
        match receive_text rest with
        | Some (t, pongs, rest') => Some (t, S pongs, rest')
        | None => None
        end
      else Some (text, 0%nat, rest)
  end.

End Web.

(** * Properties *)

(** ** Strings *)

Lemma is_prefix_double_newline_head (c : Z) (b t1 t2 : pystr) :
  hd_error (b ++ t1) = hd_error (b ++ t2) →
  is_prefix double_newline (c :: b ++ t1) = is_prefix double_newline (c :: b ++ t2).
Proof.
  unfold double_newline. cbn [is_prefix].
  destruct (b ++ t1) as [|x r1], (b ++ t2) as [|y r2]; cbn; intros H; try discriminate.
  - reflexivity.
  - injection H as ->. destruct (nl =? y); reflexivity.
Qed.

(** The first double newline of [before ++ "\n\n" ++ after] is the one
    written, as soon as none starts inside [before]. *)
Lemma find_first_double_newline (before after : pystr) :
  contains double_newline (before ++ [nl]) = false →
  find double_newline (before ++ double_newline ++ after) = Some (length before).
Proof.
  unfold contains.
  induction before as [|c b IH]; intros H.
  - reflexivity.
  - cbn [app length] in *.
    cbn [find] in H. cbn [find].
    rewrite (is_prefix_double_newline_head c b (double_newline ++ after) [nl]).
    2:{ destruct b; reflexivity. }
    destruct (is_prefix double_newline (c :: b ++ [nl])); [discriminate|].
    destruct (find double_newline (b ++ [nl])) eqn:E; [discriminate|].
    rewrite IH; [reflexivity|]. reflexivity.
Qed.

Lemma split1_first_double_newline (before after : pystr) :
  contains double_newline (before ++ [nl]) = false →
  split1 double_newline (before ++ double_newline ++ after) = (before, Some after).
Proof.
  intros H. unfold split1. rewrite (find_first_double_newline _ _ H).
  rewrite take_app_length, drop_app_add. reflexivity.
Qed.

(** ** Metadata nodes *)

(** C5.  A text-collecting node whose buffer is [before], a double
    newline and [after], with no double newline starting inside
    [before], flushes ([collect(None)]) to its attribute bag with the
    text [before], and the excess text is [after]: the buffer is split at
    its first double newline. *)
Theorem collect_flush_splits_at_first_double_newline
    (kw : gmap string PyVal) (before after : pystr) :
  kw !! "text" = Some (VStr (before ++ double_newline ++ after)) →
  contains double_newline (before ++ [nl]) = false →
  collect (mkMetadataNode true kw) None
  = Ok (mkMetadataNode true (<["text" := VStr before]> kw),
        Some (<["text" := VStr before]> kw),
        after).
Proof.
  intros Htext Hfirst. unfold collect. cbn [collect_text kwargs andb].
  rewrite Htext. rewrite bool_decide_eq_false_2 by discriminate.
  rewrite Htext.
  assert (Htruthy : truthy (before ++ double_newline ++ after) = true)
    by (destruct before; reflexivity).
  rewrite Htruthy.
  unfold contains at 1. rewrite (find_first_double_newline _ _ Hfirst).
  rewrite (split1_first_double_newline _ _ Hfirst). reflexivity.
Qed.

(** The buffer ["first\n\nsecond"] of the specification. *)
Definition first_second : pystr := py "first" ++ double_newline ++ py "second".

Lemma collect_first_second :
  collect (mkMetadataNode true (<["text" := VStr first_second]> (kwargs text_node))) None
  = Ok (mkMetadataNode true
          (<["text" := VStr (py "first")]>
             (<["text" := VStr first_second]> (kwargs text_node))),
        Some (<["text" := VStr (py "first")]>
                (<["text" := VStr first_second]> (kwargs text_node))),
        py "second").
Proof.
  apply (collect_flush_splits_at_first_double_newline
           (<["text" := VStr first_second]> (kwargs text_node))
           (py "first") (py "second")).
  - vm_compute. reflexivity.
  - vm_compute. reflexivity.
Defined.

(** ** Commands *)

Section CommandProperties.
Context `{api : TexSoupAPI} (cfg : Config).

(** The template of [TextCommand("#1-#2", 2)] after [__init__]. *)
Lemma hash_sub_dash : hash_sub true (py "#1-#2") = py "{0}-{1}".
Proof. vm_compute. reflexivity. Qed.

Lemma format_dash (a b : pystr) : format (py "{0}-{1}") [a; b] = Ok (a ++ 45 :: b).
Proof. cbv -[app]. rewrite app_nil_r. reflexivity. Qed.

(** C4.  [TextCommand("#1-#2", 2)] raises the invalid-argument-count
    error on one argument and on three, and on two arguments [a], [b] it
    returns [a], a dash and [b]: ["a-b"] for [("a", "b")]. *)
Theorem TextCommand_apply_arity
    (context : Context) (soup : Soup) (node : Node) (a b c : pystr) :
  let command := TextCommand_of_str (py "#1-#2") 2 None false in
  apply cfg command context soup node [a]
    = Raise (ValueError (InvalidArgumentCount (node_name node) 2 1))
  ∧ apply cfg command context soup node [a; b; c]
    = Raise (ValueError (InvalidArgumentCount (node_name node) 2 3))
  ∧ apply cfg command context soup node [a; b]
    = Ok (context, soup, Single (RStr (a ++ 45 :: b)))
  ∧ apply cfg command context soup node [py "a"; py "b"]
    = Ok (context, soup, Single (RStr (py "a-b"))).
Proof.
  cbn zeta. unfold apply, TextCommand_of_str. cbn [class].
  rewrite hash_sub_dash. unfold TextCommand_apply.
  split; [reflexivity|]. split; [reflexivity|]. split.
  - change (len [a; b]) with 2. change (2 >? 2) with false.
    change (2 <? 2 - 1) with false. change (2 =? 2 - 1) with false.
    change (2 =? 2) with true. cbn [orb andb mbind Exc_bind].
    rewrite format_dash. reflexivity.
  - change (len [py "a"; py "b"]) with 2. change (2 >? 2) with false.
    change (2 <? 2 - 1) with false. change (2 =? 2 - 1) with false.
    change (2 =? 2) with true. cbn [orb andb mbind Exc_bind].
    rewrite format_dash. reflexivity.
Qed.

(** *** Problem numbering *)

Lemma update_iterator_add (context : Context) (its : gmap string Z)
    (it_name : string) (old v : Z) :
  context !! "iterators" = Some (CIterators its) →
  its !! it_name = Some old →
  0 < v →
  update_iterator context it_name (Some v)
  = Ok (<["iterators" := CIterators (<[it_name := old + v]> its)]> context).
Proof.
  intros Hc Hi Hv. unfold update_iterator, get_iterator, get_iterators.
  rewrite Hc. cbn [mbind Exc_bind]. rewrite Hi.
  destruct (v >? 0) eqn:E; [reflexivity | lia].
Qed.

Lemma update_iterator_assign (context : Context) (its : gmap string Z)
    (it_name : string) (v : Z) :
  context !! "iterators" = Some (CIterators its) →
  v ≤ 0 →
  update_iterator context it_name (Some v)
  = Ok (<["iterators" := CIterators (<[it_name := v]> its)]> context).
Proof.
  intros Hc Hv. unfold update_iterator, get_iterators.
  rewrite Hc. cbn [mbind Exc_bind].
  destruct (v >? 0) eqn:E; [lia | reflexivity].
Qed.

Lemma get_iterator_insert (context : Context) (its : gmap string Z) (it_name : string) :
  get_iterator (<["iterators" := CIterators its]> context) it_name
  = match its !! it_name with
    | Some v => Ok v
    | None => Raise (KeyError (py it_name))
    end.
Proof.
  unfold get_iterator, get_iterators. rewrite lookup_insert_eq. reflexivity.
Qed.

Lemma chr_code_point (n : Z) : 0 ≤ n → n < 1114112 → chr n = Ok [n].
Proof.
  intros H0 H1. unfold chr.
  destruct (0 <=? n) eqn:E0; [|lia]. destruct (n <? 1114112) eqn:E1; [|lia].
  reflexivity.
Qed.

Lemma skipped_before_bound (cur : Z) :
  0 ≤ len (filter (λ i, i < cur) (problem_skip_indices cfg)) ≤ len (letter_skips cfg).
Proof.
  unfold len, problem_skip_indices, problem_skips. split; [lia|].
  pose proof (length_filter (λ i, i < cur)
                ((λ c, c - first_problem_character cfg) <$> letter_skips cfg)) as H.
  rewrite length_fmap in H. lia.
Qed.

(** The iterators of a context just created by [convert_latex]. *)
Definition fresh_iterators : gmap string Z := <["problem" := 0]> (<["letter" := 0]> ∅).

(** C6.  On a fresh context (both iterators 0),
    [ProblemMacro(problem=1, letter=0, fmt="%(z)i%(ext)s.")] applied
    without arguments sets the problem counter to 1, leaves the letter
    counter 0 and returns a problem marker whose numbering string is
    ["1."]; and [update_iterator] adds a positive value to the counter
    and assigns a value that is not positive.  The letter of the marker
    is computed even when the format does not show it, so the first
    letter of the configuration has to leave room for the skipped
    letters inside Unicode. *)
Theorem ProblemMacro_numbering
    (context_commands : CommandTable) (soup : Soup) (node : Node) :
  0 ≤ first_letter cfg →
  first_letter cfg + len (letter_skips cfg) < 1114112 →
  (∃ context' m,
      apply cfg (ProblemMacro_init (py "%(z)i%(ext)s.") (Some 0) (Some 1) true [])
        (fresh_context context_commands) soup node []
      = Ok (context', soup, Single (RMeta m))
      ∧ get_iterator context' "problem" = Ok 1
      ∧ get_iterator context' "letter" = Ok 0
      ∧ kwargs m !! "cls" = Some (VStr (py "problem"))
      ∧ kwargs m !! "num" = Some (VStr (py "1.")))
  ∧ (∀ (context : Context) its it_name v,
        context !! "iterators" = Some (CIterators its) →
        (∀ old, 0 < v → its !! it_name = Some old →
           update_iterator context it_name (Some v)
           = Ok (<["iterators" := CIterators (<[it_name := old + v]> its)]> context))
        ∧ (v ≤ 0 →
           update_iterator context it_name (Some v)
           = Ok (<["iterators" := CIterators (<[it_name := v]> its)]> context))).
Proof.
  intros Hlow Hhigh. split.
  - unfold apply, ProblemMacro_init. cbn [class]. unfold ProblemMacro_apply.
    rewrite (update_iterator_add _ fresh_iterators "problem" 0 1);
      [|reflexivity|reflexivity|lia].
    cbn [mbind Exc_bind].
    erewrite (update_iterator_assign _ _ "letter" 0);
      [|apply lookup_insert_eq|lia].
    cbn [mbind Exc_bind].
    rewrite !get_iterator_insert.
    change ((<["letter" := 0]> (<["problem" := 0 + 1]> fresh_iterators)) !! "letter")
      with (Some 0).
    change ((<["letter" := 0]> (<["problem" := 0 + 1]> fresh_iterators)) !! "problem")
      with (Some 1).
    cbn [mbind Exc_bind].
    pose proof (skipped_before_bound 0) as Hskip.
    unfold first_problem_character.
    rewrite chr_code_point by lia.
    cbn [mbind Exc_bind].
    eexists _, _. split; [reflexivity|].
    rewrite get_iterator_insert.
    repeat split; reflexivity.
  - intros context its it_name v Hc. split.
    + intros old Hv Hi. apply update_iterator_add; assumption.
    + intros Hv. apply update_iterator_assign; assumption.
Qed.

End CommandProperties.

(** ** The rewrite engine *)

Section EngineProperties.
Context `{api : TexSoupAPI} (cfg : Config).

(** An invocation is expanded when its command says it is ready. *)
Definition is_ready (context_commands : CommandTable) (soup : Soup) (cmd : Node) : bool :=
  match dict_get (node_name cmd) context_commands with
  | Some callback => recursion_ready callback soup cmd context_commands
  | None => false
  end.

(** The number of expansions a level performs on the invocations it
    found: the ready ones, each tested in the tree as it is when the loop
    reaches it. *)
Fixpoint expansions (context_commands : CommandTable) (priority : Z)
    (cmds : list Node) (context : Context) (soup : Soup) : nat :=
  match cmds with
  | [] => 0
  | cmd :: rest =>
      match expand cfg context_commands priority context soup priority_cap cmd with
      | Ok (context', soup', _) =>
          ((if is_ready context_commands soup cmd then 1 else 0)
           + expansions context_commands priority rest context' soup')%nat
      | _ => 0%nat
      end
  end.

Lemma expand_outcome context_commands priority context soup last_stage cmd
    context' soup' last' :
  expand cfg context_commands priority context soup last_stage cmd
    = Ok (context', soup', last') →
  (is_ready context_commands soup cmd = true ∧ last' = priority)
  ∨ (is_ready context_commands soup cmd = false
     ∧ context' = context ∧ soup' = soup ∧ last' = last_stage).
Proof.
  unfold expand, is_ready.
  destruct (dict_get (node_name cmd) context_commands) as [callback|]; [|discriminate].
  destruct (recursion_ready callback soup cmd context_commands); cbn [negb].
  - destruct (arg_data soup cmd) as [data| |]; cbn [mbind Exc_bind]; try discriminate.
    destruct (invoke cfg callback context soup cmd data) as [[c s]| |];
      cbn [mbind Exc_bind]; try discriminate.
    destruct (soup_len s >? character_limit cfg); [discriminate|].
    intros [= <- <- <-]. left. split; reflexivity.
  - intros [= <- <- <-]. right. repeat split; reflexivity.
Qed.

(** A level either records its priority as the last stage, after at
    least one expansion, or expands nothing and changes nothing. *)
Lemma expand_all_outcome context_commands priority cmds :
  ∀ context soup context' soup' last',
    expand_all cfg context_commands priority cmds context soup priority_cap
      = Ok (context', soup', last') →
    (expansions context_commands priority cmds context soup ≠ 0%nat ∧ last' = priority)
    ∨ (expansions context_commands priority cmds context soup = 0%nat
       ∧ context' = context ∧ soup' = soup ∧ last' = priority_cap).
Proof.
  induction cmds as [|cmd rest IH]; intros context soup context' soup' last' H.
  - cbn in H. injection H as <- <- <-. right. repeat split; reflexivity.
  - cbn [expand_all] in H. cbn [expansions].
    destruct (expand cfg context_commands priority context soup priority_cap cmd)
      as [[[c s] l]| |] eqn:E; cbn [mbind Exc_bind] in H; try discriminate.
    destruct (expand_outcome _ _ _ _ _ _ _ _ _ E) as [[Hr ->]|(Hr & -> & -> & ->)];
      rewrite Hr.
    + left. split; [cbn; lia|].
      clear IH E Hr. revert c s context' soup' last' H.
      induction rest as [|cmd' rest' IH']; intros c s context' soup' last' H.
      * cbn in H. injection H as <- <- <-. reflexivity.
      * cbn [expand_all] in H.
        destruct (expand cfg context_commands priority c s priority cmd')
          as [[[c1 s1] l1]| |] eqn:E1; cbn [mbind Exc_bind] in H; try discriminate.
        destruct (expand_outcome _ _ _ _ _ _ _ _ _ E1) as [[_ ->]|(_ & _ & _ & ->)];
          eapply IH'; eassumption.
    + cbn [Nat.add]. apply IH. assumption.
Qed.

(** *** The priority scan *)

(** C1, as the code has it.  At a priority other than the sentinel
    [priority_cap], a level that performs at least one expansion ends the
    scan of the lower priorities of the current outer iteration, and a
    level that performs none leaves tree and context as they are and
    hands the scan over to the next lower priority.  After a scan that
    expanded something the next outer iteration scans the same list of
    priorities again, from the top; a scan that expanded nothing ends the
    rewrite. *)
Theorem priority_scan_stops_after_expanding_level
    (context_commands : CommandTable) (priority : Z) (lower : list Z)
    (context : Context) (soup : Soup) (context' : Context) (soup' : Soup) (last' : Z) :
  priority ≠ priority_cap →
  expand_all cfg context_commands priority
    (find_all soup (command_keys context_commands priority))
    context soup priority_cap = Ok (context', soup', last') →
  priority_scan cfg context_commands (priority :: lower) context soup priority_cap
  = (if (expansions context_commands priority
           (find_all soup (command_keys context_commands priority)) context soup
         =? 0)%nat
     then priority_scan cfg context_commands lower context soup priority_cap
     else Ok (context', soup', priority))
  ∧ (∀ priorities budget c0 s0 c s last,
        priority_scan cfg context_commands priorities c0 s0 priority_cap
          = Ok (c, s, last) →
        rewrite_loop cfg context_commands priorities (S budget) c0 s0
        = if last =? priority_cap then Ok (c, s)
          else rewrite_loop cfg context_commands priorities budget c s).
Proof.
  intros Hcap H. split.
  2:{ intros priorities budget c0 s0 c s last Hscan.
      cbn [rewrite_loop]. rewrite Hscan. reflexivity. }
  cbn [priority_scan]. rewrite H. cbn [mbind Exc_bind].
  destruct (expand_all_outcome _ _ _ _ _ _ _ _ H) as [[Hn ->]|(Hz & -> & -> & ->)].
  - rewrite Z.eqb_refl.
    destruct (Nat.eqb_spec
                (expansions context_commands priority
                   (find_all soup (command_keys context_commands priority)) context soup) 0);
      [contradiction|reflexivity].
  - rewrite Hz. cbn [Nat.eqb].
    destruct (Z.eqb_spec priority_cap priority); [congruence|reflexivity].
Qed.

Lemma rewrite_loop_raise context_commands priorities budget context soup e :
  priority_scan cfg context_commands priorities context soup priority_cap = Raise e →
  rewrite_loop cfg context_commands priorities (S budget) context soup = Raise e.
Proof. intros H. cbn [rewrite_loop]. rewrite H. reflexivity. Qed.

(** *** The nesting limit *)

(** The state after [n] outer iterations none of which reached the
    sentinel (or raised). *)
Fixpoint unconverged (context_commands : CommandTable) (priorities : list Z)
    (n : nat) (context : Context) (soup : Soup) : option (Context * Soup) :=
  match n with
  | O => Some (context, soup)
  | S n' =>
      match priority_scan cfg context_commands priorities context soup priority_cap with
      | Ok (context', soup', last) =>
          if last =? priority_cap then None
          else unconverged context_commands priorities n' context' soup'
      | _ => None
      end
  end.

(** The number of outer iterations [rewrite_loop] runs on a budget. *)
Fixpoint iterations (context_commands : CommandTable) (priorities : list Z)
    (budget : nat) (context : Context) (soup : Soup) : nat :=
  match budget with
  | O => 0
  | S budget' =>
      match priority_scan cfg context_commands priorities context soup priority_cap with
      | Ok (context', soup', last) =>
          if last =? priority_cap then 1
          else S (iterations context_commands priorities budget' context' soup')
      | _ => 1
      end
  end.

Lemma iterations_le_budget context_commands priorities budget :
  ∀ context soup,
    (iterations context_commands priorities budget context soup ≤ budget)%nat.
Proof.
  induction budget as [|b IH]; intros context soup; cbn [iterations]; [lia|].
  destruct (priority_scan cfg context_commands priorities context soup priority_cap)
    as [[[c s] l]| |]; try lia.
  destruct (l =? priority_cap); [lia|]. specialize (IH c s). lia.
Qed.

Lemma unconverged_exhausts_budget context_commands priorities budget :
  ∀ context soup st,
    unconverged context_commands priorities budget context soup = Some st →
    rewrite_loop cfg context_commands priorities budget context soup
      = Raise (ValueError (NestingLimitExceeded (command_nesting_limit cfg)))
    ∧ iterations context_commands priorities budget context soup = budget.
Proof.
  induction budget as [|b IH]; intros context soup st H.
  - split; reflexivity.
  - cbn [unconverged] in H. cbn [rewrite_loop iterations].
    destruct (priority_scan cfg context_commands priorities context soup priority_cap)
      as [[[c s] l]| |]; try discriminate.
    cbn [mbind Exc_bind].
    destruct (l =? priority_cap); [discriminate|].
    destruct (IH _ _ _ H) as [-> ->]. split; reflexivity.
Qed.

(** A rewrite that returns has converged within the budget. *)
Lemma rewrite_loop_converged context_commands priorities budget :
  ∀ context soup context' soup',
    rewrite_loop cfg context_commands priorities budget context soup
      = Ok (context', soup') →
    ∃ n context1 soup1,
      (n < budget)%nat
      ∧ unconverged context_commands priorities n context soup = Some (context1, soup1)
      ∧ priority_scan cfg context_commands priorities context1 soup1 priority_cap
        = Ok (context', soup', priority_cap).
Proof.
  induction budget as [|b IH]; intros context soup context' soup' H; [discriminate|].
  cbn [rewrite_loop] in H.
  destruct (priority_scan cfg context_commands priorities context soup priority_cap)
    as [[[c s] l]| |] eqn:E; cbn [mbind Exc_bind] in H; try discriminate.
  destruct (Z.eqb_spec l priority_cap) as [->|Hne].
  - injection H as <- <-. exists 0%nat, context, soup.
    split; [lia|]. split; [reflexivity|assumption].
  - destruct (IH _ _ _ _ H) as (n & c1 & s1 & Hn & Hu & Hs).
    exists (S n), c1, s1. split; [lia|]. split; [|assumption].
    cbn [unconverged]. rewrite E.
    destruct (Z.eqb_spec l priority_cap); [contradiction|assumption].
Qed.

Lemma convert_latex_rewrite context_commands latext soup0 context_commands' soup :
  TexSoup latext = Ok soup0 →
  add_commands context_commands soup0
    (find_all soup0 [py "newcommand"] ++ find_all soup0 [py "renewcommand"])
    = Ok (context_commands', soup) →
  convert_latex cfg context_commands latext
  = match rewrite_loop cfg context_commands' (all_priorities context_commands')
            (Z.to_nat (command_nesting_limit cfg))
            (fresh_context context_commands') soup with
    | Ok (context, soup') => Ok (soup', context)
    | Raise e => Raise e
    | Unmodelled => Unmodelled
    end.
Proof.
  intros Hparse Hadd. unfold convert_latex. rewrite Hparse. cbn [mbind Exc_bind].
  rewrite Hadd. cbn [mbind Exc_bind].
  destruct (rewrite_loop _ _ _ _ _ _) as [[c s]| |]; reflexivity.
Qed.

(** C8.  The rewrite loop runs at most [command-nesting-limit] outer
    iterations; when that many iterations have run and none reached the
    sentinel, [convert_latex] raises the nesting-limit error, whatever a
    further iteration would do. *)
Theorem convert_latex_nesting_limit
    (context_commands : CommandTable) (latext : pystr) (soup0 : Soup)
    (context_commands' : CommandTable) (soup : Soup) (st : Context * Soup) :
  let budget := Z.to_nat (command_nesting_limit cfg) in
  let priorities := all_priorities context_commands' in
  TexSoup latext = Ok soup0 →
  add_commands context_commands soup0
    (find_all soup0 [py "newcommand"] ++ find_all soup0 [py "renewcommand"])
    = Ok (context_commands', soup) →
  unconverged context_commands' priorities budget (fresh_context context_commands') soup
    = Some st →
  convert_latex cfg context_commands latext
    = Raise (ValueError (NestingLimitExceeded (command_nesting_limit cfg)))
  ∧ iterations context_commands' priorities budget (fresh_context context_commands') soup
    = budget
  ∧ ∀ context1 soup1,
      (iterations context_commands' priorities budget context1 soup1 ≤ budget)%nat.
Proof.
  intros budget priorities Hparse Hadd H.
  destruct (unconverged_exhausts_budget _ _ _ _ _ _ H) as [Hr Hi].
  split; [|split; [assumption|]].
  - rewrite (convert_latex_rewrite _ _ _ _ _ Hparse Hadd).
    fold budget priorities. rewrite Hr. reflexivity.
  - intros. apply iterations_le_budget.
Qed.

(** *** The character limit *)

Lemma expand_all_app context_commands priority pre post :
  ∀ context soup last,
    expand_all cfg context_commands priority (pre ++ post) context soup last
    = '(c, s, l) ← expand_all cfg context_commands priority pre context soup last;
      expand_all cfg context_commands priority post c s l.
Proof.
  induction pre as [|cmd pre IH]; intros context soup last.
  - reflexivity.
  - cbn [app expand_all].
    destruct (expand cfg context_commands priority context soup last cmd)
      as [[[c s] l]| |]; cbn [mbind Exc_bind]; try reflexivity.
    apply IH.
Qed.

(** A tree that an expansion has touched is within the character limit
    whenever the rewrite goes on, or returns. *)
Definition within_limit (before after : Soup) : Prop :=
  after = before ∨ soup_len after ≤ character_limit cfg.

Lemma within_limit_trans (s1 s2 s3 : Soup) :
  within_limit s1 s2 → within_limit s2 s3 → within_limit s1 s3.
Proof.
  unfold within_limit. intros [->|H12] [->|H23]; auto.
Qed.

Lemma expand_within_limit context_commands priority context soup last cmd
    context' soup' last' :
  expand cfg context_commands priority context soup last cmd = Ok (context', soup', last') →
  within_limit soup soup'.
Proof.
  unfold expand.
  destruct (dict_get (node_name cmd) context_commands) as [callback|]; [|discriminate].
  destruct (recursion_ready callback soup cmd context_commands); cbn [negb].
  - destruct (arg_data soup cmd) as [data| |]; cbn [mbind Exc_bind]; try discriminate.
    destruct (invoke cfg callback context soup cmd data) as [[c s]| |];
      cbn [mbind Exc_bind]; try discriminate.
    destruct (soup_len s >? character_limit cfg) eqn:E; [discriminate|].
    intros [= <- <- <-]. right. lia.
  - intros [= <- <- <-]. left. reflexivity.
Qed.

Lemma expand_all_within_limit context_commands priority cmds :
  ∀ context soup last context' soup' last',
    expand_all cfg context_commands priority cmds context soup last
      = Ok (context', soup', last') →
    within_limit soup soup'.
Proof.
  induction cmds as [|cmd rest IH]; intros context soup last context' soup' last' H.
  - cbn in H. injection H as <- <- <-. left. reflexivity.
  - cbn [expand_all] in H.
    destruct (expand cfg context_commands priority context soup last cmd)
      as [[[c s] l]| |] eqn:E; cbn [mbind Exc_bind] in H; try discriminate.
    eapply within_limit_trans; [eapply expand_within_limit; eassumption|].
    eapply IH; eassumption.
Qed.

Lemma priority_scan_within_limit context_commands priorities :
  ∀ context soup last context' soup' last',
    priority_scan cfg context_commands priorities context soup last
      = Ok (context', soup', last') →
    within_limit soup soup'.
Proof.
  induction priorities as [|p lower IH]; intros context soup last context' soup' last' H.
  - cbn in H. injection H as <- <- <-. left. reflexivity.
  - cbn [priority_scan] in H.
    destruct (expand_all cfg context_commands p _ context soup last)
      as [[[c s] l]| |] eqn:E; cbn [mbind Exc_bind] in H; try discriminate.
    pose proof (expand_all_within_limit _ _ _ _ _ _ _ _ _ E) as H1.
    destruct (l =? p).
    + injection H as <- <- <-. exact H1.
    + eapply within_limit_trans; [exact H1|]. eapply IH; eassumption.
Qed.

Lemma rewrite_loop_within_limit context_commands priorities budget :
  ∀ context soup context' soup',
    rewrite_loop cfg context_commands priorities budget context soup
      = Ok (context', soup') →
    within_limit soup soup'.
Proof.
  induction budget as [|b IH]; intros context soup context' soup' H; [discriminate|].
  cbn [rewrite_loop] in H.
  destruct (priority_scan cfg context_commands priorities context soup priority_cap)
    as [[[c s] l]| |] eqn:E; cbn [mbind Exc_bind] in H; try discriminate.
  pose proof (priority_scan_within_limit _ _ _ _ _ _ _ _ E) as H1.
  destruct (l =? priority_cap).
  - injection H as <- <-. exact H1.
  - eapply within_limit_trans; [exact H1|]. eapply IH; eassumption.
Qed.

(** C9.  When an expansion succeeds, the length of the serialized tree is
    compared with [character-limit]: the expansion stands when the length
    is within the limit, and otherwise the size-limit error is raised at
    once, the invocations still to visit at this level, the lower
    priorities and the outer iterations left notwithstanding.  A rewrite
    that returns has therefore either expanded nothing or left a tree
    within the limit. *)
Theorem expansion_checks_character_limit
    (context_commands : CommandTable) (priority : Z)
    (pre rest : list Node) (cmd : Node) (lower : list Z) (budget : nat)
    (context0 : Context) (soup0 : Soup)
    (context : Context) (soup : Soup) (last : Z)
    (callback : LatexCommand) (data : list pystr)
    (context' : Context) (soup' : Soup) :
  find_all soup0 (command_keys context_commands priority) = pre ++ cmd :: rest →
  expand_all cfg context_commands priority pre context0 soup0 priority_cap
    = Ok (context, soup, last) →
  dict_get (node_name cmd) context_commands = Some callback →
  recursion_ready callback soup cmd context_commands = true →
  arg_data soup cmd = Ok data →
  invoke cfg callback context soup cmd data = Ok (context', soup') →
  let too_long :=
    ValueError (FileSizeLimitExceeded (character_limit cfg) (soup_len soup')) in
  expand cfg context_commands priority context soup last cmd
    = (if soup_len soup' >? character_limit cfg then Raise too_long
       else Ok (context', soup', priority))
  ∧ (character_limit cfg < soup_len soup' →
     expand_all cfg context_commands priority (pre ++ cmd :: rest)
       context0 soup0 priority_cap = Raise too_long
     ∧ priority_scan cfg context_commands (priority :: lower) context0 soup0 priority_cap
       = Raise too_long
     ∧ rewrite_loop cfg context_commands (priority :: lower) (S budget) context0 soup0
       = Raise too_long)
  ∧ (∀ priorities n c1 s1 c2 s2,
        rewrite_loop cfg context_commands priorities n c1 s1 = Ok (c2, s2) →
        s2 = s1 ∨ soup_len s2 ≤ character_limit cfg).
Proof.
  intros Hfound Hpre Hget Hready Hdata Hinvoke too_long.
  assert (Hexpand :
    expand cfg context_commands priority context soup last cmd
    = (if soup_len soup' >? character_limit cfg then Raise too_long
       else Ok (context', soup', priority))).
  { unfold expand. rewrite Hget, Hready. cbn [negb]. rewrite Hdata.
    cbn [mbind Exc_bind]. rewrite Hinvoke. reflexivity. }
  split; [assumption|].
  split; [|intros priorities n c1 s1 c2 s2 Hloop;
            exact (rewrite_loop_within_limit _ _ _ _ _ _ _ Hloop)].
  intros Hlong.
  assert (Hgt : (soup_len soup' >? character_limit cfg) = true) by lia.
  rewrite Hgt in Hexpand.
  assert (Hall :
    expand_all cfg context_commands priority (pre ++ cmd :: rest)
      context0 soup0 priority_cap = Raise too_long).
  { rewrite expand_all_app, Hpre. cbn [mbind Exc_bind expand_all].
    rewrite Hexpand. reflexivity. }
  split; [assumption|].
  assert (Hscan :
    priority_scan cfg context_commands (priority :: lower) context0 soup0 priority_cap
    = Raise too_long).
  { cbn [priority_scan]. rewrite Hfound, Hall. reflexivity. }
  split; [assumption|].
  apply rewrite_loop_raise. assumption.
Qed.

End EngineProperties.

(** ** The converter *)

Section ConverterProperties.
Context `{api : TexSoupAPI} (cfg : Config).
Context {LatexObject : Type} (parse_obj : gmap string PyVal → Exc LatexObject).

(** *** The global attributes *)

Lemma update_iterator_frame (context context' : Context) it_name value (key : string) :
  update_iterator context it_name value = Ok context' →
  key ≠ "iterators" →
  context' !! key = context !! key.
Proof.
  unfold update_iterator. destruct value as [v|]; [|intros [= <-]; reflexivity].
  destruct (get_iterators context) as [its| |]; cbn [mbind Exc_bind]; try discriminate.
  destruct (v >? 0).
  - destruct (get_iterator context it_name) as [old| |]; cbn [mbind Exc_bind];
      try discriminate.
    intros [= <-] Hk. rewrite lookup_insert_ne; [reflexivity|congruence].
  - intros [= <-] Hk. rewrite lookup_insert_ne; [reflexivity|congruence].
Qed.

(** An entry of the shared context other than the iterators is written
    by the [GlobalConfig] command of that target, and by no other
    command. *)
Lemma apply_context_frame (c : LatexCommand) (context context' : Context)
    (soup soup' : Soup) (node : Node) (args : list pystr) (r : ApplyResult)
    (key : string) :
  apply cfg c context soup node args = Ok (context', soup', r) →
  key ≠ "iterators" →
  (∀ strip_value, class c ≠ GlobalConfig key strip_value) →
  context' !! key = context !! key.
Proof.
  unfold apply. intros H Hk Hc.
  destruct (class c) as [content n o t|fmt|content n metaname o t|repl|target sv
                         |fmt letter problem incl cfmt].
  - destruct (TextCommand_apply content n o t soup node args);
      cbn [mbind Exc_bind] in H; try discriminate.
    injection H as <- <- <-. reflexivity.
  - destruct (ItemExtractor_apply fmt soup node) as [[s rs]| |];
      cbn [mbind Exc_bind] in H; try discriminate.
    injection H as <- <- <-. reflexivity.
  - destruct (TextEnv_apply content metaname soup node args);
      cbn [mbind Exc_bind] in H; try discriminate.
    injection H as <- <- <-. reflexivity.
  - discriminate.
  - unfold GlobalConfig_apply in H. destruct args as [|a rest]; [discriminate|].
    cbn [mbind Exc_bind] in H. injection H as <- <- <-.
    rewrite lookup_insert_ne; [reflexivity|].
    intros ->. exact (Hc sv eq_refl).
  - unfold ProblemMacro_apply in H.
    destruct (update_iterator context "problem" problem) as [c1| |] eqn:E1;
      cbn [mbind Exc_bind] in H; try discriminate.
    destruct (update_iterator c1 "letter" letter) as [c2| |] eqn:E2;
      cbn [mbind Exc_bind] in H; try discriminate.
    destruct (get_iterator c2 "letter") as [cur| |];
      cbn [mbind Exc_bind] in H; try discriminate.
    destruct (chr _) as [letter_str| |]; cbn [mbind Exc_bind] in H; try discriminate.
    destruct (get_iterator c2 "problem") as [z| |];
      cbn [mbind Exc_bind] in H; try discriminate.
    destruct (percent_format fmt _) as [num| |]; cbn [mbind Exc_bind] in H;
      try discriminate.
    destruct (percent_format cfmt _) as [cnum| |]; cbn [mbind Exc_bind] in H;
      try discriminate.
    injection H as <- <- <-.
    rewrite (update_iterator_frame _ _ _ _ _ E2 Hk).
    apply (update_iterator_frame _ _ _ _ _ E1 Hk).
Qed.

Lemma fresh_context_attributes (context_commands : CommandTable) (key : string) :
  key ≠ "iterators" → key ≠ "commands" →
  fresh_context context_commands !! key = None.
Proof.
  intros H1 H2. unfold fresh_context.
  rewrite lookup_insert_ne by congruence.
  rewrite lookup_insert_ne by congruence.
  apply lookup_empty.
Qed.

(** What [build_latex] does once the rewriting has returned. *)
Lemma build_latex_after_convert (latext : pystr) (soup : Soup) (context : Context) :
  convert_latex cfg BuiltinCommands (preprocess latext) = Ok (soup, context) →
  build_latex cfg parse_obj latext
  = (sheet_id ← required_attribute context "sheet_id" "no_sheet_id";
     sheet_name ← required_attribute context "sheet_name" "no_sheet_name";
     objs ← fold_document cfg parse_obj soup;
     Ok (mkDocument objs latext sheet_id sheet_name)).
Proof. intros Hconv. unfold build_latex. rewrite Hconv. reflexivity. Qed.

Lemma build_latex_without_sheet_id (latext : pystr) (soup : Soup) (context : Context) :
  convert_latex cfg BuiltinCommands (preprocess latext) = Ok (soup, context) →
  context !! "sheet_id" = None →
  build_latex cfg parse_obj latext = Raise (ValueError (Localized "no_sheet_id")).
Proof.
  intros Hconv Hid. rewrite (build_latex_after_convert _ _ _ Hconv).
  unfold required_attribute. rewrite Hid. reflexivity.
Qed.

(** C7.  When the rewriting is over and the shared context holds no
    [sheet_id], [build_latex] raises the localized missing-sheet-id
    error; when it holds a sheet id and no [sheet_name], the
    missing-sheet-name error.  The check comes after the rewriting, whose
    own errors come first, and before the folding: neither the tree nor
    the object parser has a say.  Whenever one of the two is missing the
    conversion ends in one of the two errors, the sheet id being looked
    at first. *)
Theorem build_latex_missing_global_attribute
    (latext : pystr) (soup : Soup) (context : Context) :
  convert_latex cfg BuiltinCommands (preprocess latext) = Ok (soup, context) →
  (context !! "sheet_id" = None →
   build_latex cfg parse_obj latext = Raise (ValueError (Localized "no_sheet_id")))
  ∧ (∀ v, context !! "sheet_id" = Some v → ctx_truthy v = true →
          context !! "sheet_name" = None →
     build_latex cfg parse_obj latext = Raise (ValueError (Localized "no_sheet_name")))
  ∧ (context !! "sheet_id" = None ∨ context !! "sheet_name" = None →
     build_latex cfg parse_obj latext = Raise (ValueError (Localized "no_sheet_id"))
     ∨ build_latex cfg parse_obj latext = Raise (ValueError (Localized "no_sheet_name"))).
Proof.
  intros Hconv.
  assert (Hname : ∀ v, context !! "sheet_id" = Some v → ctx_truthy v = true →
                       context !! "sheet_name" = None →
            build_latex cfg parse_obj latext
            = Raise (ValueError (Localized "no_sheet_name"))).
  { intros v Hid Hv Hname. rewrite (build_latex_after_convert _ _ _ Hconv).
    unfold required_attribute. rewrite Hid, Hv, Hname. reflexivity. }
  split; [|split].
  - apply (build_latex_without_sheet_id _ _ _ Hconv).
  - exact Hname.
  - intros [Hid|Hmissing].
    + left. apply (build_latex_without_sheet_id _ _ _ Hconv Hid).
    + destruct (context !! "sheet_id") as [v|] eqn:Hid.
      * destruct (ctx_truthy v) eqn:Hv.
        -- right. apply (Hname v); [reflexivity|assumption..].
        -- left. rewrite (build_latex_after_convert _ _ _ Hconv).
           unfold required_attribute. rewrite Hid, Hv. reflexivity.
      * left. apply (build_latex_without_sheet_id _ _ _ Hconv Hid).
Qed.

Lemma build_latex_after_rewriting (latext : pystr) (e : Exception) :
  convert_latex cfg BuiltinCommands (preprocess latext) = Raise e →
  build_latex cfg parse_obj latext = Raise e.
Proof. intros H. unfold build_latex. rewrite H. reflexivity. Qed.

(** *** Blank attributes *)

Lemma lstrip_blank (ws : pystr) : forallb is_space ws = true → lstrip ws = [].
Proof.
  induction ws as [|c t IH]; [reflexivity|].
  cbn [forallb lstrip]. intros [Hc Ht]%andb_prop. rewrite Hc. apply IH, Ht.
Qed.

Lemma strip_blank (ws : pystr) : forallb is_space ws = true → strip ws = [].
Proof. intros H. unfold strip. rewrite (lstrip_blank _ H). reflexivity. Qed.

(** C10.  A sheet id (or sheet name) given as an empty or all-blank
    argument is stored stripped, as the empty string, and [build_latex]
    then raises the same error as for an attribute that was never set. *)
Theorem blank_global_attribute_is_missing
    (ws : pystr) (more : list pystr) (target : string)
    (context : Context) (soup : Soup) (node : Node) :
  forallb is_space ws = true →
  apply cfg (mkCommand 0 (GlobalConfig target true)) context soup node (ws :: more)
    = Ok (<[target := CStr []]> context, soup, Single (RStr []))
  ∧ (∀ latext soup' context',
        convert_latex cfg BuiltinCommands (preprocess latext) = Ok (soup', context') →
        (context' !! "sheet_id" = Some (CStr []) →
         build_latex cfg parse_obj latext = Raise (ValueError (Localized "no_sheet_id")))
        ∧ (∀ v, context' !! "sheet_id" = Some v → ctx_truthy v = true →
                context' !! "sheet_name" = Some (CStr []) →
           build_latex cfg parse_obj latext
           = Raise (ValueError (Localized "no_sheet_name")))).
Proof.
  intros Hws. split.
  - unfold apply. cbn [class]. unfold GlobalConfig_apply. cbn [mbind Exc_bind].
    rewrite (strip_blank _ Hws). reflexivity.
  - intros latext soup' context' Hconv.
    rewrite (build_latex_after_convert _ _ _ Hconv).
    unfold required_attribute. split.
    + intros ->. reflexivity.
    + intros v -> -> ->. reflexivity.
Qed.

(** *** Documents without commands *)

Lemma priority_scan_nothing_found (context_commands : CommandTable)
    (context : Context) (soup : Soup) (priorities : list Z) :
  (∀ priority, find_all soup (command_keys context_commands priority) = []) →
  priority_cap ∉ priorities →
  priority_scan cfg context_commands priorities context soup priority_cap
  = Ok (context, soup, priority_cap).
Proof.
  intros Hnone. induction priorities as [|p lower IH]; intros Hcap; [reflexivity|].
  cbn [priority_scan]. rewrite Hnone. cbn [expand_all mbind Exc_bind].
  destruct (Z.eqb_spec priority_cap p) as [<-|_].
  - exfalso. apply Hcap. left.
  - apply IH. intros Hin. apply Hcap. right. exact Hin.
Qed.

Lemma all_priorities_builtin : all_priorities BuiltinCommands = [0; -1; -333].
Proof. vm_compute. reflexivity. Qed.

Lemma convert_latex_command_free (latext : pystr) (soup : Soup) :
  0 < command_nesting_limit cfg →
  TexSoup latext = Ok soup →
  find_all soup [py "newcommand"] = [] →
  find_all soup [py "renewcommand"] = [] →
  (∀ priority, find_all soup (command_keys BuiltinCommands priority) = []) →
  convert_latex cfg BuiltinCommands latext = Ok (soup, fresh_context BuiltinCommands).
Proof.
  intros Hlimit Hparse Hnew Hrenew Hnone.
  unfold convert_latex. rewrite Hparse. cbn [mbind Exc_bind].
  rewrite Hnew, Hrenew. cbn [app add_commands mbind Exc_bind].
  destruct (Z.to_nat (command_nesting_limit cfg)) as [|budget] eqn:E; [lia|].
  cbn [rewrite_loop].
  rewrite priority_scan_nothing_found; [reflexivity|assumption|].
  rewrite all_priorities_builtin. unfold priority_cap.
  rewrite !elem_of_cons, elem_of_nil. lia.
Qed.

(** Text fed to a collecting node goes to the end of its buffer. *)
Lemma collect_str_appends (objs : list LatexObject) (base : gmap string PyVal)
    (buf s : pystr) :
  collect_str parse_obj objs (mkMetadataNode true (<["text" := VStr buf]> base)) s
  = Ok (objs, mkMetadataNode true (<["text" := VStr (buf ++ s)]> base)).
Proof.
  unfold collect_str, collect. cbn [collect_text kwargs andb].
  rewrite lookup_insert_eq. rewrite bool_decide_eq_false_2 by discriminate.
  rewrite lookup_insert_eq. cbn [mbind Exc_bind].
  rewrite insert_insert_eq. reflexivity.
Qed.

Lemma collect_str_starts (objs : list LatexObject) (s : pystr) :
  collect_str parse_obj objs text_node s
  = Ok (objs, mkMetadataNode true (<["text" := VStr s]> (kwargs text_node))).
Proof.
  unfold collect_str.
  replace (collect text_node (Some s))
    with (Ok (mkMetadataNode true (<["text" := VStr s]> (kwargs text_node)),
              @None (gmap string PyVal), @nil Z))
    by (vm_compute; reflexivity).
  reflexivity.
Qed.

Lemma fold_nodes_text_leaves (soup : Soup) (parts : list pystr) :
  ∀ (objs : list LatexObject) (base : gmap string PyVal) (buf : pystr),
    fold_nodes cfg parse_obj soup (IStr <$> parts) objs
      (mkMetadataNode true (<["text" := VStr buf]> base))
    = Ok (objs, mkMetadataNode true (<["text" := VStr (buf ++ concat parts)]> base)).
Proof.
  induction parts as [|s rest IH]; intros objs base buf.
  - cbn. rewrite app_nil_r. reflexivity.
  - cbn [fmap list_fmap fold_nodes]. rewrite collect_str_appends.
    cbn [mbind Exc_bind]. rewrite IH. cbn [concat]. rewrite app_assoc. reflexivity.
Qed.

Lemma collect_flush_single_paragraph (kw : gmap string PyVal) (text : pystr) :
  kw !! "text" = Some (VStr text) →
  text ≠ [] →
  contains double_newline text = false →
  collect (mkMetadataNode true kw) None = Ok (mkMetadataNode true kw, Some kw, []).
Proof.
  intros Hkw Hne Hsingle. unfold collect. cbn [collect_text kwargs andb].
  rewrite Hkw. rewrite bool_decide_eq_false_2 by discriminate. rewrite Hkw.
  destruct text as [|c t]; [contradiction|]. cbn [truthy].
  rewrite Hsingle. reflexivity.
Qed.

Lemma collect_flush_empty :
  collect text_node None
  = Ok (mkMetadataNode true (<["text" := VStr []]> (kwargs text_node)), None, []).
Proof. vm_compute. reflexivity. Qed.

Lemma collect_excess_single_paragraph (budget : nat) (text : pystr) (o : LatexObject) :
  text ≠ [] →
  contains double_newline text = false →
  parse_obj (<["text" := VStr text]> (kwargs text_node)) = Ok o →
  collect_excess parse_obj (S (S budget)) []
    (mkMetadataNode true (<["text" := VStr text]> (kwargs text_node)))
  = Ok [o].
Proof.
  intros Hne Hsingle Hparse.
  cbn [collect_excess].
  rewrite (collect_flush_single_paragraph _ text); [|apply lookup_insert_eq|assumption..].
  cbn [mbind Exc_bind].
  unfold dict_truthy. rewrite bool_decide_eq_false_2 by apply insert_non_empty.
  cbn [negb]. rewrite Hparse. cbn [mbind Exc_bind truthy].
  rewrite collect_flush_empty. reflexivity.
Qed.

(** C3, as the code has it.  A document without recognized commands and
    without macro definitions comes out of the rewriting as it was
    parsed, with a context that has no sheet id, and [build_latex] raises
    the missing-sheet-id error.  The folder, run on such a tree of text
    leaves that spell a non-empty text without a double newline, gives
    exactly one object, parsed from the text-class attribute bag whose
    text is the preprocessed input. *)
Theorem command_free_document_lacks_sheet_id (latext : pystr) (soup : Soup) :
  0 < command_nesting_limit cfg →
  TexSoup (preprocess latext) = Ok soup →
  find_all soup [py "newcommand"] = [] →
  find_all soup [py "renewcommand"] = [] →
  (∀ priority, find_all soup (command_keys BuiltinCommands priority) = []) →
  convert_latex cfg BuiltinCommands (preprocess latext)
    = Ok (soup, fresh_context BuiltinCommands)
  ∧ build_latex cfg parse_obj latext = Raise (ValueError (Localized "no_sheet_id"))
  ∧ (∀ parts o,
        node_contents soup (root soup) = IStr <$> parts →
        concat parts = preprocess latext →
        preprocess latext ≠ [] →
        contains double_newline (preprocess latext) = false →
        2 ≤ excess_stacking cfg →
        parse_obj (<["text" := VStr (preprocess latext)]> (kwargs text_node)) = Ok o →
        fold_document cfg parse_obj soup = Ok [o]).
Proof.
  intros Hlimit Hparse Hnew Hrenew Hnone.
  pose proof (convert_latex_command_free _ _ Hlimit Hparse Hnew Hrenew Hnone) as Hconv.
  split; [assumption|]. split.
  - apply (build_latex_without_sheet_id _ _ _ Hconv).
    apply fresh_context_attributes; discriminate.
  - intros parts o Hcontents Hconcat Hne Hsingle Hstack Hobj.
    unfold fold_document. rewrite Hcontents.
    destruct parts as [|s rest].
    { exfalso. apply Hne. symmetry. exact Hconcat. }
    cbn [fmap list_fmap fold_nodes]. rewrite collect_str_starts.
    cbn [mbind Exc_bind]. rewrite fold_nodes_text_leaves. cbn [mbind Exc_bind].
    cbn [concat] in Hconcat. rewrite Hconcat.
    destruct (Z.to_nat (excess_stacking cfg)) as [|[|budget]] eqn:E; [lia|lia|].
    apply collect_excess_single_paragraph; assumption.
Qed.

End ConverterProperties.

(** *** Macro definitions *)

Section DefinitionProperties.
Context `{api : TexSoupAPI} (cfg : Config).

Lemma dict_get_set_eq {V} (k : pystr) (v : V) (d : list (pystr * V)) :
  dict_get k (dict_set k v d) = Some v.
Proof.
  induction d as [|[k' v'] rest IH]; cbn [dict_set dict_get].
  - unfold str_eqb. rewrite bool_decide_eq_true_2 by reflexivity. reflexivity.
  - unfold str_eqb in *. destruct (bool_decide (k = k')) eqn:E; cbn [dict_get].
    + unfold str_eqb. rewrite bool_decide_eq_true_2 by reflexivity. reflexivity.
    + unfold str_eqb. rewrite E. exact IH.
Qed.

(** [TextCommand] is handed the content list of the body group, which
    [hash_regex.sub] refuses: no definition is ever turned into a
    command. *)
Lemma soup_to_command_never_returns (soup : Soup) (cmd : Node) (c : LatexCommand) :
  soup_to_command soup cmd ≠ Ok c.
Proof.
  unfold soup_to_command.
  destruct (List.filter _ (node_args soup cmd)) as [|g1 [|g2 [|g3 gs]]]; try discriminate.
  destruct (2 <? len _); [discriminate|].
  destruct (List.filter _ (node_args soup cmd)) as [|b [|o bs]].
  - discriminate.
  - cbn [mbind Exc_bind].
    destruct (first_item b) as [x| |]; cbn [mbind Exc_bind]; try discriminate.
    destruct (int_of_item x); discriminate.
  - cbn [mbind Exc_bind].
    destruct (first_item b) as [x| |]; cbn [mbind Exc_bind]; try discriminate.
    destruct (int_of_item x); cbn [mbind Exc_bind]; try discriminate.
    destruct (first_item o); discriminate.
Qed.

Lemma soup_to_command_plain_definition (soup : Soup) (cmd : Node)
    (name body : Group Node) :
  List.filter (λ a, str_eqb (gname a) (py "BraceGroup")) (node_args soup cmd)
    = [name; body] →
  List.filter (λ a, str_eqb (gname a) (py "BracketGroup")) (node_args soup cmd) = [] →
  soup_to_command soup cmd = Raise TypeError.
Proof. intros Hbrace Hbracket. unfold soup_to_command. rewrite Hbrace, Hbracket. reflexivity. Qed.

(** C2, on the code.  A document with a [\newcommand] or [\renewcommand]
    never gets through [convert_latex]: the first definition found makes
    it raise before the table is extended and before the node is
    removed; for a definition of two brace groups and no bracket group
    the exception is the [TypeError] of the [TextCommand] constructor.
    The assignment that follows would store whatever command it is given
    under the name of the definition node itself. *)
Theorem macro_definition_aborts_conversion
    (context_commands : CommandTable) (latext : pystr) (soup : Soup)
    (definition : Node) (more : list Node) (name body : Group Node) :
  TexSoup latext = Ok soup →
  find_all soup [py "newcommand"] ++ find_all soup [py "renewcommand"]
    = definition :: more →
  List.filter (λ a, str_eqb (gname a) (py "BraceGroup")) (node_args soup definition)
    = [name; body] →
  List.filter (λ a, str_eqb (gname a) (py "BracketGroup")) (node_args soup definition) = [] →
  convert_latex cfg context_commands latext = Raise TypeError
  ∧ (∀ context_commands' soup',
        add_commands context_commands soup (definition :: more)
        ≠ Ok (context_commands', soup'))
  ∧ (∀ c, dict_get (node_name definition)
             (register_command context_commands definition c) = Some c).
Proof.
  intros Hparse Hfound Hbrace Hbracket. split; [|split].
  - unfold convert_latex. rewrite Hparse. cbn [mbind Exc_bind]. rewrite Hfound.
    cbn [add_commands].
    rewrite (soup_to_command_plain_definition _ _ _ _ Hbrace Hbracket). reflexivity.
  - intros t s. cbn [add_commands].
    rewrite (soup_to_command_plain_definition _ _ _ _ Hbrace Hbracket). discriminate.
  - intros c. apply dict_get_set_eq.
Qed.

End DefinitionProperties.

(** * Worked examples on the concrete tree *)

Import Arena.

#[local] Existing Instance examples.

(** Closed runs are checked by evaluation of a boolean test on their
    outcome. *)
Definition holds {A} (r : Exc A) (test : A → bool) : bool :=
  match r with
  | Ok a => test a
  | _ => false
  end.

Lemma holds_elim {A} (r : Exc A) (test : A → bool) :
  holds r test = true → ∃ a, r = Ok a ∧ test a = true.
Proof.
  destruct r as [a| |]; cbn; intros H; try discriminate.
  exists a. split; [reflexivity|exact H].
Defined.

Definition returns (r : Exc Z) (n : Z) : bool := holds r (Z.eqb n).

Lemma returns_elim (r : Exc Z) (n : Z) : returns r n = true → r = Ok n.
Proof.
  unfold returns. intros H. destruct (holds_elim _ _ H) as (a & -> & Ha).
  apply Z.eqb_eq in Ha. subst a. reflexivity.
Defined.

(** An object parser that keeps the attribute bag as it is. *)
Definition plain_object (kw : gmap string PyVal) : Exc (gmap string PyVal) := Ok kw.

Definition fresh : gmap string (CtxVal (api := examples)) :=
  fresh_context BuiltinCommands.

(** Problem numbering on the tree of [\z]. *)
Lemma ProblemMacro_numbering_z :
  ∃ context' m,
    apply (api := examples) config
      (ProblemMacro_init (py "%(z)i%(ext)s.") (Some 0) (Some 1) true [])
      fresh tree_z (cmd 1 "z") []
    = Ok (context', tree_z, Single (RMeta m))
    ∧ get_iterator (api := examples) context' "problem" = Ok 1
    ∧ get_iterator (api := examples) context' "letter" = Ok 0
    ∧ kwargs m !! "cls" = Some (VStr (py "problem"))
    ∧ kwargs m !! "num" = Some (VStr (py "1.")).
Proof.
  refine (proj1 (ProblemMacro_numbering (api := examples) config BuiltinCommands
                   tree_z (cmd 1 "z") _ _)).
  - vm_compute. discriminate.
  - vm_compute. reflexivity.
Defined.

(** [\textbf{x}\z]: the level of priority 0 expands [\textbf], and the
    scan stops there. *)
Lemma priority_scan_bold_z :
  ∃ context' soup',
    expand_all (api := examples) config BuiltinCommands 0
      (find_all (TexSoupAPI := examples) tree_bold_z (command_keys BuiltinCommands 0))
      fresh tree_bold_z priority_cap = Ok (context', soup', 0)
    ∧ priority_scan (api := examples) config BuiltinCommands [0; -1; -333]
        fresh tree_bold_z priority_cap
      = Ok (context', soup', 0).
Proof.
  destruct (holds_elim
              (expand_all (api := examples) config BuiltinCommands 0
                 (find_all (TexSoupAPI := examples) tree_bold_z (command_keys BuiltinCommands 0))
                 fresh tree_bold_z priority_cap)
              (λ r, r.2 =? 0))
    as ([[c s] l] & E & Hl).
  { vm_compute. reflexivity. }
  cbn in Hl. apply Z.eqb_eq in Hl. subst l.
  exists c, s. split; [exact E|].
  rewrite (proj1 (priority_scan_stops_after_expanding_level (api := examples) config
                    BuiltinCommands 0 [-1; -333] fresh tree_bold_z c s 0
                    ltac:(discriminate) E)).
  replace (expansions (api := examples) config BuiltinCommands 0
             (find_all (TexSoupAPI := examples) tree_bold_z (command_keys BuiltinCommands 0)) fresh tree_bold_z)
    with 1%nat by (vm_compute; reflexivity).
  reflexivity.
Defined.

(** C1, as the specification has it, fails on the code.  In [\z] the
    level of priority 0 performs no expansion, and the scan goes on to
    the priorities -1 and -333 and expands [\z] there, in the same outer
    iteration.  In [\textbf{x}\z] the level of priority 0 performs one
    expansion and that ends the scan: [\z], ready as it is, stays in the
    tree and the problem counter stays 0. *)
Lemma stalled_level_does_not_end_the_scan :
  (expansions (api := examples) config BuiltinCommands 0
     (find_all (TexSoupAPI := examples) tree_z (command_keys BuiltinCommands 0)) fresh tree_z = 0%nat
   ∧ ∃ context' soup',
       priority_scan (api := examples) config BuiltinCommands [0; -1; -333]
         fresh tree_z priority_cap = Ok (context', soup', -333)
       ∧ get_iterator (api := examples) context' "problem" = Ok 1
       ∧ find_all (TexSoupAPI := examples) soup' [py "z"] = [])
  ∧ (expansions (api := examples) config BuiltinCommands 0
       (find_all (TexSoupAPI := examples) tree_bold_z (command_keys BuiltinCommands 0)) fresh tree_bold_z = 1%nat
     ∧ ∃ context' soup',
         priority_scan (api := examples) config BuiltinCommands [0; -1; -333]
           fresh tree_bold_z priority_cap = Ok (context', soup', 0)
         ∧ get_iterator (api := examples) context' "problem" = Ok 0
         ∧ find_all (TexSoupAPI := examples) soup' [py "z"] = [cmd 2 "z"]
         ∧ is_ready (api := examples) BuiltinCommands soup' (cmd 2 "z") = true).
Proof.
  split; (split; [vm_compute; reflexivity|]).
  - destruct (holds_elim
                (priority_scan (api := examples) config BuiltinCommands [0; -1; -333]
                   fresh tree_z priority_cap)
                (λ r, (r.2 =? -333)
                      && returns (get_iterator (api := examples) r.1.1 "problem") 1
                      && bool_decide (find_all (TexSoupAPI := examples) r.1.2 [py "z"] = [])))
      as ([[c s] l] & E & H).
    { vm_compute. reflexivity. }
    cbn [fst snd] in H.
    apply andb_prop in H as [H Hfound]. apply andb_prop in H as [Hl Hproblem].
    apply Z.eqb_eq in Hl. subst l.
    exists c, s. split; [exact E|]. split; [exact (returns_elim _ _ Hproblem)|].
    exact (bool_decide_eq_true_1 _ Hfound).
  - destruct (holds_elim
                (priority_scan (api := examples) config BuiltinCommands [0; -1; -333]
                   fresh tree_bold_z priority_cap)
                (λ r, (r.2 =? 0)
                      && returns (get_iterator (api := examples) r.1.1 "problem") 0
                      && bool_decide (find_all (TexSoupAPI := examples) r.1.2 [py "z"] = [cmd 2 "z"])
                      && is_ready (api := examples) BuiltinCommands r.1.2 (cmd 2 "z")))
      as ([[c s] l] & E & H).
    { vm_compute. reflexivity. }
    cbn [fst snd] in H.
    apply andb_prop in H as [H Hready]. apply andb_prop in H as [H Hfound].
    apply andb_prop in H as [Hl Hproblem].
    apply Z.eqb_eq in Hl. subst l.
    exists c, s. split; [exact E|]. split; [exact (returns_elim _ _ Hproblem)|].
    split; [exact (bool_decide_eq_true_1 _ Hfound)|exact Hready].
Qed.

(** Under a nesting limit of 2, [\textbf{x}\z] needs a third outer
    iteration and does not get it. *)
Definition config_two_iterations : Config := mkConfig 20000 2 10 97 [].

Lemma convert_latex_nesting_limit_bold_z :
  convert_latex (api := examples) config_two_iterations BuiltinCommands doc_bold_z
    = Raise (ValueError (NestingLimitExceeded 2))
  ∧ iterations (api := examples) config_two_iterations BuiltinCommands
      (all_priorities BuiltinCommands) 2 fresh tree_bold_z = 2%nat.
Proof.
  destruct (unconverged (api := examples) config_two_iterations BuiltinCommands
              (all_priorities BuiltinCommands)
              (Z.to_nat (command_nesting_limit config_two_iterations)) fresh tree_bold_z)
    as [st|] eqn:H.
  - destruct (convert_latex_nesting_limit (api := examples) config_two_iterations
                BuiltinCommands doc_bold_z tree_bold_z BuiltinCommands tree_bold_z st
                eq_refl eq_refl H) as (Hraise & Hcount & _).
    split; assumption.
  - exfalso.
    assert (Hsome : is_Some
      (unconverged (api := examples) config_two_iterations BuiltinCommands
         (all_priorities BuiltinCommands)
         (Z.to_nat (command_nesting_limit config_two_iterations)) fresh tree_bold_z)).
    { apply (bool_decide_eq_true_1 _). vm_compute. reflexivity. }
    rewrite H in Hsome. destruct Hsome as [x Hx]. discriminate Hx.
Defined.

(** Under a character limit of 6, the expansion of [\textbf{x}] in
    [\textbf{x}\z] leaves a tree of 7 characters, and the rewrite stops
    on it. *)
Definition config_six_characters : Config := mkConfig 6 10 10 97 [].

Lemma expansion_over_character_limit_bold_z :
  rewrite_loop (api := examples) config_six_characters BuiltinCommands
    [0; -1; -333] 10 fresh tree_bold_z
  = Raise (ValueError (FileSizeLimitExceeded 6 7)).
Proof.
  destruct (holds_elim
              (invoke (api := examples) config_six_characters
                 (TextCommand_of_str (py "**#1**") 1 None true) fresh tree_bold_z
                 (cmd 1 "textbf") [py "x"])
              (λ r, soup_len (api := examples) r.2 =? 7))
    as ([context' soup'] & Hinvoke & Hlen).
  { vm_compute. reflexivity. }
  cbn [snd] in Hlen. apply Z.eqb_eq in Hlen.
  pose proof (expansion_checks_character_limit (api := examples) config_six_characters
                BuiltinCommands 0 [] [] (cmd 1 "textbf") [-1; -333] 9
                fresh tree_bold_z fresh tree_bold_z priority_cap
                (TextCommand_of_str (py "**#1**") 1 None true) [py "x"]
                context' soup' eq_refl eq_refl eq_refl eq_refl eq_refl Hinvoke) as H.
  cbn zeta in H. rewrite Hlen in H.
  apply (proj1 (proj2 H)). reflexivity.
Defined.

(** [hello] has no command at all: the context after the rewriting has
    no sheet id, and the conversion is refused. *)
Lemma build_latex_hello_missing_sheet_id :
  build_latex (api := examples) config plain_object doc_hello
  = Raise (ValueError (Localized "no_sheet_id")).
Proof.
  destruct (holds_elim
              (convert_latex (api := examples) config BuiltinCommands (preprocess doc_hello))
              (λ r, is_none (r.2 !! "sheet_id")))
    as ([soup context] & Hconv & Hid).
  { vm_compute. reflexivity. }
  cbn [snd] in Hid.
  apply (proj1 (build_latex_missing_global_attribute (api := examples) config
                  plain_object doc_hello soup context Hconv)).
  destruct (context !! "sheet_id"); [discriminate Hid|reflexivity].
Defined.

(** C3, as the specification has it, fails on the code: [hello] contains
    no recognized command and no macro definition, and [build_latex]
    raises instead of returning a document. *)
Lemma command_free_document_is_refused :
  TexSoup (TexSoupAPI := examples) (preprocess doc_hello) = Ok tree_hello
  ∧ descendants (length tree_hello) tree_hello root_handle = []
  ∧ build_latex (api := examples) config plain_object doc_hello
    = Raise (ValueError (Localized "no_sheet_id"))
  ∧ ¬ ∃ doc, build_latex (api := examples) config plain_object doc_hello = Ok doc.
Proof.
  assert (H : build_latex (api := examples) config plain_object doc_hello
              = Raise (ValueError (Localized "no_sheet_id")))
    by (vm_compute; reflexivity).
  split; [vm_compute; reflexivity|].
  split; [vm_compute; reflexivity|].
  split; [exact H|].
  intros [doc Hdoc]. rewrite H in Hdoc. discriminate.
Qed.

Lemma command_free_document_hello :
  convert_latex (api := examples) config BuiltinCommands (preprocess doc_hello) = Ok (tree_hello, fresh)
  ∧ build_latex (api := examples) config plain_object doc_hello
    = Raise (ValueError (Localized "no_sheet_id"))
  ∧ fold_document (api := examples) config plain_object tree_hello
    = Ok [<["text" := VStr (py "hello")]> (kwargs text_node)].
Proof.
  assert (Hpre : preprocess doc_hello = py "hello") by (vm_compute; reflexivity).
  destruct (command_free_document_lacks_sheet_id (api := examples) config plain_object
              doc_hello tree_hello)
    as (Hconv & Hbuild & Hfold).
  - reflexivity.
  - rewrite Hpre. reflexivity.
  - reflexivity.
  - reflexivity.
  - intros priority. reflexivity.
  - split; [exact Hconv|]. split; [exact Hbuild|].
    apply (Hfold [py "hello"]); rewrite ?Hpre.
    + reflexivity.
    + reflexivity.
    + discriminate.
    + reflexivity.
    + discriminate.
    + reflexivity.
Defined.

(** [\sheetid{ }\sheetname{Sheet}]: the blank sheet id is stored as the
    empty string and the conversion is refused as if it were missing. *)
Lemma blank_sheet_id_is_refused :
  apply (api := examples) config (mkCommand 0 (GlobalConfig "sheet_id" true)) fresh tree_blank_id
    (cmd 1 "sheetid") [py " "]
  = Ok (<["sheet_id" := CStr []]> fresh, tree_blank_id, Single (RStr []))
  ∧ build_latex (api := examples) config plain_object doc_blank_id
    = Raise (ValueError (Localized "no_sheet_id")).
Proof.
  destruct (blank_global_attribute_is_missing (api := examples) config plain_object
              (py " ") [] "sheet_id" fresh tree_blank_id (cmd 1 "sheetid") eq_refl)
    as [Happly Hbuild].
  split; [exact Happly|].
  destruct (holds_elim
              (convert_latex (api := examples) config BuiltinCommands (preprocess doc_blank_id))
              (λ r, match r.2 !! "sheet_id" with
                    | Some (CStr []) => true
                    | _ => false
                    end))
    as ([soup' context'] & Hconv & Hid).
  { vm_compute. reflexivity. }
  cbn [snd] in Hid.
  apply (proj1 (Hbuild doc_blank_id soup' context' Hconv)).
  destruct (context' !! "sheet_id") as [[[|? ?]| |]|]; try discriminate Hid.
  reflexivity.
Defined.

(** [\newcommand{\foo}{bar}]: the conversion raises, and the assignment
    of [convert_latex] would not have used the name [foo]. *)
Lemma newcommand_foo_aborts_conversion :
  convert_latex (api := examples) config BuiltinCommands doc_newcommand = Raise TypeError
  ∧ ∀ c, dict_get (py "foo")
           (register_command (api := examples) BuiltinCommands (cmd 1 "newcommand") c) = None
         ∧ dict_get (py "newcommand")
             (register_command (api := examples) BuiltinCommands (cmd 1 "newcommand") c) = Some c.
Proof.
  destruct (macro_definition_aborts_conversion (api := examples) config BuiltinCommands
              doc_newcommand tree_newcommand (cmd 1 "newcommand") []
              (brace [INode (cmd 2 "foo")]) (brace [IStr (py "bar")])
              eq_refl eq_refl eq_refl eq_refl)
    as (Hraise & _ & Hkey).
  split; [exact Hraise|].
  intros c. split; [reflexivity|]. exact (Hkey c).
Defined.

(** * Further properties of the converter *)

(** ** Templates of text commands *)

Lemma hash_sub_without_hash (s : pystr) :
  hash ∉ s → ∀ at_start, hash_sub at_start s = s.
Proof.
  induction s as [|c t IH]; intros Hs at_start; [reflexivity|].
  apply not_elem_of_cons in Hs as [Hc Ht].
  assert (Ec : (c =? hash) = false) by (apply Z.eqb_neq; congruence).
  cbn [hash_sub]. destruct t as [|d t']; [reflexivity|].
  rewrite Ec, andb_false_r. cbn [andb].
  pose proof Ht as Ht'. apply not_elem_of_cons in Ht' as [Hd _].
  assert (Ed : (d =? hash) = false) by (apply Z.eqb_neq; congruence).
  destruct t' as [|e t''].
  - rewrite (IH Ht). reflexivity.
  - rewrite Ed, andb_false_r. cbn [andb]. rewrite (IH Ht). reflexivity.
Qed.

Lemma format_go_literal (s : pystr) (num : Numbering) (args : list pystr) :
  lbrace ∉ s → rbrace ∉ s → format_go s None num args = Ok s.
Proof.
  induction s as [|c t IH]; intros Hl Hr; [reflexivity|].
  apply not_elem_of_cons in Hl as [Hcl Hl]. apply not_elem_of_cons in Hr as [Hcr Hr].
  cbn [format_go].
  assert (El : (c =? lbrace) = false) by (apply Z.eqb_neq; congruence).
  assert (Er : (c =? rbrace) = false) by (apply Z.eqb_neq; congruence).
  rewrite El, Er, (IH Hl Hr). reflexivity.
Qed.

Section TemplateProperties.
Context `{api : TexSoupAPI} (cfg : Config).

(** X1.  A text command without arguments whose content has no [#], no
    [{] and no [}] expands to its content, the context and the tree
    untouched; with any argument it raises the argument-count error. *)
Theorem plain_TextCommand_expands_to_content
    (content : pystr) (trim_contents : bool)
    (context : Context) (soup : Soup) (node : Node) (a : pystr) (more : list pystr) :
  hash ∉ content → lbrace ∉ content → rbrace ∉ content →
  apply cfg (TextCommand_of_str content 0 None trim_contents) context soup node []
    = Ok (context, soup, Single (RStr content))
  ∧ apply cfg (TextCommand_of_str content 0 None trim_contents) context soup node
      (a :: more)
    = Raise (ValueError (InvalidArgumentCount (node_name node) 0 (len (a :: more)))).
Proof.
  intros Hh Hl Hr. unfold apply, TextCommand_of_str. cbn [class].
  rewrite (hash_sub_without_hash _ Hh). unfold TextCommand_apply. split.
  - change (len (@nil pystr)) with 0. cbn [Z.gtb Z.ltb Z.eqb Z.compare Z.sub Z.add Z.opp
      Z.pos_sub orb andb mbind Exc_bind].
    assert (E : format content (if trim_contents then strip <$> [] else []) = Ok content).
    { unfold format. destruct trim_contents; apply format_go_literal; assumption. }
    rewrite E. reflexivity.
  - assert (E : (len (a :: more) >? 0) = true).
    { rewrite Z.gtb_ltb. apply Z.ltb_lt. unfold len. cbn [length]. lia. }
    rewrite E. reflexivity.
Qed.

(** X2.  Two placeholders written next to each other: the regular
    expression takes the character before a [#] into the match, so after
    a replaced [#d] the [#] that follows at once is left as written,
    at the start of the content and after any character but a
    backslash. *)
Theorem hash_sub_adjacent_placeholders (c d e : Z) (rest : pystr) :
  is_digit d = true → is_digit e = true → c ≠ backslash →
  hash_sub true (hash :: d :: hash :: e :: rest)
    = placeholder d ++ hash :: hash_sub false (e :: rest)
  ∧ hash_sub false (c :: hash :: d :: hash :: e :: rest)
    = c :: placeholder d ++ hash :: hash_sub false (e :: rest).
Proof.
  intros Hd He Hc.
  assert (Ee : (e =? hash) = false).
  { unfold is_digit in He. unfold hash. lia. }
  assert (Ec : (c =? backslash) = false) by (apply Z.eqb_neq; exact Hc).
  assert (Hhash : hash_sub false (hash :: e :: rest) = hash :: hash_sub false (e :: rest)).
  { cbn [hash_sub andb]. destruct rest as [|x rest']; [reflexivity|].
    rewrite Ee, andb_false_r. reflexivity. }
  assert (Hstart : ∀ tl, hash_sub true (hash :: d :: tl)
                         = placeholder d ++ hash_sub false tl).
  { intros tl. cbn [hash_sub]. rewrite Hd. reflexivity. }
  assert (Hmid : ∀ tl, hash_sub false (c :: hash :: d :: tl)
                       = c :: placeholder d ++ hash_sub false tl).
  { intros tl. cbn [hash_sub andb]. rewrite Ec, Hd. reflexivity. }
  split.
  - rewrite Hstart, Hhash. reflexivity.
  - rewrite Hmid, Hhash. reflexivity.
Qed.

(** X3.  A content that starts with [#0] gets the placeholder [{-1}],
    which [str.format] takes for a keyword: the command raises
    [KeyError] on every call that passes the argument count. *)
Theorem TextCommand_hash_zero_raises
    (rest : pystr) (num_args : Z) (context : Context) (soup : Soup) (node : Node)
    (args : list pystr) :
  len args = num_args →
  apply cfg (TextCommand_of_str (hash :: 48 :: rest) num_args None false)
    context soup node args
  = Raise (KeyError (py "-1")).
Proof.
  intros Hlen. unfold apply, TextCommand_of_str. cbn [class].
  unfold TextCommand_apply. rewrite Hlen.
  rewrite Z.gtb_ltb, Z.ltb_irrefl.
  assert (E1 : (num_args <? num_args - 1) = false) by lia.
  assert (E2 : (num_args =? num_args - 1) = false) by lia.
  rewrite E1, E2, Z.eqb_refl. cbn [orb andb mbind Exc_bind].
  reflexivity.
Qed.

End TemplateProperties.

Lemma plain_TextCommand_ldots :
  apply (api := Arena.examples) Arena.config
    (TextCommand_of_str (py "...") 0 None false)
    (fresh_context BuiltinCommands) Arena.tree_z (Arena.cmd 1 "ldots") []
  = Ok (fresh_context BuiltinCommands, Arena.tree_z, Single (RStr (py "..."))).
Proof.
  refine (proj1 (plain_TextCommand_expands_to_content (api := Arena.examples)
                   Arena.config (py "...") false (fresh_context BuiltinCommands)
                   Arena.tree_z (Arena.cmd 1 "ldots") [] [] _ _ _));
    vm_compute; intros H; repeat (apply elem_of_cons in H as [H|H]; [discriminate H|]);
    apply elem_of_nil in H; exact H.
Defined.

Lemma hash_sub_adjacent_example :
  hash_sub true (py "#1#2") = py "{0}#2"
  ∧ hash_sub false (py "a#1#2") = py "a{0}#2".
Proof.
  exact (hash_sub_adjacent_placeholders 97 49 50 [] eq_refl eq_refl ltac:(discriminate)).
Defined.

Lemma TextCommand_hash_zero_example :
  apply (api := Arena.examples) Arena.config
    (TextCommand_of_str (py "#0") 1 None false)
    (fresh_context BuiltinCommands) Arena.tree_z (Arena.cmd 1 "z") [py "x"]
  = Raise (KeyError (py "-1")).
Proof.
  exact (TextCommand_hash_zero_raises (api := Arena.examples) Arena.config [] 1
           (fresh_context BuiltinCommands) Arena.tree_z (Arena.cmd 1 "z") [py "x"]
           eq_refl).
Defined.

(** ** The text preprocessor *)

Lemma existsb_newline_false (s : pystr) : nl ∉ s → existsb (Z.eqb nl) s = false.
Proof.
  induction s as [|c t IH]; intros H; [reflexivity|].
  apply not_elem_of_cons in H as [Hc Ht]. cbn [existsb].
  rewrite (IH Ht), orb_false_r. apply Z.eqb_neq. exact Hc.
Qed.

Lemma existsb_newline_true (s t : pystr) : existsb (Z.eqb nl) (s ++ nl :: t) = true.
Proof.
  induction s as [|c s IH]; cbn [app existsb].
  - reflexivity.
  - rewrite IH. apply orb_true_r.
Qed.

(** X4.  A text without a newline goes through the comment stripper
    unchanged: a comment is only recognized up to a newline, so a comment
    on a last line that is not terminated stays in the text. *)
Theorem comment_sub_needs_newline (s : pystr) (line_start : bool) :
  nl ∉ s → comment_sub line_start false s = s.
Proof.
  revert line_start. induction s as [|c t IH]; intros line_start H; [reflexivity|].
  apply not_elem_of_cons in H as [Hc Ht].
  cbn [comment_sub]. rewrite (existsb_newline_false _ Ht), andb_false_r.
  destruct t as [|d t']; [reflexivity|].
  pose proof Ht as Ht'. apply not_elem_of_cons in Ht' as [_ Ht'].
  rewrite (existsb_newline_false _ Ht'), andb_false_r.
  rewrite (IH _ Ht). reflexivity.
Qed.

Lemma comment_sub_skips_to_newline (body rest : pystr) (line_start : bool) :
  nl ∉ body →
  comment_sub line_start true (body ++ nl :: rest) = comment_sub true false rest.
Proof.
  revert line_start. induction body as [|c body IH]; intros line_start H.
  - reflexivity.
  - apply not_elem_of_cons in H as [Hc Hb]. cbn [app comment_sub].
    assert (E : (c =? nl) = false) by (apply Z.eqb_neq; congruence).
    rewrite E. cbn [negb]. apply IH, Hb.
Qed.

(** X5.  What the comment stripper deletes: a [%] at the start of a line
    goes with the rest of the line and its newline; a [%] after a
    character other than a backslash and a percent sign goes the same
    way, the character staying, so that the next line is joined to it;
    and a [%] after a backslash stays, when no second [%] follows. *)
Theorem comment_sub_deletes_comment_and_newline
    (c d : Z) (body rest : pystr) (line_start : bool) :
  nl ∉ body → c ≠ backslash → c ≠ percent → d ≠ percent →
  comment_sub true false (percent :: body ++ nl :: rest) = comment_sub true false rest
  ∧ comment_sub line_start false (c :: percent :: body ++ nl :: rest)
    = c :: comment_sub true false rest
  ∧ comment_sub line_start false (backslash :: percent :: d :: rest)
    = backslash :: percent :: comment_sub false false (d :: rest).
Proof.
  intros Hbody Hc Hp Hd.
  assert (Ec : (c =? backslash) = false) by (apply Z.eqb_neq; exact Hc).
  assert (Ep : (c =? percent) = false) by (apply Z.eqb_neq; exact Hp).
  assert (Ed : (d =? percent) = false) by (apply Z.eqb_neq; exact Hd).
  split; [|split].
  - cbn [comment_sub]. change (percent =? percent) with true.
    rewrite existsb_newline_true. cbn [andb].
    apply comment_sub_skips_to_newline, Hbody.
  - cbn [comment_sub]. rewrite Ep, andb_false_r. cbn [andb].
    rewrite Ec. change (percent =? percent) with true.
    rewrite existsb_newline_true. cbn [negb andb].
    rewrite comment_sub_skips_to_newline by exact Hbody. reflexivity.
  - cbn [comment_sub]. change (backslash =? percent) with false.
    change (backslash =? backslash) with true.
    change (backslash =? nl) with false. change (percent =? nl) with false.
    change (percent =? backslash) with false.
    rewrite andb_false_r. cbn [negb andb]. rewrite Ed. cbn [andb].
    reflexivity.
Qed.

Lemma sublist_same_length {A} (l1 l2 : list A) :
  l1 `sublist_of` l2 → length l1 = length l2 → l1 = l2.
Proof.
  induction 1 as [|x l1 l2 Hsub IH|x l1 l2 Hsub IH]; cbn [length]; intros Hlen.
  - reflexivity.
  - f_equal. apply IH. lia.
  - apply sublist_length in Hsub. lia.
Qed.

Lemma comment_sub_sublist_bounded (n : nat) :
  ∀ s, (length s ≤ n)%nat →
    ∀ line_start in_comment, comment_sub line_start in_comment s `sublist_of` s.
Proof.
  induction n as [|n IH]; intros s Hn line_start in_comment.
  - destruct s; [constructor|cbn in Hn; lia].
  - destruct s as [|c t]; [constructor|]. cbn [length] in Hn.
    cbn [comment_sub]. destruct in_comment.
    + apply sublist_cons, IH. lia.
    + destruct (line_start && (c =? percent) && existsb (Z.eqb nl) t).
      * apply sublist_cons, IH. lia.
      * destruct t as [|d t']; [reflexivity|]. cbn [length] in Hn.
        destruct (negb (c =? backslash) && (d =? percent) && existsb (Z.eqb nl) t').
        -- apply sublist_skip, sublist_cons, IH. lia.
        -- apply sublist_skip, IH. cbn [length]. lia.
Qed.

(** X6.  Comment stripping only deletes characters: its result is the
    text with some characters left out, in the same order, and a text
    that comes out as long as it went in came out unchanged. *)
Theorem comment_sub_sublist (s : pystr) :
  ∀ line_start in_comment,
    comment_sub line_start in_comment s `sublist_of` s
    ∧ (length (comment_sub line_start in_comment s) = length s →
       comment_sub line_start in_comment s = s).
Proof.
  intros line_start in_comment.
  pose proof (comment_sub_sublist_bounded (length s) s (le_n _) line_start in_comment)
    as Hsub.
  split; [exact Hsub|].
  intros Hlen. exact (sublist_same_length _ _ Hsub Hlen).
Qed.

Lemma replace_char_removes (c : Z) (new s : pystr) :
  c ∉ new → c ∉ replace [c] new s.
Proof.
  intros Hnew. unfold replace.
  induction s as [|x t IH]; cbn [replace_go]; [apply not_elem_of_nil|].
  cbn [is_prefix length Nat.sub]. rewrite andb_true_r.
  destruct (Z.eqb_spec c x) as [->|Hne].
  - rewrite elem_of_app. intros [H|H]; [exact (Hnew H)|exact (IH H)].
  - rewrite elem_of_cons. intros [H|H]; [congruence|exact (IH H)].
Qed.

(** X7.  The preprocessed text never holds a tilde: the last replacement
    turns every one into a space, and comment stripping adds nothing. *)
Theorem preprocess_has_no_tilde (latext : pystr) : 126 ∉ preprocess latext.
Proof.
  unfold preprocess. intros H.
  pose proof (elem_of_sublist _ _ _ H
                (comment_sub_sublist_bounded _ _ (le_n _) true false)) as H'.
  revert H'. unfold Replacements. cbn [foldl fst snd].
  change (py "~") with [126]. apply replace_char_removes.
  vm_compute. intros Hin. apply list_elem_of_singleton in Hin. discriminate Hin.
Qed.

Lemma comment_sub_unterminated_example :
  comment_sub true false (py "a % note") = py "a % note".
Proof.
  apply (comment_sub_needs_newline (py "a % note") true).
  apply (bool_decide_eq_false_1 _). vm_compute. reflexivity.
Defined.

Lemma comment_sub_deletes_example :
  comment_sub true false (py "% note" ++ nl :: py "b") = comment_sub true false (py "b")
  ∧ comment_sub false false (py "a% note" ++ nl :: py "b")
    = 97 :: comment_sub true false (py "b")
  ∧ comment_sub false false (py "\%x" ++ py "b")
    = backslash :: percent :: comment_sub false false (120 :: py "b").
Proof.
  apply (comment_sub_deletes_comment_and_newline 97 120 (py " note") (py "b") false).
  - apply (bool_decide_eq_false_1 _). vm_compute. reflexivity.
  - discriminate.
  - discriminate.
  - discriminate.
Defined.

(** ** The metadata folder *)

Section FolderProperties.
Context `{api : TexSoupAPI} (cfg : Config).
Context {LatexObject : Type} (parse_obj : gmap string PyVal → Exc LatexObject).

(** A paragraph holds no double newline and does not end in a newline:
    joined to others by double newlines, it is found again by a split at
    the first double newline. *)
Definition paragraph (p : pystr) : Prop :=
  p ≠ [] ∧ contains double_newline (p ++ [nl]) = false.

Lemma contains_double_newline_prefix (p : pystr) :
  contains double_newline (p ++ [nl]) = false → contains double_newline p = false.
Proof.
  unfold contains. induction p as [|c p IH]; intros H; [reflexivity|].
  cbn [app find] in H. cbn [find].
  destruct (is_prefix double_newline (c :: p ++ [nl])) eqn:E; [discriminate|].
  assert (E' : is_prefix double_newline (c :: p) = false).
  { unfold double_newline in *. cbn [is_prefix] in *.
    destruct p as [|d p']; [apply andb_false_r|]. exact E. }
  rewrite E'.
  destruct (find double_newline (p ++ [nl])) eqn:F; [discriminate|].
  specialize (IH eq_refl).
  destruct (find double_newline p); [discriminate IH|reflexivity].
Qed.

Lemma collect_flush_first_paragraph (kw : gmap string PyVal) (before after : pystr) :
  kw !! "text" = Some (VStr (before ++ double_newline ++ after)) →
  contains double_newline (before ++ [nl]) = false →
  collect (mkMetadataNode true kw) None
  = Ok (mkMetadataNode true (<["text" := VStr before]> kw),
        Some (<["text" := VStr before]> kw), after).
Proof.
  intros Htext Hfirst. unfold collect. cbn [collect_text kwargs andb].
  rewrite Htext. rewrite bool_decide_eq_false_2 by discriminate. rewrite Htext.
  assert (Htruthy : truthy (before ++ double_newline ++ after) = true)
    by (destruct before; reflexivity).
  rewrite Htruthy. unfold contains at 1.
  rewrite (find_first_double_newline _ _ Hfirst).
  rewrite (split1_first_double_newline _ _ Hfirst). reflexivity.
Qed.

Lemma collect_feed_text_node (s : pystr) :
  collect text_node (Some s)
  = Ok (mkMetadataNode true (<["text" := VStr s]> (kwargs text_node)), None, []).
Proof. vm_compute. reflexivity. Qed.

Lemma collect_flush_no_text (m : MetadataNode) :
  collect_text m = true →
  kwargs m !! "text" = None ∨ kwargs m !! "text" = Some (VStr []) →
  ∃ m', collect m None = Ok (m', None, []).
Proof.
  intros Hc Ht. unfold collect. rewrite Hc. cbn [andb].
  destruct Ht as [Ht|Ht]; rewrite Ht.
  - rewrite bool_decide_eq_true_2 by reflexivity. rewrite lookup_insert_eq.
    cbn [truthy]. eexists. reflexivity.
  - rewrite bool_decide_eq_false_2 by discriminate. rewrite Ht.
    cbn [truthy]. eexists. reflexivity.
Qed.

Lemma collect_excess_no_text (budget : nat) (objs : list LatexObject) (m : MetadataNode) :
  collect_text m = true →
  kwargs m !! "text" = None ∨ kwargs m !! "text" = Some (VStr []) →
  collect_excess parse_obj (S budget) objs m = Ok objs.
Proof.
  intros Hc Ht. destruct (collect_flush_no_text m Hc Ht) as [m' E].
  cbn [collect_excess]. rewrite E. reflexivity.
Qed.

Lemma join_cons_cons (sep p q : pystr) (ps : list pystr) :
  join sep (p :: q :: ps) = p ++ sep ++ join sep (q :: ps).
Proof. reflexivity. Qed.

Lemma join_paragraph_truthy (q : pystr) (ps : list pystr) :
  q ≠ [] → truthy (join double_newline (q :: ps)) = true.
Proof.
  intros H. destruct q as [|c q]; [contradiction|].
  destruct ps; reflexivity.
Qed.

(** A collecting node whose buffer is [k] paragraphs joined by double
    newlines is flushed by [collect_excess] into [k] objects, in order:
    the first is parsed from the attribute bag of the node with the first
    paragraph as text, the others from fresh text-class bags.  This takes
    [k + 1] flushes. *)
Lemma collect_excess_paragraphs
    (g : gmap string PyVal → LatexObject) (ps : list pystr) :
  (∀ kw, parse_obj kw = Ok (g kw)) →
  Forall paragraph ps →
  ∀ (p : pystr) (kw : gmap string PyVal) (objs : list LatexObject) (budget : nat),
    paragraph p →
    kw !! "text" = Some (VStr (join double_newline (p :: ps))) →
    collect_excess parse_obj budget objs (mkMetadataNode true kw)
    = if (length (p :: ps) <? budget)%nat
      then Ok (objs ++ g (<["text" := VStr p]> kw)
                 :: ((λ q, g (<["text" := VStr q]> (kwargs text_node))) <$> ps))
      else Raise (ValueError ExcessStackingLimit).
Proof.
  intros Hparse Hps. induction Hps as [|q ps Hq Hps IH];
    intros p kw objs budget [Hne Hp] Hkw.
  - destruct budget as [|budget]; [reflexivity|].
    cbn [collect_excess join] in *.
    rewrite (collect_flush_single_paragraph kw p Hkw Hne
               (contains_double_newline_prefix _ Hp)).
    cbn [mbind Exc_bind]. unfold dict_truthy.
    assert (Hkw' : kw ≠ ∅) by (intros ->; rewrite lookup_empty in Hkw; discriminate).
    rewrite bool_decide_eq_false_2 by exact Hkw'. cbn [negb].
    rewrite Hparse. cbn [mbind Exc_bind truthy].
    rewrite (insert_id kw "text" (VStr p) Hkw).
    destruct budget as [|budget]; [reflexivity|].
    rewrite collect_excess_no_text; [reflexivity|reflexivity|left; reflexivity].
  - destruct budget as [|budget]; [reflexivity|].
    rewrite join_cons_cons in Hkw.
    cbn [collect_excess].
    rewrite (collect_flush_first_paragraph kw p _ Hkw Hp).
    cbn [mbind Exc_bind]. unfold dict_truthy.
    rewrite bool_decide_eq_false_2 by apply insert_non_empty. cbn [negb].
    rewrite Hparse. cbn [mbind Exc_bind].
    rewrite (join_paragraph_truthy q ps (proj1 Hq)).
    rewrite collect_feed_text_node. cbn [mbind Exc_bind].
    rewrite (IH q _ _ budget Hq (lookup_insert_eq _ _ _)).
    rewrite insert_insert_eq.
    cbn [length fmap list_fmap].
    change (S (S (length ps)) <? S budget)%nat with (S (length ps) <? budget)%nat.
    destruct (S (length ps) <? budget)%nat; [|reflexivity].
    rewrite <- app_assoc. reflexivity.
Qed.

Lemma collect_str_first (objs : list LatexObject) (m : MetadataNode) (s : pystr) :
  collect_text m = true →
  kwargs m !! "text" = None →
  collect_str parse_obj objs m s
  = Ok (objs, mkMetadataNode true (<["text" := VStr s]> (kwargs m))).
Proof.
  intros Hc Ht. unfold collect_str, collect. rewrite Hc, Ht. cbn [andb].
  rewrite bool_decide_eq_true_2 by reflexivity.
  rewrite lookup_insert_eq. cbn [mbind Exc_bind app].
  rewrite insert_insert_eq. reflexivity.
Qed.

Lemma fold_nodes_text_after (soup : Soup) (objs : list LatexObject)
    (m : MetadataNode) (parts : list pystr) :
  collect_text m = true →
  kwargs m !! "text" = None →
  concat parts ≠ [] →
  fold_nodes cfg parse_obj soup (IStr <$> parts) objs m
  = Ok (objs, mkMetadataNode true (<["text" := VStr (concat parts)]> (kwargs m))).
Proof.
  intros Hc Ht Hne. destruct parts as [|s rest]; [contradiction|].
  cbn [fmap list_fmap fold_nodes].
  rewrite (collect_str_first _ _ _ Hc Ht). cbn [mbind Exc_bind].
  apply fold_nodes_text_leaves.
Qed.

Lemma paragraphs_ltb (ps : list pystr) :
  (length ps <? Z.to_nat (excess_stacking cfg))%nat = (len ps <? excess_stacking cfg).
Proof.
  unfold len.
  destruct (Nat.ltb_spec (length ps) (Z.to_nat (excess_stacking cfg)));
    destruct (Z.ltb_spec (Z.of_nat (length ps)) (excess_stacking cfg)); lia.
Qed.

Lemma join_paragraph_nonempty (p : pystr) (ps : list pystr) :
  p ≠ [] → join double_newline (p :: ps) ≠ [].
Proof.
  intros H E. pose proof (join_paragraph_truthy p ps H) as T.
  rewrite E in T. discriminate T.
Qed.

(** X8.  A tree of text leaves that spell [k] paragraphs, separated by
    double newlines, folds into [k] text-class objects, one per paragraph
    and in order, when [excess-stacking] is above [k]; when it is not,
    the folding raises the stacking-limit error. *)
Theorem fold_document_one_object_per_paragraph
    (g : gmap string PyVal → LatexObject) (soup : Soup)
    (parts : list pystr) (p : pystr) (ps : list pystr) :
  (∀ kw, parse_obj kw = Ok (g kw)) →
  node_contents soup (root soup) = IStr <$> parts →
  concat parts = join double_newline (p :: ps) →
  Forall paragraph (p :: ps) →
  fold_document cfg parse_obj soup
  = if len (p :: ps) <? excess_stacking cfg
    then Ok ((λ q, g (<["text" := VStr q]> (kwargs text_node))) <$> (p :: ps))
    else Raise (ValueError ExcessStackingLimit).
Proof.
  intros Hparse Hcontents Hconcat Hps.
  apply Forall_cons in Hps as [Hp Hps].
  unfold fold_document. rewrite Hcontents.
  rewrite fold_nodes_text_after;
    [|reflexivity|reflexivity|rewrite Hconcat; apply join_paragraph_nonempty, Hp].
  cbn [mbind Exc_bind]. rewrite Hconcat.
  rewrite (collect_excess_paragraphs g ps Hparse Hps p _ [] _ Hp
             (lookup_insert_eq _ _ _)).
  rewrite paragraphs_ltb, insert_insert_eq. reflexivity.
Qed.

Definition no_text (m : MetadataNode) : Prop :=
  collect_text m = true
  ∧ (kwargs m !! "text" = None ∨ kwargs m !! "text" = Some (VStr [])).

Lemma fold_nodes_markers (soup : Soup) (ms : list MetadataNode) (budget : nat) :
  Z.to_nat (excess_stacking cfg) = S budget →
  Forall no_text ms →
  ∀ objs current, no_text current →
    ∃ last, fold_nodes cfg parse_obj soup (IMeta <$> ms) objs current = Ok (objs, last)
            ∧ no_text last.
Proof.
  intros E Hms. induction Hms as [|m ms Hm Hms IH]; intros objs current Hcur.
  - exists current. split; [reflexivity|exact Hcur].
  - cbn [fmap list_fmap fold_nodes]. rewrite E.
    rewrite (collect_excess_no_text _ _ _ (proj1 Hcur) (proj2 Hcur)).
    cbn [mbind Exc_bind]. apply IH, Hm.
Qed.

Lemma fold_nodes_app (soup : Soup) (l1 l2 : list (Item Node)) :
  ∀ objs current,
    fold_nodes cfg parse_obj soup (l1 ++ l2) objs current
    = '(objs', current') ← fold_nodes cfg parse_obj soup l1 objs current;
      fold_nodes cfg parse_obj soup l2 objs' current'.
Proof.
  induction l1 as [|x l1 IH]; intros objs current.
  - reflexivity.
  - cbn [app fold_nodes].
    destruct (match x with IStr _ => _ | INode _ => _ | IMeta _ => _ end)
      as [[o c]| |]; cbn [mbind Exc_bind]; [apply IH|reflexivity..].
Qed.

(** X9.  The text that follows a marker (a problem number, the opening
    of an environment), up to the next marker or the end, belongs to the
    marker up to its first double newline: the first paragraph is the
    text of the marker's object, the later paragraphs are text-class
    objects of their own. *)
Theorem fold_document_marker_takes_first_paragraph
    (g : gmap string PyVal → LatexObject) (soup : Soup) (m : MetadataNode)
    (parts : list pystr) (p : pystr) (ps : list pystr)
    (closing : list MetadataNode) :
  (∀ kw, parse_obj kw = Ok (g kw)) →
  node_contents soup (root soup)
    = IMeta m :: (IStr <$> parts) ++ (IMeta <$> closing) →
  collect_text m = true →
  kwargs m !! "text" = None →
  concat parts = join double_newline (p :: ps) →
  Forall paragraph (p :: ps) →
  Forall no_text closing →
  fold_document cfg parse_obj soup
  = if len (p :: ps) <? excess_stacking cfg
    then Ok (g (<["text" := VStr p]> (kwargs m))
               :: ((λ q, g (<["text" := VStr q]> (kwargs text_node))) <$> ps))
    else Raise (ValueError ExcessStackingLimit).
Proof.
  intros Hparse Hcontents Hc Ht Hconcat Hps Hclosing.
  apply Forall_cons in Hps as [Hp Hps].
  unfold fold_document. rewrite Hcontents. cbn [fold_nodes].
  destruct (Z.to_nat (excess_stacking cfg)) as [|budget] eqn:E.
  { cbn [collect_excess mbind Exc_bind].
    destruct (Z.ltb_spec (len (p :: ps)) (excess_stacking cfg)) as [Hlt|_];
      [|reflexivity].
    unfold len in Hlt. cbn [length] in Hlt. lia. }
  rewrite collect_excess_no_text; [|reflexivity|left; reflexivity].
  cbn [mbind Exc_bind]. rewrite fold_nodes_app.
  rewrite fold_nodes_text_after;
    [|assumption|assumption|rewrite Hconcat; apply join_paragraph_nonempty, Hp].
  cbn [mbind Exc_bind]. rewrite Hconcat.
  pose proof (collect_excess_paragraphs g ps Hparse Hps p _ [] (S budget) Hp
                (lookup_insert_eq (kwargs m) "text"
                   (VStr (join double_newline (p :: ps))))) as Hflush.
  rewrite insert_insert_eq in Hflush. cbn [app] in Hflush.
  rewrite <- E, paragraphs_ltb in Hflush.
  destruct closing as [|c closing].
  - cbn [fmap list_fmap fold_nodes mbind Exc_bind]. rewrite <- E. exact Hflush.
  - apply Forall_cons in Hclosing as [Hcl Hclosing].
    cbn [fmap list_fmap fold_nodes]. rewrite <- E, Hflush.
    destruct (len (p :: ps) <? excess_stacking cfg); [|reflexivity].
    cbn [mbind Exc_bind].
    destruct (fold_nodes_markers soup closing budget E Hclosing
                (g (<["text" := VStr p]> (kwargs m))
                   :: ((λ q, g (<["text" := VStr q]> (kwargs text_node))) <$> ps))
                c Hcl) as (last & -> & Hlast).
    cbn [mbind Exc_bind]. rewrite E.
    apply collect_excess_no_text; [exact (proj1 Hlast)|exact (proj2 Hlast)].
Qed.

(** X10.  A marker that no text follows leaves no object: a tree that
    consists of markers only (problem numbers without a statement, say)
    folds into the empty list of objects. *)
Theorem fold_document_drops_markers_without_text
    (soup : Soup) (ms : list MetadataNode) :
  0 < excess_stacking cfg →
  node_contents soup (root soup) = IMeta <$> ms →
  Forall no_text ms →
  fold_document cfg parse_obj soup = Ok [].
Proof.
  intros Hbudget Hcontents Hms.
  destruct (Z.to_nat (excess_stacking cfg)) as [|budget] eqn:E; [lia|].
  unfold fold_document. rewrite Hcontents.
  destruct (fold_nodes_markers soup ms budget E Hms [] text_node) as (last & -> & Hlast).
  { split; [reflexivity|left; reflexivity]. }
  cbn [mbind Exc_bind]. rewrite E.
  apply collect_excess_no_text; [exact (proj1 Hlast)|exact (proj2 Hlast)].
Qed.


End FolderProperties.

(** ** The rewrite engine, further *)

Section EngineFurther.
Context `{api : TexSoupAPI} (cfg : Config).

Lemma priority_scan_sentinel_unchanged (context_commands : CommandTable)
    (priorities : list Z) :
  priority_cap ∉ priorities →
  ∀ context soup context' soup',
    priority_scan cfg context_commands priorities context soup priority_cap
      = Ok (context', soup', priority_cap) →
    context' = context ∧ soup' = soup.
Proof.
  induction priorities as [|p lower IH]; intros Hcap context soup context' soup' H.
  - cbn in H. injection H as <- <-. split; reflexivity.
  - apply not_elem_of_cons in Hcap as [Hp Hlower].
    cbn [priority_scan] in H.
    destruct (expand_all cfg context_commands p
                (find_all soup (command_keys context_commands p))
                context soup priority_cap) as [[[c s] l]| |] eqn:E;
      cbn [mbind Exc_bind] in H; try discriminate.
    destruct (expand_all_outcome cfg _ _ _ _ _ _ _ _ E) as [[_ ->]|(_ & -> & -> & ->)].
    + rewrite Z.eqb_refl in H. injection H as _ _ Hl. congruence.
    + destruct (Z.eqb_spec priority_cap p) as [Heq|_]; [congruence|].
      apply IH; assumption.
Qed.

(** X12.  What the rewrite returns is a fixed point: scanning the
    returned tree once more, from the top priority down, expands nothing
    and changes neither tree nor context, and a new rewrite of it returns
    at its first iteration.  (No command may have the sentinel priority
    10000.) *)
Theorem rewrite_loop_returns_fixed_point
    (context_commands : CommandTable) (priorities : list Z) (budget : nat)
    (context : Context) (soup : Soup) (context' : Context) (soup' : Soup) :
  priority_cap ∉ priorities →
  rewrite_loop cfg context_commands priorities budget context soup
    = Ok (context', soup') →
  priority_scan cfg context_commands priorities context' soup' priority_cap
    = Ok (context', soup', priority_cap)
  ∧ ∀ again, rewrite_loop cfg context_commands priorities (S again) context' soup'
             = Ok (context', soup').
Proof.
  intros Hcap H.
  destruct (rewrite_loop_converged cfg _ _ _ _ _ _ _ H) as (n & c1 & s1 & _ & _ & Hscan).
  destruct (priority_scan_sentinel_unchanged _ _ Hcap _ _ _ _ Hscan) as [-> ->].
  split; [exact Hscan|].
  intros again. cbn [rewrite_loop]. rewrite Hscan. reflexivity.
Qed.

(** X13.  With a [command-nesting-limit] of zero or less every document
    that parses and defines no macro is refused with the nesting-limit
    error, also one in which there is nothing to expand. *)
Theorem convert_latex_needs_an_iteration
    (context_commands : CommandTable) (latext : pystr) (soup : Soup) :
  command_nesting_limit cfg ≤ 0 →
  TexSoup latext = Ok soup →
  find_all soup [py "newcommand"] ++ find_all soup [py "renewcommand"] = [] →
  convert_latex cfg context_commands latext
  = Raise (ValueError (NestingLimitExceeded (command_nesting_limit cfg))).
Proof.
  intros Hlimit Hparse Hnone.
  rewrite (convert_latex_rewrite cfg context_commands latext soup context_commands soup
             Hparse).
  2:{ rewrite Hnone. reflexivity. }
  replace (Z.to_nat (command_nesting_limit cfg)) with 0%nat by lia.
  reflexivity.
Qed.

(** X14.  An invocation of a command registered as an [ErrorCommand]
    ([\it], [\bf]) stops the conversion as soon as the scan reaches it,
    with the invalid-command error that names the replacement; such a
    command is always taken as ready. *)
Theorem error_command_stops_conversion
    (context_commands : CommandTable) (priority : Z)
    (pre rest : list Node) (cmd : Node) (lower : list Z) (budget : nat)
    (context0 : Context) (soup0 : Soup)
    (context : Context) (soup : Soup) (last : Z)
    (callback : LatexCommand) (replace_name : pystr) (data : list pystr) :
  find_all soup0 (command_keys context_commands priority) = pre ++ cmd :: rest →
  expand_all cfg context_commands priority pre context0 soup0 priority_cap
    = Ok (context, soup, last) →
  dict_get (node_name cmd) context_commands = Some callback →
  class callback = ErrorCommand replace_name →
  arg_data soup cmd = Ok data →
  priority_scan cfg context_commands (priority :: lower) context0 soup0 priority_cap
    = Raise (ValueError (InvalidCommand (node_name cmd) replace_name))
  ∧ rewrite_loop cfg context_commands (priority :: lower) (S budget) context0 soup0
    = Raise (ValueError (InvalidCommand (node_name cmd) replace_name)).
Proof.
  intros Hfound Hpre Hget Hclass Hdata.
  assert (Hexpand :
    expand cfg context_commands priority context soup last cmd
    = Raise (ValueError (InvalidCommand (node_name cmd) replace_name))).
  { unfold expand. rewrite Hget. unfold recursion_ready. rewrite Hclass.
    cbn [negb]. rewrite Hdata. cbn [mbind Exc_bind].
    unfold invoke, apply. rewrite Hclass. reflexivity. }
  assert (Hscan :
    priority_scan cfg context_commands (priority :: lower) context0 soup0 priority_cap
    = Raise (ValueError (InvalidCommand (node_name cmd) replace_name))).
  { cbn [priority_scan]. rewrite Hfound, expand_all_app, Hpre.
    cbn [mbind Exc_bind expand_all]. rewrite Hexpand. reflexivity. }
  split; [exact Hscan|]. apply rewrite_loop_raise, Hscan.
Qed.

(** X15.  What [apply] leaves alone.  Text commands and environments
    change neither the context nor the tree; the item extractor only
    empties the contents of its node; [GlobalConfig] writes its own
    target and [ProblemMacro] the iterators, and neither touches the tree
    or any other entry of the context. *)
Theorem apply_effects
    (c : LatexCommand) (context context' : Context) (soup soup' : Soup)
    (node : Node) (args : list pystr) (r : ApplyResult) :
  apply cfg c context soup node args = Ok (context', soup', r) →
  match class c with
  | TextCommand _ _ _ _ | TextEnv _ _ _ _ _ => context' = context ∧ soup' = soup
  | ItemExtractor _ => context' = context ∧ soup' = set_contents soup node []
  | ErrorCommand _ => False
  | GlobalConfig target _ =>
      soup' = soup ∧ ∀ key, key ≠ target → context' !! key = context !! key
  | ProblemMacro _ _ _ _ _ =>
      soup' = soup ∧ ∀ key, key ≠ "iterators" → context' !! key = context !! key
  end.
Proof.
  intros H.
  destruct (class c) as [content n o t|fmt|content n metaname o t|repl|target sv
                         |fmt letter problem incl cfmt] eqn:Hclass.
  - unfold apply in H. rewrite Hclass in H.
    destruct (TextCommand_apply content n o t soup node args);
      cbn [mbind Exc_bind] in H; try discriminate.
    injection H as <- <- <-. split; reflexivity.
  - unfold apply in H. rewrite Hclass in H. unfold ItemExtractor_apply in H.
    destruct (extract_items soup (node_contents soup node) []) as [ans| |];
      cbn [mbind Exc_bind] in H; try discriminate.
    destruct (format_items fmt 0 ans) as [items| |];
      cbn [mbind Exc_bind] in H; try discriminate.
    injection H as <- <- <-. split; reflexivity.
  - unfold apply in H. rewrite Hclass in H.
    destruct (TextEnv_apply content metaname soup node args);
      cbn [mbind Exc_bind] in H; try discriminate.
    injection H as <- <- <-. split; reflexivity.
  - unfold apply in H. rewrite Hclass in H. discriminate.
  - split.
    + unfold apply in H. rewrite Hclass in H.
      destruct (GlobalConfig_apply target sv context args);
        cbn [mbind Exc_bind] in H; try discriminate.
      injection H as _ <- _. reflexivity.
    + intros key Hkey.
      destruct (decide (key = "iterators")) as [->|Hit].
      * unfold apply in H. rewrite Hclass in H. unfold GlobalConfig_apply in H.
        destruct args as [|a more]; [discriminate|].
        cbn [mbind Exc_bind] in H. injection H as <- _ _.
        apply lookup_insert_ne. congruence.
      * apply (apply_context_frame cfg c context context' soup soup' node args r key H Hit).
        intros s. rewrite Hclass. intros [= -> _]. contradiction.
  - split.
    + unfold apply in H. rewrite Hclass in H.
      destruct (ProblemMacro_apply cfg fmt letter problem incl cfmt context args)
        as [[c1 m]| |]; cbn [mbind Exc_bind] in H; try discriminate.
      injection H as _ <- _. reflexivity.
    + intros key Hkey.
      apply (apply_context_frame cfg c context context' soup soup' node args r key H Hkey).
      intros s. rewrite Hclass. discriminate.
Qed.

(** X16.  A document in which a macro definition is found is never
    converted, whatever the shape of the definition: [soup_to_command]
    raises on every node, so the loop over the definitions does not get
    past the first one. *)
Theorem convert_latex_refuses_definitions
    (context_commands : CommandTable) (latext : pystr) (soup : Soup)
    (definition : Node) (more : list Node) (result : Soup * Context) :
  TexSoup latext = Ok soup →
  find_all soup [py "newcommand"] ++ find_all soup [py "renewcommand"]
    = definition :: more →
  convert_latex cfg context_commands latext ≠ Ok result.
Proof.
  intros Hparse Hfound. unfold convert_latex. rewrite Hparse. cbn [mbind Exc_bind].
  rewrite Hfound. cbn [add_commands].
  pose proof (soup_to_command_never_returns soup definition) as Hnever.
  destruct (soup_to_command soup definition) as [c| |]; cbn [mbind Exc_bind].
  - exfalso. exact (Hnever c eq_refl).
  - discriminate.
  - discriminate.
Qed.

End EngineFurther.

(** ** Environments and item lists *)

Lemma format_first_argument (s : pystr) (more : list pystr) :
  format (py "{0}") (s :: more) = Ok s.
Proof. cbv -[app]. apply f_equal, app_nil_r. Qed.

Lemma percent_format_item (index : Z) (item : pystr) :
  percent_format (py "* %(item)s")
    (<[py "index" := FInt index]> (<[py "item" := FStr item]> ∅))
  = Ok (py "* " ++ item).
Proof.
  transitivity (Ok (A := pystr) (42 :: 32 :: item ++ [])).
  - vm_compute. reflexivity.
  - rewrite app_nil_r. reflexivity.
Qed.

Section ItemProperties.
Context `{api : TexSoupAPI} (cfg : Config).
Context {LatexObject : Type} (parse_obj : gmap string PyVal → Exc LatexObject).

(** X17.  An environment handler of the built-in table ([center],
    [tikzpicture], template [#1]) expands to three items: a marker of
    its class, the contents of the environment stringified and
    concatenated, verbatim, and a text marker.  It takes no argument:
    called with any, it raises the environment argument-count error,
    although it is declared with one. *)
Theorem TextEnv_apply_wraps_contents
    (metaname : pystr) (context : Context) (soup : Soup) (node : Node)
    (strs : list pystr) (a : pystr) (more : list pystr) :
  traverse (item_str soup) (node_contents soup node) = Ok strs →
  apply cfg (TextEnv_init (py "#1") 1 metaname None false) context soup node []
    = Ok (context, soup,
          Tuple [RMeta (MetadataNode_init metaname true ∅);
                 RStr (concat strs);
                 RMeta text_node])
  ∧ apply cfg (TextEnv_init (py "#1") 1 metaname None false) context soup node
      (a :: more)
    = Raise (ValueError (InvalidEnvArgumentCount (node_name node) (len (a :: more)))).
Proof.
  intros Hstrs. unfold apply, TextEnv_init. cbn [class].
  change (hash_sub true (py "#1")) with (py "{0}").
  unfold TextEnv_apply. split.
  - change (len (@nil pystr) =? 0) with true. cbn [negb].
    rewrite Hstrs. cbn [mbind Exc_bind].
    rewrite format_first_argument. reflexivity.
  - assert (E : (len (a :: more) =? 0) = false).
    { apply Z.eqb_neq. unfold len. cbn [length]. lia. }
    rewrite E. reflexivity.
Qed.

Definition is_item (soup : Soup) (n : Node) : Prop :=
  node_name n = py "item" ∧ node_truth soup n = true.

Lemma extract_items_of_items (soup : Soup) (items : list Node) :
  Forall (is_item soup) items →
  ∀ ans, extract_items soup (INode <$> items) ans
         = Ok (reverse ans ++ ((λ n, drop 6 (to_str soup n)) <$> items)).
Proof.
  intros H. induction H as [|n items [Hname Htruth] _ IH]; intros ans.
  - cbn. rewrite app_nil_r. reflexivity.
  - cbn [fmap list_fmap extract_items item_truth item_str mbind Exc_bind].
    rewrite Htruth. cbn [negb].
    rewrite Hname. unfold str_eqb. rewrite bool_decide_eq_true_2 by reflexivity.
    rewrite IH. rewrite reverse_cons, <- app_assoc. reflexivity.
Qed.

Lemma format_items_star (ans : list pystr) :
  ∀ index, format_items (py "* %(item)s") index ans
           = Ok ((λ item, py "* " ++ item) <$> ans).
Proof.
  induction ans as [|item rest IH]; intros index; [reflexivity|].
  cbn [format_items]. rewrite percent_format_item. cbn [mbind Exc_bind].
  rewrite IH. reflexivity.
Qed.

(** X18.  The item extractor of [itemize], on contents that are [\item]
    nodes: every item is its string without the first six characters,
    shown as [* item]; the lines are joined by newlines behind a double
    newline, in a text marker that a second, empty text marker follows,
    and the contents of the node are emptied. *)
Theorem ItemExtractor_lists_items
    (context : Context) (soup : Soup) (node : Node) (items : list Node)
    (args : list pystr) :
  node_contents soup node = INode <$> items →
  Forall (is_item soup) items →
  apply cfg (mkCommand 0 (ItemExtractor (py "* %(item)s"))) context soup node args
  = Ok (context, set_contents soup node [],
        Tuple [RMeta (MetadataNode_init (py "text") true
                        {[ "text" :=
                             VStr (double_newline
                                   ++ join [nl]
                                        ((λ n, py "* " ++ drop 6 (to_str soup n))
                                           <$> items)) ]});
               RMeta text_node]).
Proof.
  intros Hcontents Hitems. unfold apply. cbn [class].
  unfold ItemExtractor_apply. rewrite Hcontents.
  rewrite (extract_items_of_items soup items Hitems []). cbn [mbind Exc_bind].
  change (reverse (@nil pystr)) with (@nil pystr). cbn [app].
  rewrite format_items_star. cbn [mbind Exc_bind].
  rewrite <- (list_fmap_compose (λ n, drop 6 (to_str soup n)) (λ item, py "* " ++ item)).
  reflexivity.
Qed.

Lemma extract_items_skips_empty (soup : Soup) (skipped : list (Item Node)) :
  Forall (λ x, item_truth soup x = false) skipped →
  ∀ children ans,
    extract_items soup (skipped ++ children) ans = extract_items soup children ans.
Proof.
  intros H. induction H as [|x skipped Hx _ IH]; intros children ans; [reflexivity|].
  cbn [app extract_items]. rewrite Hx. cbn [negb]. apply IH.
Qed.

(** X19.  The contents of an item list have to start with an [\item]:
    empty children are passed over, and when the first child that is not
    empty is anything else, the extractor raises the error that shows
    this child, whatever follows. *)
Theorem ItemExtractor_requires_leading_item
    (fmt : pystr) (context : Context) (soup : Soup) (node : Node)
    (skipped : list (Item Node)) (child : Item Node) (more : list (Item Node))
    (s : pystr) (args : list pystr) :
  node_contents soup node = skipped ++ child :: more →
  Forall (λ x, item_truth soup x = false) skipped →
  item_truth soup child = true →
  (∀ n, child = INode n → node_name n ≠ py "item") →
  item_str soup child = Ok s →
  apply cfg (mkCommand 0 (ItemExtractor fmt)) context soup node args
  = Raise (ValueError (ItemExpected s)).
Proof.
  intros Hcontents Hskipped Htruth Hnot Hstr. unfold apply. cbn [class].
  unfold ItemExtractor_apply. rewrite Hcontents.
  rewrite (extract_items_skips_empty soup skipped Hskipped).
  cbn [extract_items]. rewrite Htruth. cbn [negb]. rewrite Hstr.
  cbn [mbind Exc_bind].
  destruct child as [t|n|m]; try reflexivity.
  unfold str_eqb. rewrite bool_decide_eq_false_2 by (apply Hnot; reflexivity).
  reflexivity.
Qed.

Lemma collect_excess_leading_blank
    (g : gmap string PyVal → LatexObject) (kw : gmap string PyVal) (body : pystr)
    (objs : list LatexObject) (budget : nat) :
  (∀ kw, parse_obj kw = Ok (g kw)) →
  paragraph body →
  kw !! "text" = Some (VStr (double_newline ++ body)) →
  collect_excess parse_obj budget objs (mkMetadataNode true kw)
  = if (2 <? budget)%nat
    then Ok (objs ++ [g (<["text" := VStr []]> kw);
                      g (<["text" := VStr body]> (kwargs text_node))])
    else Raise (ValueError ExcessStackingLimit).
Proof.
  intros Hparse Hbody Hkw.
  destruct budget as [|budget]; [reflexivity|].
  cbn [collect_excess].
  rewrite (collect_flush_first_paragraph kw [] body Hkw eq_refl).
  cbn [mbind Exc_bind]. unfold dict_truthy.
  rewrite bool_decide_eq_false_2 by apply insert_non_empty. cbn [negb].
  rewrite Hparse. cbn [mbind Exc_bind].
  assert (Htruthy : truthy body = true).
  { destruct body; [destruct Hbody as [Hne _]; contradiction|reflexivity]. }
  rewrite Htruthy, collect_feed_text_node. cbn [mbind Exc_bind].
  rewrite (collect_excess_paragraphs parse_obj g [] Hparse (Forall_nil_2 _) body _ _
             budget Hbody (lookup_insert_eq _ _ _)).
  rewrite insert_insert_eq. cbn [length fmap list_fmap].
  change (2 <? S budget)%nat with (1 <? budget)%nat.
  destruct (1 <? budget)%nat; [|reflexivity].
  rewrite <- app_assoc. reflexivity.
Qed.

(** X20.  The text marker of an item list starts with a double newline,
    so its flush splits off an empty first paragraph: folded, the pair of
    markers that the extractor returns gives an object with the empty
    text and then the text object that holds the list, and this takes an
    [excess-stacking] above 2. *)
Theorem fold_document_item_list_leaves_empty_object
    (g : gmap string PyVal → LatexObject) (soup : Soup) (m : MetadataNode)
    (body : pystr) (closing : list MetadataNode) :
  (∀ kw, parse_obj kw = Ok (g kw)) →
  node_contents soup (root soup) = IMeta m :: (IMeta <$> closing) →
  collect_text m = true →
  kwargs m !! "text" = Some (VStr (double_newline ++ body)) →
  paragraph body →
  Forall no_text closing →
  closing ≠ [] →
  fold_document cfg parse_obj soup
  = if 2 <? excess_stacking cfg
    then Ok [g (<["text" := VStr []]> (kwargs m));
             g (<["text" := VStr body]> (kwargs text_node))]
    else Raise (ValueError ExcessStackingLimit).
Proof.
  intros Hparse Hcontents Hc Hm Hbody Hclosing Hne.
  destruct m as [ct kw]. cbn [collect_text kwargs] in *. subst ct.
  destruct closing as [|c closing]; [contradiction|].
  apply Forall_cons in Hclosing as [Hcl Hclosing].
  unfold fold_document. rewrite Hcontents.
  cbn [fmap list_fmap fold_nodes].
  destruct (Z.to_nat (excess_stacking cfg)) as [|budget] eqn:E.
  { cbn [collect_excess mbind Exc_bind].
    destruct (Z.ltb_spec 2 (excess_stacking cfg)); [lia|reflexivity]. }
  rewrite collect_excess_no_text; [|reflexivity|left; reflexivity].
  cbn [mbind Exc_bind].
  rewrite (collect_excess_leading_blank g kw body [] (S budget) Hparse Hbody Hm).
  assert (Hb : (2 <? S budget)%nat = (2 <? excess_stacking cfg)).
  { destruct (Nat.ltb_spec 2 (S budget)); destruct (Z.ltb_spec 2 (excess_stacking cfg));
      lia. }
  rewrite Hb. destruct (2 <? excess_stacking cfg); [|reflexivity].
  cbn [app mbind Exc_bind].
  destruct (fold_nodes_markers cfg parse_obj soup closing budget E Hclosing
              [g (<["text" := VStr []]> kw);
               g (<["text" := VStr body]> (kwargs text_node))]
              c Hcl) as (last & -> & Hlast).
  cbn [mbind Exc_bind].
  apply collect_excess_no_text; [exact (proj1 Hlast)|exact (proj2 Hlast)].
Qed.

End ItemProperties.

(** * Properties of the web decorators *)

Module WebProperties.
Import Web.

Lemma split_on_not_nil (sep : Z) (s : pystr) : split_on sep s ≠ [].
Proof.
  destruct s as [|c t]; cbn [split_on]; [discriminate|].
  destruct (c =? sep); [discriminate|].
  destruct (split_on sep t); discriminate.
Qed.

Lemma split_on_single (sep : Z) (s a : pystr) :
  split_on sep s = [a] ↔ a = s ∧ (sep ∉ s).
Proof.
  revert a. induction s as [|c t IH]; intros a; cbn [split_on].
  - split.
    + intros [= <-]. split; [reflexivity|]. apply not_elem_of_nil.
    + intros [-> _]. reflexivity.
  - destruct (Z.eqb_spec c sep) as [->|Hne].
    + split.
      * intros [= _ Hnil]. destruct (split_on_not_nil _ _ Hnil).
      * intros [_ Hnot]. destruct Hnot. apply list_elem_of_here.
    + destruct (split_on sep t) as [|piece pieces] eqn:E.
      * destruct (split_on_not_nil _ _ E).
      * split.
        -- intros [= <- ->].
           destruct (proj1 (IH piece) eq_refl) as [-> Hnot].
           split; [reflexivity|].
           intros [Hc|Ht]%elem_of_cons; [congruence|exact (Hnot Ht)].
        -- intros [-> Hnot].
           assert (Ht : sep ∉ t) by (intros Ht; apply Hnot; right; exact Ht).
           destruct (proj2 (IH t) (conj eq_refl Ht)).
           injection (proj2 (IH t) (conj eq_refl Ht)) as -> ->. reflexivity.
Qed.

Lemma split_on_pair (sep : Z) (s a b : pystr) :
  split_on sep s = [a; b] ↔ s = a ++ sep :: b ∧ (sep ∉ a) ∧ (sep ∉ b).
Proof.
  revert a. induction s as [|c t IH]; intros a; cbn [split_on].
  - split; [discriminate|]. intros [Hs _]. destruct a; discriminate.
  - destruct (Z.eqb_spec c sep) as [->|Hne].
    + split.
      * intros [= <- Hb]. apply split_on_single in Hb as [-> Hnot].
        split; [reflexivity|]. split; [apply not_elem_of_nil|exact Hnot].
      * intros (Hs & Ha & Hb). destruct a as [|x a].
        -- injection Hs as ->.
           rewrite (proj2 (split_on_single sep b b) (conj eq_refl Hb)). reflexivity.
        -- injection Hs as <- _. destruct Ha. apply list_elem_of_here.
    + destruct (split_on sep t) as [|piece pieces] eqn:E.
      * destruct (split_on_not_nil _ _ E).
      * split.
        -- intros [= <- ->].
           destruct (proj1 (IH piece) eq_refl) as (-> & Ha & Hb).
           split; [reflexivity|]. split; [|exact Hb].
           intros [Hc|Ht]%elem_of_cons; [congruence|exact (Ha Ht)].
        -- intros (Hs & Ha & Hb). destruct a as [|x a].
           ++ injection Hs as -> _. congruence.
           ++ injection Hs as <- ->.
              assert (Ha' : sep ∉ a) by (intros Ht; apply Ha; right; exact Ht).
              pose proof (proj2 (IH a) (conj eq_refl (conj Ha' Hb))) as Hp.
              injection Hp as -> ->. reflexivity.
Qed.

Lemma str_eqb_true (a b : pystr) : str_eqb a b = true ↔ a = b.
Proof. unfold str_eqb. apply bool_decide_eq_true. Qed.

Section LoginProperties.
Context {Raw User : Type}.
Context (jwt_decode : pystr → option (gmap string pystr)).
Context (accounts : gmap pystr Raw).
Context (parse_user : Raw → Res User).
Context (login : User → bool).
Context (has_scope : User → pystr → bool).

Abbreviation guarded := (guarded jwt_decode accounts parse_user login has_scope).
Abbreviation get_user_by_token := (get_user_by_token jwt_decode accounts parse_user login).
Abbreviation find_user := (find_user accounts parse_user login).

Lemma find_user_some (username : pystr) (u : User) :
  find_user username = Fine (Some u)
  ↔ ∃ raw, accounts !! username = Some raw ∧ parse_user raw = Fine u ∧ login u = true.
Proof.
  unfold Web.find_user. destruct (accounts !! username) as [raw|].
  - destruct (parse_user raw) as [v|e] eqn:E.
    + destruct (login v) eqn:L; cbn [negb].
      * split.
        -- intros [= ->]. exists raw. rewrite E. auto.
        -- intros (raw' & [= <-] & Hp & _). congruence.
      * split; [discriminate|].
        intros (raw' & [= <-] & Hp & Hl). congruence.
    + split; [discriminate|]. intros (raw' & [= <-] & Hp & _). congruence.
  - split; [discriminate|]. intros (raw' & Hr & _). discriminate.
Qed.

Lemma get_user_by_token_some (token : pystr) (u : User) :
  get_user_by_token token = Fine (Some u)
  ↔ ∃ payload name,
      jwt_decode token = Some payload
      ∧ payload !! "sub" = Some (py "user" ++ 58 :: name)
      ∧ (58 ∉ name)
      ∧ find_user name = Fine (Some u).
Proof.
  unfold Web.get_user_by_token. split.
  - destruct (jwt_decode token) as [payload|]; [|discriminate].
    destruct (payload !! "sub") as [subject|] eqn:Hsub; [|discriminate].
    destruct (truthy subject); cbn [negb]; [|discriminate].
    destruct (split_on 58 subject) as [|kind [|username [|? ?]]] eqn:Hsplit;
      try discriminate.
    destruct (str_eqb kind (py "user")) eqn:Hkind; cbn [negb]; [|discriminate].
    apply str_eqb_true in Hkind. subst kind.
    apply split_on_pair in Hsplit as (-> & _ & Hname).
    intros Hfind. exists payload, username. auto.
  - intros (payload & name & -> & -> & Hname & Hfind).
    assert (Hsplit : split_on 58 (py "user" ++ 58 :: name) = [py "user"; name]).
    { apply split_on_pair. split; [reflexivity|]. split; [|exact Hname].
      apply (bool_decide_eq_false_1 _). vm_compute. reflexivity. }
    rewrite Hsplit.
    replace (truthy (py "user" ++ 58 :: name)) with true by reflexivity.
    cbn [negb].
    replace (str_eqb (py "user") (py "user")) with true
      by (symmetry; apply str_eqb_true; reflexivity).
    exact Hfind.
Qed.

(** X21.  A route guarded by a scope is served exactly when the token in
    use (the bearer token unless it is absent or empty, else the one of
    the session) decodes to a payload whose subject is [user:<name>]
    with no further colon in the name, the name is a stored account
    whose record parses to a user allowed to log in, and that user has
    the scope. *)
Theorem guarded_route_is_served (scope : pystr) (token session_token : option pystr)
    (u : User) :
  guarded scope token session_token = Fine u
  ↔ ∃ t payload name raw,
      token_or_session token session_token = Some t
      ∧ jwt_decode t = Some payload
      ∧ payload !! "sub" = Some (py "user" ++ 58 :: name)
      ∧ (58 ∉ name)
      ∧ accounts !! name = Some raw
      ∧ parse_user raw = Fine u
      ∧ login u = true
      ∧ has_scope u scope = true.
Proof.
  unfold Web.guarded, get_current_user. split.
  - destruct (token_or_session token session_token) as [t|]; [|discriminate].
    destruct (Web.get_user_by_token _ _ _ _ t) as [[v|]|e] eqn:E; try discriminate.
    cbn [require_login]. unfold RequireScope.
    destruct (has_scope v scope) eqn:Hs; cbn [negb]; [|discriminate].
    intros [= ->].
    apply get_user_by_token_some in E as (payload & name & Hd & Hsub & Hname & Hfind).
    apply find_user_some in Hfind as (raw & Hraw & Hparse & Hlogin).
    exists t, payload, name, raw. auto 10.
  - intros (t & payload & name & raw & -> & Hd & Hsub & Hname & Hraw & Hparse & Hlogin & Hs).
    assert (E : get_user_by_token t = Fine (Some u)).
    { apply get_user_by_token_some. exists payload, name.
      repeat (split; [assumption|]).
      apply find_user_some. exists raw. auto. }
    rewrite E. cbn [require_login]. unfold RequireScope. rewrite Hs. reflexivity.
Qed.

(** X22.  A token whose subject names a stored account that may not log
    in is answered with status 401 and the message of a disabled
    account, whatever scope the route asks for. *)
Theorem disabled_account_is_refused (scope : pystr) (token session_token : option pystr)
    (t : pystr) (payload : gmap string pystr) (name : pystr) (raw : Raw) (u : User) :
  token_or_session token session_token = Some t →
  jwt_decode t = Some payload →
  payload !! "sub" = Some (py "user" ++ 58 :: name) →
  58 ∉ name →
  accounts !! name = Some raw →
  parse_user raw = Fine u →
  login u = false →
  guarded scope token session_token = Raised (HTTPException 401 "account_disabled").
Proof.
  intros Ht Hd Hsub Hname Hraw Hparse Hlogin.
  unfold Web.guarded, get_current_user. rewrite Ht.
  unfold Web.get_user_by_token. rewrite Hd, Hsub.
  assert (Hsplit : split_on 58 (py "user" ++ 58 :: name) = [py "user"; name]).
  { apply split_on_pair. split; [reflexivity|]. split; [|exact Hname].
    apply (bool_decide_eq_false_1 _). vm_compute. reflexivity. }
  rewrite Hsplit.
  replace (truthy (py "user" ++ 58 :: name)) with true by reflexivity.
  cbn [negb].
  replace (str_eqb (py "user") (py "user")) with true
    by (symmetry; apply str_eqb_true; reflexivity).
  cbn [negb]. unfold Web.find_user. rewrite Hraw, Hparse, Hlogin. reflexivity.
Qed.

(** X23.  A subject with a colon in the user name is never looked up:
    the request is answered with status 401 and the message of a bad
    token, even when an account of that name is stored. *)
Theorem colon_in_user_name_is_refused (scope : pystr) (token session_token : option pystr)
    (t : pystr) (payload : gmap string pystr) (name : pystr) :
  token_or_session token session_token = Some t →
  jwt_decode t = Some payload →
  payload !! "sub" = Some (py "user" ++ 58 :: name) →
  58 ∈ name →
  guarded scope token session_token = Raised (HTTPException 401 "bad_jwt").
Proof.
  intros Ht Hd Hsub Hname.
  unfold Web.guarded, get_current_user. rewrite Ht.
  unfold Web.get_user_by_token. rewrite Hd, Hsub.
  replace (truthy (py "user" ++ 58 :: name)) with true by reflexivity.
  cbn [negb].
  destruct (split_on 58 (py "user" ++ 58 :: name))
    as [|kind [|username [|? ?]]] eqn:Hsplit; try reflexivity.
  apply split_on_pair in Hsplit as (Heq & Hkind & Huser).
  destruct (str_eqb kind (py "user")) eqn:Hk; cbn [negb]; [|reflexivity].
  apply str_eqb_true in Hk. subst kind.
  apply app_inv_head in Heq. injection Heq as <-. contradiction.
Qed.

End LoginProperties.

Section SocketProperties.
Context `{Countable WebSocket}.

(** The number of [connect] calls of a sequence. *)
Fixpoint connects (calls : list (Call (WebSocket := WebSocket))) : nat :=
  match calls with
  | [] => 0
  | Connect _ :: rest => S (connects rest)
  | Disconnect _ :: rest => connects rest
  end.

(** The last call of a sequence on a socket: [Some true] for a
    [connect], [Some false] for a [disconnect]. *)
Fixpoint last_call (ws : WebSocket) (calls : list Call) : option bool :=
  match calls with
  | [] => None
  | call :: rest =>
      match last_call ws rest with
      | Some b => Some b
      | None =>
          match call with
          | Connect ws' => if decide (ws' = ws) then Some true else None
          | Disconnect ws' => if decide (ws' = ws) then Some false else None
          end
      end
  end.

(** X24.  Handles are numbered consecutively in the order of the
    [connect] calls, from the count the manager starts with: a
    [disconnect], failed or not, and a second [connect] of a socket
    never free or repeat a number. *)
Theorem handle_ids_are_consecutive (calls : list Call) (mgr : SocketManager) :
  (run calls mgr).2 = (λ i, allocated mgr + 1 + Z.of_nat i) <$> seq 0 (connects calls)
  ∧ allocated (run calls mgr).1 = allocated mgr + Z.of_nat (connects calls).
Proof.
  revert mgr. induction calls as [|[ws|ws] rest IH]; intros mgr; cbn [run connects].
  - cbn. split; [reflexivity|lia].
  - unfold connect.
    destruct (run rest _) as [mgr2 ids] eqn:E.
    specialize (IH (mkManager ({[ws]} ∪ active_connections mgr) (allocated mgr + 1))).
    rewrite E in IH. cbn [fst snd allocated] in *. destruct IH as [-> ->].
    split; [|lia].
    cbn [seq fmap list_fmap]. f_equal; [lia|].
    rewrite <- seq_shift.
    change (map S (seq 0 (connects rest))) with (S <$> seq 0 (connects rest)).
    rewrite <- list_fmap_compose.
    apply list_fmap_ext. intros _ i _. cbn. lia.
  - unfold disconnect. destruct (decide (ws ∈ active_connections mgr)).
    + specialize (IH (mkManager (active_connections mgr ∖ {[ws]}) (allocated mgr))).
      exact IH.
    + apply IH.
Qed.

(** X25.  After any sequence of calls a socket is active exactly when
    the last call on it was a [connect], or no call was on it and it was
    active before: connecting a socket twice and disconnecting it once
    leaves it inactive. *)
Theorem active_after_calls (calls : list Call) (mgr : SocketManager) (ws : WebSocket) :
  ws ∈ active_connections (run calls mgr).1
  ↔ match last_call ws calls with
    | Some b => b = true
    | None => ws ∈ active_connections mgr
    end.
Proof.
  revert mgr. induction calls as [|[ws'|ws'] rest IH]; intros mgr;
    cbn [run last_call].
  - reflexivity.
  - unfold connect.
    destruct (run rest _) as [mgr2 ids] eqn:E.
    specialize (IH (mkManager ({[ws']} ∪ active_connections mgr) (allocated mgr + 1))).
    rewrite E in IH. cbn [fst active_connections] in *. rewrite IH.
    destruct (last_call ws rest) as [b|]; [reflexivity|].
    rewrite elem_of_union, elem_of_singleton.
    destruct (decide (ws' = ws)) as [->|Hne].
    + split; [reflexivity|]. intros _. left. reflexivity.
    + split; [|auto]. intros [Heq|Hin]; [congruence|exact Hin].
  - unfold disconnect. destruct (decide (ws' ∈ active_connections mgr)) as [Hin|Hout].
    + rewrite IH. cbn [active_connections].
      destruct (last_call ws rest) as [b|]; [reflexivity|].
      rewrite elem_of_difference, elem_of_singleton.
      destruct (decide (ws' = ws)) as [->|Hne].
      * split; [|discriminate]. intros [_ Hn]. destruct Hn. reflexivity.
      * split; [intros [Hw _]; exact Hw|]. intros Hw. split; [exact Hw|congruence].
    + rewrite IH.
      destruct (last_call ws rest) as [b|]; [reflexivity|].
      destruct (decide (ws' = ws)) as [->|Hne]; [|reflexivity].
      split; [contradiction|discriminate].
Qed.

(** X26.  [disconnect] of a socket that is not active raises the
    [KeyError] of [set.remove]; after a [disconnect] that returned, the
    next one on the same socket raises it. *)
Theorem disconnect_twice_raises (mgr mgr' : SocketManager) (ws : WebSocket) :
  disconnect mgr ws = Fine mgr' →
  ws ∈ active_connections mgr
  ∧ allocated mgr' = allocated mgr
  ∧ disconnect mgr' ws = Raised SetKeyError.
Proof.
  unfold disconnect. destruct (decide (ws ∈ active_connections mgr)) as [Hin|Hout];
    [|discriminate].
  intros [= <-]. cbn [active_connections allocated].
  split; [exact Hin|]. split; [reflexivity|].
  destruct (decide (ws ∈ active_connections mgr ∖ {[ws]})) as [Hin'|]; [|reflexivity].
  apply elem_of_difference in Hin' as [_ Hn]. destruct Hn.
  apply elem_of_singleton. reflexivity.
Qed.

(** X27.  A broadcast reaches the active sockets outside the exclusions;
    no exclusions and an empty set of exclusions are the same. *)
Theorem broadcast_reaches_active_minus_exclusions (mgr : SocketManager)
    (exclusions : option (gset WebSocket)) :
  broadcast_recipients mgr exclusions
  = active_connections mgr ∖ default ∅ exclusions.
Proof.
  unfold broadcast_recipients. apply set_eq. intros c.
  rewrite elem_of_filter, elem_of_difference.
  destruct exclusions as [ex|]; cbn [default].
  - rewrite orb_true_iff, !bool_decide_eq_true. split.
    + intros [[->|Hex] Hc]; (split; [exact Hc|]);
        [apply not_elem_of_empty|exact Hex].
    + intros [Hc Hex]. split; [right; exact Hex|exact Hc].
  - split.
    + intros [_ Hc]. split; [exact Hc|apply not_elem_of_empty].
    + intros [Hc _]. split; [reflexivity|exact Hc].
Qed.

End SocketProperties.

Lemma receive_text_pings (pongs : nat) (text : pystr) (rest : list pystr) :
  text ≠ ping →
  receive_text (replicate pongs ping ++ text :: rest) = Some (text, pongs, rest).
Proof.
  intros Hne. induction pongs as [|n IH]; cbn [replicate app receive_text].
  - destruct (str_eqb text ping) eqn:E; [|reflexivity].
    apply str_eqb_true in E. contradiction.
  - replace (str_eqb ping ping) with true
      by (symmetry; apply str_eqb_true; reflexivity).
    rewrite IH. reflexivity.
Qed.

(** X28.  [receive_text] returns a text exactly when the socket has
    delivered some pings followed by a text that is not a ping: it
    returns that text, has answered every ping before it with one pong,
    and has read nothing after it. *)
Theorem receive_text_skips_pings (incoming : list pystr) (text : pystr) (pongs : nat)
    (rest : list pystr) :
  receive_text incoming = Some (text, pongs, rest)
  ↔ incoming = replicate pongs ping ++ text :: rest ∧ text ≠ ping.
Proof.
  split.
  - revert pongs. induction incoming as [|t inc IH]; intros pongs; cbn [receive_text];
      [discriminate|].
    destruct (str_eqb t ping) eqn:E.
    + apply str_eqb_true in E. subst t.
      destruct (receive_text inc) as [[[t' n] r]|]; [|discriminate].
      intros [= -> <- ->]. destruct (IH n eq_refl) as [-> Hne].
      split; [reflexivity|exact Hne].
    + intros [= -> <- ->]. split; [reflexivity|].
      intros ->. unfold str_eqb in E.
      rewrite bool_decide_eq_true_2 in E by reflexivity. discriminate.
  - intros [-> Hne]. apply receive_text_pings. exact Hne.
Qed.

(** X29.  While every text delivered is a ping, [receive_text] has not
    returned. *)
Theorem receive_text_waits_on_pings (incoming : list pystr) :
  receive_text incoming = None ↔ Forall (λ t, t = ping) incoming.
Proof.
  induction incoming as [|t inc IH]; cbn [receive_text].
  - split; [intros _; apply Forall_nil_2|reflexivity].
  - destruct (str_eqb t ping) eqn:E.
    + apply str_eqb_true in E. subst t.
      destruct (receive_text inc) as [[[t' n] r]|].
      * split; [discriminate|].
        intros [_ Hall]%Forall_cons. apply IH in Hall. discriminate.
      * split; [|reflexivity]. intros _. apply Forall_cons.
        split; [reflexivity|]. apply IH. reflexivity.
    + split; [discriminate|]. intros [-> _]%Forall_cons.
      unfold str_eqb in E. rewrite bool_decide_eq_true_2 in E by reflexivity.
      discriminate.
Qed.

End WebProperties.

(** * Worked examples for the further properties *)

(** [a], a blank line, [b]: two text objects. *)
Definition tree_two_paragraphs : Tree :=
  [ top [IStr (py "a" ++ double_newline ++ py "b")] ].

Lemma fold_document_two_paragraphs :
  fold_document (api := examples) config plain_object tree_two_paragraphs
  = Ok [ <["text" := VStr (py "a")]> (kwargs text_node);
         <["text" := VStr (py "b")]> (kwargs text_node) ].
Proof.
  refine (fold_document_one_object_per_paragraph (api := examples) config plain_object
            (λ kw, kw) tree_two_paragraphs [py "a" ++ double_newline ++ py "b"]
            (py "a") [py "b"] (λ _, eq_refl) eq_refl eq_refl _).
  repeat (apply Forall_cons_2; [split; [discriminate|reflexivity]|]).
  apply Forall_nil_2.
Defined.

(** The marker of problem 1, then [a], a blank line, [b]. *)
Definition problem_marker : MetadataNode :=
  MetadataNode_init (py "problem") true (<["num" := VStr (py "1.")]> ∅).

Definition tree_problem : Tree :=
  [ top [IMeta problem_marker; IStr (py "a" ++ double_newline ++ py "b");
         IMeta text_node] ].

Lemma fold_document_problem_statement :
  fold_document (api := examples) config plain_object tree_problem
  = Ok [ <["text" := VStr (py "a")]> (kwargs problem_marker);
         <["text" := VStr (py "b")]> (kwargs text_node) ].
Proof.
  refine (fold_document_marker_takes_first_paragraph (api := examples) config
            plain_object (λ kw, kw) tree_problem problem_marker
            [py "a" ++ double_newline ++ py "b"] (py "a") [py "b"] [text_node]
            (λ _, eq_refl) eq_refl eq_refl eq_refl eq_refl _ _).
  - repeat (apply Forall_cons_2; [split; [discriminate|reflexivity]|]).
    apply Forall_nil_2.
  - apply Forall_cons_2; [|apply Forall_nil_2].
    split; [reflexivity|left; reflexivity].
Defined.

Definition tree_markers : Tree := [ top [IMeta problem_marker; IMeta text_node] ].

Lemma fold_document_markers_only :
  fold_document (api := examples) config plain_object tree_markers = Ok [].
Proof.
  refine (fold_document_drops_markers_without_text (api := examples) config
            plain_object tree_markers [problem_marker; text_node] _ eq_refl _).
  - reflexivity.
  - repeat (apply Forall_cons_2; [split; [reflexivity|left; reflexivity]|]).
    apply Forall_nil_2.
Defined.



Lemma rewrite_loop_bold_z_fixed_point :
  ∃ context' soup',
    rewrite_loop (api := examples) config BuiltinCommands [0; -1; -333] 10
      fresh tree_bold_z = Ok (context', soup')
    ∧ priority_scan (api := examples) config BuiltinCommands [0; -1; -333]
        context' soup' priority_cap = Ok (context', soup', priority_cap)
    ∧ ∀ again,
        rewrite_loop (api := examples) config BuiltinCommands [0; -1; -333]
          (S again) context' soup' = Ok (context', soup').
Proof.
  destruct (holds_elim
              (rewrite_loop (api := examples) config BuiltinCommands [0; -1; -333] 10
                 fresh tree_bold_z)
              (λ _, true))
    as ([c s] & E & _).
  { vm_compute. reflexivity. }
  exists c, s. split; [exact E|].
  refine (rewrite_loop_returns_fixed_point (api := examples) config BuiltinCommands
            [0; -1; -333] 10 fresh tree_bold_z c s _ E).
  apply (bool_decide_eq_false_1 _). vm_compute. reflexivity.
Defined.

Definition config_no_iteration : Config := mkConfig 20000 0 10 97 [].

Lemma convert_latex_hello_without_iteration :
  convert_latex (api := examples) config_no_iteration BuiltinCommands doc_hello
  = Raise (ValueError (NestingLimitExceeded 0)).
Proof.
  refine (convert_latex_needs_an_iteration (api := examples) config_no_iteration
            BuiltinCommands doc_hello tree_hello _ eq_refl eq_refl).
  vm_compute. discriminate.
Defined.

(** [\it] *)
Definition tree_it : Tree :=
  [ top [INode (cmd 1 "it")];
    mkExpr (cmd 1 "it") 0 [] [] ].

Lemma error_command_it :
  priority_scan (api := examples) config BuiltinCommands [0; -1; -333] fresh tree_it
    priority_cap
  = Raise (ValueError (InvalidCommand (py "it") (py "textit")))
  ∧ rewrite_loop (api := examples) config BuiltinCommands [0; -1; -333] 10 fresh tree_it
    = Raise (ValueError (InvalidCommand (py "it") (py "textit"))).
Proof.
  refine (error_command_stops_conversion (api := examples) config BuiltinCommands 0
            [] [] (cmd 1 "it") [-1; -333] 9 fresh tree_it fresh tree_it priority_cap
            (mkCommand 0 (ErrorCommand (py "textit"))) (py "textit") []
            _ eq_refl _ eq_refl eq_refl).
  - vm_compute. reflexivity.
  - vm_compute. reflexivity.
Defined.

Lemma apply_effects_sheetid :
  apply (api := examples) config (mkCommand 0 (GlobalConfig "sheet_id" true))
    fresh tree_blank_id (cmd 1 "sheetid") [py " 7 "]
  = Ok (<["sheet_id" := CStr (py "7")]> fresh, tree_blank_id, Single (RStr []))
  ∧ ∀ key, key ≠ "sheet_id" →
      (<["sheet_id" := CStr (py "7")]> fresh : gmap string (CtxVal (api := examples)))
        !! key
      = fresh !! key.
Proof.
  split; [reflexivity|].
  refine (proj2 (apply_effects (api := examples) config
                   (mkCommand 0 (GlobalConfig "sheet_id" true))
                   fresh (<["sheet_id" := CStr (py "7")]> fresh)
                   tree_blank_id tree_blank_id (cmd 1 "sheetid") [py " 7 "]
                   (Single (RStr [])) _)).
  reflexivity.
Defined.

Lemma convert_latex_refuses_newcommand :
  ¬ ∃ result,
      convert_latex (api := examples) config BuiltinCommands doc_newcommand = Ok result.
Proof.
  intros [result Hresult].
  exact (convert_latex_refuses_definitions (api := examples) config BuiltinCommands
           doc_newcommand tree_newcommand (cmd 1 "newcommand") [] result eq_refl eq_refl
           Hresult).
Defined.

(** [\begin{center}x\end{center}] *)
Definition env (i : nat) (name : string) : Handle := mkHandle i (py name) KEnv.

Definition tree_center : Tree :=
  [ top [INode (env 1 "center")];
    mkExpr (env 1 "center") 0 [] [IStr (py "x")] ].

Lemma TextEnv_apply_center :
  apply (api := examples) config (TextEnv_init (py "#1") 1 (py "text") None false)
    fresh tree_center (env 1 "center") []
  = Ok (fresh, tree_center,
        Tuple [RMeta text_node; RStr (py "x"); RMeta text_node])
  ∧ apply (api := examples) config (TextEnv_init (py "#1") 1 (py "text") None false)
      fresh tree_center (env 1 "center") [py "y"]
    = Raise (ValueError (InvalidEnvArgumentCount (py "center") 1)).
Proof.
  exact (TextEnv_apply_wraps_contents (api := examples) config (py "text") fresh
           tree_center (env 1 "center") [py "x"] (py "y") [] eq_refl).
Defined.

(** [\begin{itemize}\item a\item b\end{itemize}] *)
Definition tree_itemize : Tree :=
  [ top [INode (env 1 "itemize")];
    mkExpr (env 1 "itemize") 0 [] [INode (cmd 2 "item"); INode (cmd 3 "item")];
    mkExpr (cmd 2 "item") 1 [] [IStr (py " a")];
    mkExpr (cmd 3 "item") 1 [] [IStr (py " b")] ].

Lemma ItemExtractor_two_items :
  apply (api := examples) config (mkCommand 0 (ItemExtractor (py "* %(item)s")))
    fresh tree_itemize (env 1 "itemize") []
  = Ok (fresh, set_contents (TexSoupAPI := examples) tree_itemize (env 1 "itemize") [],
        Tuple [RMeta (MetadataNode_init (py "text") true
                        {[ "text" := VStr (double_newline ++ py "* a" ++ [nl] ++ py "* b") ]});
               RMeta text_node]).
Proof.
  refine (ItemExtractor_lists_items (api := examples) config fresh tree_itemize
            (env 1 "itemize") [cmd 2 "item"; cmd 3 "item"] [] eq_refl _).
  repeat (apply Forall_cons_2; [split; reflexivity|]).
  apply Forall_nil_2.
Defined.

(** [\begin{itemize}x\item a\end{itemize}] *)
Definition tree_itemize_text : Tree :=
  [ top [INode (env 1 "itemize")];
    mkExpr (env 1 "itemize") 0 [] [IStr (py "x"); INode (cmd 2 "item")];
    mkExpr (cmd 2 "item") 1 [] [IStr (py " a")] ].

Lemma ItemExtractor_leading_text :
  apply (api := examples) config (mkCommand 0 (ItemExtractor (py "* %(item)s")))
    fresh tree_itemize_text (env 1 "itemize") []
  = Raise (ValueError (ItemExpected (py "x"))).
Proof.
  refine (ItemExtractor_requires_leading_item (api := examples) config
            (py "* %(item)s") fresh tree_itemize_text (env 1 "itemize")
            [] (IStr (py "x")) [INode (cmd 2 "item")] (py "x") []
            eq_refl _ eq_refl _ eq_refl).
  - apply Forall_nil_2.
  - intros n Hn. discriminate Hn.
Defined.

(** The tree an item list of one item leaves behind. *)
Definition item_list_marker : MetadataNode :=
  MetadataNode_init (py "text") true
    {[ "text" := VStr (double_newline ++ py "* a") ]}.

Definition tree_item_list : Tree :=
  [ top [IMeta item_list_marker; IMeta text_node] ].

Lemma fold_document_item_list :
  fold_document (api := examples) config plain_object tree_item_list
  = Ok [ <["text" := VStr []]> (kwargs item_list_marker);
         <["text" := VStr (py "* a")]> (kwargs text_node) ].
Proof.
  refine (fold_document_item_list_leaves_empty_object (api := examples) config
            plain_object (λ kw, kw) tree_item_list item_list_marker (py "* a")
            [text_node] (λ _, eq_refl) eq_refl eq_refl eq_refl _ _ _).
  - split; [discriminate|reflexivity].
  - apply Forall_cons_2; [|apply Forall_nil_2].
    split; [reflexivity|left; reflexivity].
  - discriminate.
Defined.

(** A decoder that knows one token, and an account store of one
    disabled account: a record is the login privilege of its user. *)
Definition decode_example (subject : pystr) (token : pystr) : option (gmap string pystr) :=
  if str_eqb token (py "token") then Some {[ "sub" := subject ]} else None.

Definition accounts_example : gmap pystr bool := {[ py "bob" := false ]}.

Lemma disabled_account_bob :
  Web.guarded (decode_example (py "user:bob")) accounts_example Web.Fine (λ u, u) (λ _ _, true)
    (py "admin") (Some (py "token")) None
  = Web.Raised (Web.HTTPException 401 "account_disabled").
Proof.
  refine (WebProperties.disabled_account_is_refused
            (decode_example (py "user:bob")) accounts_example Web.Fine (λ u, u) (λ _ _, true)
            (py "admin") (Some (py "token")) None
            (py "token") {[ "sub" := py "user:bob" ]} (py "bob") false false
            eq_refl eq_refl eq_refl _ eq_refl eq_refl eq_refl).
  apply (bool_decide_eq_false_1 _). vm_compute. reflexivity.
Defined.

Lemma colon_in_user_name_example :
  Web.guarded (decode_example (py "user:a:b")) accounts_example Web.Fine (λ u, u) (λ _ _, true)
    (py "admin") None (Some (py "token"))
  = Web.Raised (Web.HTTPException 401 "bad_jwt").
Proof.
  refine (WebProperties.colon_in_user_name_is_refused
            (decode_example (py "user:a:b")) accounts_example Web.Fine (λ u, u) (λ _ _, true)
            (py "admin") None (Some (py "token"))
            (py "token") {[ "sub" := py "user:a:b" ]} (py "a:b")
            eq_refl eq_refl eq_refl _).
  apply (bool_decide_eq_true_1 _). vm_compute. reflexivity.
Defined.

(** A manager after one [connect], and after the [disconnect] of that
    socket. *)
Definition manager_connected : Web.SocketManager (WebSocket := nat) :=
  (Web.connect Web.SocketManager_init 7%nat).1.

Definition manager_disconnected : Web.SocketManager (WebSocket := nat) :=
  Web.mkManager (Web.active_connections manager_connected ∖ {[7%nat]}) 1.

Lemma disconnect_twice_example :
  (7%nat ∈ Web.active_connections manager_connected)
  ∧ Web.allocated manager_disconnected = Web.allocated manager_connected
  ∧ Web.disconnect manager_disconnected 7%nat = Web.Raised Web.SetKeyError.
Proof.
  refine (WebProperties.disconnect_twice_raises manager_connected manager_disconnected
            7%nat _).
  vm_compute. reflexivity.
Defined.
